(** * Avvo profile scraper: extraction, pagination and row materialisation

    A shallow embedding of [avvo_scraper_direct_to_csv.py] and
    [html_to_csv_converter.py].

    Conventions of the embedding.
    - Python [str] values are [string]s.  The Python string operations used
      by the program ([strip], [split], [upper], [title], the [re] classes
      [\s] and [\d], case-insensitive matching) are modelled on ASCII text,
      which is what profile URLs, page numbers and English dates are made of.
      Bytes above 127 are carried along unchanged and count as neither
      space, digit nor letter.
    - Python [int] is [Z].
    - A Python exception is an explicit error value: a function that can
      raise returns [result]; a [try]/[except] block is a match on it.
    - The browser ([driver]) and the parsed documents are modelled by what
      the program observes of them: the list of review containers found by
      [find_all('div', class_='client-review')], the text of the elements it
      looks up, the links Selenium returns.
    - Printing, sleeping and the optional copy of the HTML to a file are
      left out. *)

From stdpp Require Import gmap strings sorting.
From Stdlib Require Import ZArith Ascii String List Bool Lia DecimalString.
Import ListNotations.

Local Open Scope string_scope.
Local Open Scope Z_scope.

(** ** Python string operations (ASCII) *)

Module Py.

Definition code (c : ascii) : Z := Z.of_N (N_of_ascii c).

(** [str.isspace] / [\s] on ASCII: tab, newline, vertical tab, form feed,
    carriage return, the separators 0x1c-0x1f and the space. *)
Definition is_space (c : ascii) : bool :=
  ((9 <=? code c) && (code c <=? 13))
  || ((28 <=? code c) && (code c <=? 32)).

(** [\d] on ASCII. *)
Definition is_digit (c : ascii) : bool :=
  (48 <=? code c) && (code c <=? 57).

Definition digit_val (c : ascii) : Z := code c - 48.

Definition is_upper (c : ascii) : bool := (65 <=? code c) && (code c <=? 90).
Definition is_lower (c : ascii) : bool := (97 <=? code c) && (code c <=? 122).
Definition is_alpha (c : ascii) : bool := is_upper c || is_lower c.

Definition of_code (z : Z) : ascii := ascii_of_N (Z.to_N z).

Definition to_lower (c : ascii) : ascii :=
  if is_upper c then of_code (code c + 32) else c.
Definition to_upper (c : ascii) : ascii :=
  if is_lower c then of_code (code c - 32) else c.

(** Comparison of two characters under [re.IGNORECASE]. *)
Definition ci_eqb (a b : ascii) : bool := Ascii.eqb (to_lower a) (to_lower b).

Fixpoint lstrip (s : string) : string :=
  match s with
  | String c s' => if is_space c then lstrip s' else s
  | EmptyString => EmptyString
  end.

Fixpoint rstrip (s : string) : string :=
  match s with
  | String c s' =>
      match rstrip s' with
      | EmptyString => if is_space c then EmptyString else String c EmptyString
      | r => String c r
      end
  | EmptyString => EmptyString
  end.

(** [s.strip()] *)
Definition strip (s : string) : string := rstrip (lstrip s).

(** [s.upper()] *)
Fixpoint upper (s : string) : string :=
  match s with
  | String c s' => String (to_upper c) (upper s')
  | EmptyString => EmptyString
  end.

(** [s.lower()] *)
Fixpoint lower (s : string) : string :=
  match s with
  | String c s' => String (to_lower c) (lower s')
  | EmptyString => EmptyString
  end.

(** [s.title()]: a letter that follows a letter is lower-cased, any other
    letter is upper-cased; [prev] tells whether the previous character was
    a letter. *)
Fixpoint title_from (prev : bool) (s : string) : string :=
  match s with
  | String c s' =>
      String (if prev then to_lower c else to_upper c)
             (title_from (is_alpha c) s')
  | EmptyString => EmptyString
  end.

Definition title (s : string) : string := title_from false s.

(** [s.split(sep)] for a one-character separator: the current token is
    accumulated in [cur] (reversed on the way). *)
Fixpoint split_from (sep : ascii) (cur : string) (s : string) : list string :=
  match s with
  | String c s' =>
      if Ascii.eqb c sep then cur :: split_from sep EmptyString s'
      else split_from sep (cur ++ String c EmptyString) s'
  | EmptyString => [cur]
  end.

Definition split (sep : ascii) (s : string) : list string :=
  split_from sep EmptyString s.

(** [sep.join(l)] *)
Fixpoint join (sep : string) (l : list string) : string :=
  match l with
  | [] => EmptyString
  | [x] => x
  | x :: l' => x ++ sep ++ join sep l'
  end.

(** [s.replace(a, b)] for single characters. *)
Fixpoint replace_char (a b : ascii) (s : string) : string :=
  match s with
  | String c s' => String (if Ascii.eqb c a then b else c) (replace_char a b s')
  | EmptyString => EmptyString
  end.

(** [s.startswith(p)], returning the rest of [s] after [p]. *)
Fixpoint strip_prefix (p s : string) : option string :=
  match p, s with
  | EmptyString, _ => Some s
  | String a p', String b s' =>
      if Ascii.eqb a b then strip_prefix p' s' else None
  | String _ _, EmptyString => None
  end.

Definition startswith (s p : string) : bool :=
  match strip_prefix p s with Some _ => true | None => false end.

(** The same, ignoring case. *)
Fixpoint strip_prefix_ci (p s : string) : option string :=
  match p, s with
  | EmptyString, _ => Some s
  | String a p', String b s' =>
      if ci_eqb a b then strip_prefix_ci p' s' else None
  | String _ _, EmptyString => None
  end.

(** [p in s] *)
Fixpoint contains (p s : string) : bool :=
  startswith s p
  || match s with
     | String _ s' => contains p s'
     | EmptyString => false
     end.

(** The longest prefix of digits of [s] and what follows it. *)
Fixpoint span_digits (s : string) : string * string :=
  match s with
  | String c s' =>
      if is_digit c then
        let '(d, r) := span_digits s' in (String c d, r)
      else (EmptyString, s)
  | EmptyString => (EmptyString, EmptyString)
  end.

(** [int(s)] for a string of ASCII digits. *)
Fixpoint int_from (acc : Z) (s : string) : Z :=
  match s with
  | String c s' => int_from (10 * acc + digit_val c) s'
  | EmptyString => acc
  end.

Definition int_of_digits (s : string) : Z := int_from 0 s.

(** [s.isdigit()] on ASCII: non-empty and all digits. *)
Fixpoint all_digits (s : string) : bool :=
  match s with
  | String c s' => is_digit c && all_digits s'
  | EmptyString => true
  end.

Definition isdigit (s : string) : bool :=
  match s with
  | EmptyString => false
  | _ => all_digits s
  end.

(** [c] does not occur in [s]. *)
Fixpoint no_char (c : ascii) (s : string) : Prop :=
  match s with
  | String a s' => a <> c /\ no_char c s'
  | EmptyString => True
  end.

(** No character of [s] is white space. *)
Fixpoint no_space (s : string) : Prop :=
  match s with
  | String c s' => is_space c = false /\ no_space s'
  | EmptyString => True
  end.

(** Truth value of a string, as in [if s:]. *)
Definition truthy (s : string) : bool :=
  match s with EmptyString => false | _ => true end.

(** Truth value of an optional string ([None] or [''] are false). *)
Definition truthy_opt (o : option string) : bool :=
  match o with Some s => truthy s | None => false end.

(** Decimal digit of a number below ten. *)
Definition digit_char (d : Z) : ascii := of_code (48 + d).

(** ['%02d' % n] and ['%04d' % n] for a non-negative [n] that fits. *)
Definition pad2 (n : Z) : string :=
  String (digit_char (n / 10 mod 10)) (String (digit_char (n mod 10)) EmptyString).

Definition pad4 (n : Z) : string :=
  String (digit_char (n / 1000 mod 10))
    (String (digit_char (n / 100 mod 10)) (pad2 n)).

End Py.

(** ** [datetime] and [datetime.strptime] *)

Module DateTime.

(** A naive [datetime.datetime]. *)
Record datetime := mk_datetime {
  year : Z; month : Z; day : Z;
  hour : Z; minute : Z; second : Z; microsecond : Z
}.

Definition eqb (a b : datetime) : bool :=
  (year a =? year b) && (month a =? month b) && (day a =? day b)
  && (hour a =? hour b) && (minute a =? minute b)
  && (second a =? second b) && (microsecond a =? microsecond b).

Fixpoint lex_ltb (l1 l2 : list Z) : bool :=
  match l1, l2 with
  | x :: l1', y :: l2' => (x <? y) || ((x =? y) && lex_ltb l1' l2')
  | _, _ => false
  end.

Definition components (a : datetime) : list Z :=
  [year a; month a; day a; hour a; minute a; second a; microsecond a].

(** [a < b] on naive datetimes. *)
Definition ltb (a b : datetime) : bool :=
  lex_ltb (components a) (components b).

Definition is_leap (y : Z) : bool :=
  ((y mod 4 =? 0) && negb (y mod 100 =? 0)) || (y mod 400 =? 0).

Definition days_in_month (y m : Z) : Z :=
  if m =? 2 then (if is_leap y then 29 else 28)
  else if (m =? 4) || (m =? 6) || (m =? 9) || (m =? 11) then 30
  else 31.

(** The check made by the [date] constructor ([MINYEAR = 1],
    [MAXYEAR = 9999]). *)
Definition valid_date (y m d : Z) : bool :=
  (1 <=? y) && (y <=? 9999) && (1 <=? m) && (m <=? 12)
  && (1 <=? d) && (d <=? days_in_month y m).

(** *** The format directives used by the program

    [strptime] turns a format into a regular expression, matches it at the
    start of the text ([re.match], case-insensitive, backtracking) and
    rejects the text when the match does not reach its end.  A run of
    white space in the format becomes [\s+]. *)
Inductive directive := dB | db | dd | dm | dY.
Inductive item := Dir (d : directive) | Ws | Lit (c : ascii).

(** What the named groups of the match give; missing groups default to
    1900-01-01. *)
Record fields := mk_fields { f_year : Z; f_month : Z; f_day : Z }.
Definition no_fields : fields := mk_fields 1900 1 1.

Definition set_field (it : item) (v : Z) (f : fields) : fields :=
  match it with
  | Dir dY => mk_fields v (f_month f) (f_day f)
  | Dir dB | Dir db | Dir dm => mk_fields (f_year f) v (f_day f)
  | Dir dd => mk_fields (f_year f) (f_month f) v
  | Ws | Lit _ => f
  end.

(** Month names of the C locale, in the order [_strptime] puts them in
    its alternation (longest first, ties in calendar order). *)
Definition full_months : list (string * Z) :=
  [("september", 9); ("february", 2); ("november", 11); ("december", 12);
   ("january", 1); ("october", 10); ("august", 8); ("march", 3);
   ("april", 4); ("june", 6); ("july", 7); ("may", 5)].

Definition abbr_months : list (string * Z) :=
  [("jan", 1); ("feb", 2); ("mar", 3); ("apr", 4); ("may", 5); ("jun", 6);
   ("jul", 7); ("aug", 8); ("sep", 9); ("oct", 10); ("nov", 11); ("dec", 12)].

Fixpoint name_alts (names : list (string * Z)) (s : string) : list (Z * string) :=
  match names with
  | [] => []
  | (n, v) :: names' =>
      match Py.strip_prefix_ci n s with
      | Some r => (v, r) :: name_alts names' s
      | None => name_alts names' s
      end
  end.

(** [\s+], greedy: the longest run first, then shorter ones. *)
Fixpoint ws_alts (s : string) : list (Z * string) :=
  match s with
  | String c s' => if Py.is_space c then ws_alts s' ++ [(0, s')] else []
  | EmptyString => []
  end.

Definition in_range (lo hi : Z) (c : ascii) : bool :=
  (lo <=? Py.code c) && (Py.code c <=? hi).

(** One character of the classes [lo-hi]. *)
Definition one (lo hi : ascii) (s : string) : list (Z * string) :=
  match s with
  | String a r =>
      if in_range (Py.code lo) (Py.code hi) a then [(Py.digit_val a, r)] else []
  | EmptyString => []
  end.

(** A fixed character [c] followed by one of the class [lo-hi]. *)
Definition two (c lo hi : ascii) (s : string) : list (Z * string) :=
  match s with
  | String a (String b r) =>
      if Ascii.eqb a c && in_range (Py.code lo) (Py.code hi) b
      then [(10 * (if Py.is_digit a then Py.digit_val a else 0) + Py.digit_val b, r)]
      else []
  | _ => []
  end.

(** [%Y] is [\d\d\d\d]. *)
Definition year_alts (s : string) : list (Z * string) :=
  match s with
  | String a (String b (String c (String d r))) =>
      if Py.is_digit a && Py.is_digit b && Py.is_digit c && Py.is_digit d
      then [(Py.int_of_digits (String a (String b (String c (String d EmptyString)))), r)]
      else []
  | _ => []
  end.

(** [%m] is [1[0-2]|0[1-9]|[1-9]]. *)
Definition month_alts (s : string) : list (Z * string) :=
  two "1" "0" "2" s ++ two "0" "1" "9" s ++ one "1" "9" s.

(** [%d] is [3[01]|[12]\d|0[1-9]|[1-9]| [1-9]]. *)
Definition day_alts (s : string) : list (Z * string) :=
  two "3" "0" "1" s ++ two "1" "0" "9" s ++ two "2" "0" "9" s
  ++ two "0" "1" "9" s ++ one "1" "9" s ++ two " " "1" "9" s.

(** The ways one item can match at the start of [s], in the order the
    backtracking matcher tries them, each with the value of its group. *)
Definition alternatives (it : item) (s : string) : list (Z * string) :=
  match it with
  | Dir dB => name_alts full_months s
  | Dir db => name_alts abbr_months s
  | Dir dd => day_alts s
  | Dir dm => month_alts s
  | Dir dY => year_alts s
  | Ws => ws_alts s
  | Lit c =>
      match s with
      | String a r => if Py.ci_eqb c a then [(0, r)] else []
      | EmptyString => []
      end
  end.

(** The first way to match the whole format, if any. *)
Fixpoint re_match (fmt : list item) (s : string) (f : fields)
  : option (fields * string) :=
  match fmt with
  | [] => Some (f, s)
  | it :: fmt' =>
      (fix try (alts : list (Z * string)) : option (fields * string) :=
         match alts with
         | [] => None
         | (v, r) :: alts' =>
             match re_match fmt' r (set_field it v f) with
             | Some res => Some res
             | None => try alts'
             end
         end) (alternatives it s)
  end.

(** [datetime.strptime(s, fmt)]; [None] stands for [ValueError] (no match,
    unconverted data remains, or a date that does not exist). *)
Definition strptime (s : string) (fmt : list item) : option datetime :=
  match re_match fmt s no_fields with
  | Some (f, EmptyString) =>
      if valid_date (f_year f) (f_month f) (f_day f)
      then Some (mk_datetime (f_year f) (f_month f) (f_day f) 0 0 0 0)
      else None
  | _ => None
  end.

(** The loop [for fmt in formats: try: return strptime(s, fmt) except: continue]. *)
Fixpoint first_format (s : string) (fmts : list (list item)) : option datetime :=
  match fmts with
  | [] => None
  | fmt :: fmts' =>
      match strptime s fmt with
      | Some d => Some d
      | None => first_format s fmts'
      end
  end.

(** [d.isoformat()]: the time part is always printed, the microseconds
    only when they are not zero. *)
Definition date_isoformat (d : datetime) : string :=
  Py.pad4 (year d) ++ "-" ++ Py.pad2 (month d) ++ "-" ++ Py.pad2 (day d).

Definition pad6 (n : Z) : string := Py.pad2 (n / 10000) ++ Py.pad4 n.

(** [d.strftime('%Y-%m-%d')], with the year padded to four digits. *)
Definition strftime_date (d : datetime) : string := date_isoformat d.

(** [d.strftime('%Y-%m-%d %H:%M:%S')] *)
Definition strftime_seconds (d : datetime) : string :=
  date_isoformat d ++ " " ++ Py.pad2 (hour d) ++ ":" ++ Py.pad2 (minute d)
  ++ ":" ++ Py.pad2 (second d).

Definition isoformat (d : datetime) : string :=
  date_isoformat d ++ "T" ++ Py.pad2 (hour d) ++ ":" ++ Py.pad2 (minute d)
  ++ ":" ++ Py.pad2 (second d)
  ++ (if microsecond d =? 0 then "" else "." ++ pad6 (microsecond d)).

(** *** [datetime - timedelta(days=n)] *)

Definition days_before_year (y : Z) : Z :=
  let y' := y - 1 in y' * 365 + y' / 4 - y' / 100 + y' / 400.

Definition days_before_month_tbl : list Z :=
  [0; 31; 59; 90; 120; 151; 181; 212; 243; 273; 304; 334].

Definition days_before_month (y m : Z) : Z :=
  nth (Z.to_nat (m - 1)) days_before_month_tbl 0
  + (if (2 <? m) && is_leap y then 1 else 0).

(** [_ymd2ord] *)
Definition ymd2ord (y m d : Z) : Z :=
  days_before_year y + days_before_month y m + d.

(** [_ord2ymd] *)
Definition ord2ymd (n0 : Z) : Z * Z * Z :=
  let n := n0 - 1 in
  let n400 := n / 146097 in
  let n := n mod 146097 in
  let n100 := n / 36524 in
  let n := n mod 36524 in
  let n4 := n / 1461 in
  let n := n mod 1461 in
  let n1 := n / 365 in
  let n := n mod 365 in
  let y := n400 * 400 + 1 + n100 * 100 + n4 * 4 + n1 in
  if (n1 =? 4) || (n100 =? 4) then (y - 1, 12, 31)
  else
    let leapyear := (n1 =? 3) && (negb (n4 =? 24) || (n100 =? 3)) in
    let m := Z.shiftr (n + 50) 5 in
    let preceding :=
      nth (Z.to_nat (m - 1)) days_before_month_tbl 0
      + (if (2 <? m) && leapyear then 1 else 0) in
    if n <? preceding then
      let m' := m - 1 in
      let dim := (if m' =? 2 then (if leapyear then 29 else 28)
                  else if (m' =? 4) || (m' =? 6) || (m' =? 9) || (m' =? 11)
                       then 30 else 31) in
      (y, m', n - (preceding - dim) + 1)
    else (y, m, n - preceding + 1).

(** The largest ordinal, that of 9999-12-31. *)
Definition max_ordinal : Z := 3652059.

(** [d - timedelta(days=n)]; [None] stands for [OverflowError], raised by
    the [timedelta] constructor or by the subtraction. *)
Definition sub_days (d : datetime) (n : Z) : option datetime :=
  if (Z.abs n <=? 999999999) then
    let o := ymd2ord (year d) (month d) (day d) - n in
    if (1 <=? o) && (o <=? max_ordinal) then
      let '(y, m, d') := ord2ymd o in
      Some (mk_datetime y m d' (hour d) (minute d) (second d) (microsecond d))
    else None
  else None.

End DateTime.

(** ** Exceptions *)

Module Exc.

Inductive exn := ValueError | OverflowError.

(** The outcome of a computation that may raise. *)
Inductive result (A : Type) := Ok (a : A) | Raise (e : exn).
Arguments Ok {A} a.
Arguments Raise {A} e.

Definition bind {A B} (r : result A) (k : A -> result B) : result B :=
  match r with
  | Ok a => k a
  | Raise e => Raise e
  end.

Definition is_ok {A} (r : result A) : bool :=
  match r with Ok _ => true | Raise _ => false end.

End Exc.

Notation "'let*' x ':=' r 'in' k" := (Exc.bind r (fun x => k))
  (at level 10, x name, r at level 100, k at level 200).

(** ** [html_to_csv_converter.py] *)

Module Converter.

Import DateTime Exc.

(** The Python values the dictionaries hold.  A float is kept as the
    decimal literal it was read from. *)
Inductive value :=
| VNone
| VStr (s : string)
| VInt (n : Z)
| VBool (b : bool)
| VFloat (literal : string).

(** Truth value, as in [if v:]. *)
Definition truthy (v : value) : bool :=
  match v with
  | VNone => false
  | VStr s => Py.truthy s
  | VInt n => negb (n =? 0)
  | VBool b => b
  | VFloat _ => true
  end.

(** A value that is a non-empty string. *)
Definition is_text (v : value) : Prop := exists s, v = VStr s /\ s <> EmptyString.

(** [d.get(k)] *)
Definition get (d : gmap string value) (k : string) : value :=
  default VNone (d !! k).

(** *** What the extraction observes of a document

    A review container is a [<div class="client-review">]; the fields are
    the results of the look-ups the two programs make in it
    ([get_text(strip=True)] of the element found, or [None] when [find]
    returns nothing). *)
Record Response := mk_response {
  response_h4 : option string;
  response_span : option string;
  response_p : option string
}.

Record ReviewContainer := mk_container {
  (** number of [<i class="icon-star-yellow">] *)
  star_icons : nat;
  (** [<span class="tooltiptext">] of the header *)
  header_tooltip : option string;
  (** first [<span>] of the header paragraph, when it is not in a tooltip *)
  header_type_span : option string;
  (** groups 1 and 2 of ['Posted by (.+?)\s*\|\s*(.+?)(?:\s*\|)?$'] in the
      header paragraph, as the converter reads it *)
  posted_by : option (string * string);
  (** the date text the scraper's [extract_review_date_from_html] cuts out
      of the header paragraph, before it is parsed *)
  posted_date : option string;
  (** first [<h4>] *)
  title_h4 : option string;
  (** the [<span>]s of the paragraphs of [client-review-content] *)
  content_spans : option (list string);
  (** [attorney-review-response-container] *)
  response : option Response
}.

(** A parsed document ([BeautifulSoup(html, 'html.parser')]). *)
Record Soup := mk_soup {
  (** [<h1 class="profile-name">] *)
  h1_profile_name : option string;
  (** [href] of [<link rel="canonical">] *)
  link_canonical_href : option string;
  (** [<span class="avvo-rating-count">] *)
  span_avvo_rating_count : option string;
  (** [find_all('div', class_='client-review')], in document order; the
      containers are not nested in one another *)
  client_reviews : list ReviewContainer;
  (** where reviews appended to the page go: the number of containers
      that come before the end of the element the scraper appends to (the
      reviews section, else [<body>]); [None] when it finds neither *)
  insert_point : option nat;
  (** [get_text()] of the whole page *)
  page_text : string
}.

(** *** Regular expressions of the extraction *)

(** [[^/]+\.html] at the start of [t]: the longest group first. *)
Fixpoint html_split (t : string) : option string :=
  match t with
  | EmptyString => None
  | String c t' =>
      match (if Ascii.eqb c "/" then None else html_split t') with
      | Some p => Some (String c p)
      | None => if Py.startswith t ".html" then Some EmptyString else None
      end
  end.

(** [re.search(r'/attorneys/([^/]+)\.html', s)], giving group 1. *)
Fixpoint search_attorneys (s : string) : option string :=
  let here :=
    match Py.strip_prefix "/attorneys/" s with
    | Some (String c t) =>
        if Ascii.eqb c "/" then None
        else match html_split t with
             | Some p => Some (String c p)
             | None => None
             end
    | _ => None
    end in
  match here with
  | Some g => Some g
  | None =>
      match s with
      | String _ s' => search_attorneys s'
      | EmptyString => None
      end
  end.

(** The longest prefix of [s] made of digits and dots, [[\d.]+]. *)
Fixpoint span_number (s : string) : string :=
  match s with
  | String c s' =>
      if Py.is_digit c || Ascii.eqb c "." then String c (span_number s') else EmptyString
  | EmptyString => EmptyString
  end.

(** [re.search(r'Rating:\s*([\d.]+)', s)], giving group 1. *)
Fixpoint search_rating (s : string) : option string :=
  let here :=
    match Py.strip_prefix "Rating:" s with
    | Some r =>
        match span_number (Py.lstrip r) with
        | EmptyString => None
        | g => Some g
        end
    | None => None
    end in
  match here with
  | Some g => Some g
  | None =>
      match s with
      | String _ s' => search_rating s'
      | EmptyString => None
      end
  end.

(** The rest of the line: [.+] stops before a newline. *)
Fixpoint line (s : string) : string :=
  match s with
  | String c s' => if Ascii.eqb c "010" then EmptyString else String c (line s')
  | EmptyString => EmptyString
  end.

(** [re.search(r'Replied last (.+)', s, re.IGNORECASE)], giving group 1. *)
Fixpoint search_replied (s : string) : option string :=
  let here :=
    match Py.strip_prefix_ci "Replied last " s with
    | Some r =>
        match line r with
        | EmptyString => None
        | g => Some g
        end
    | None => None
    end in
  match here with
  | Some g => Some g
  | None =>
      match s with
      | String _ s' => search_replied s'
      | EmptyString => None
      end
  end.

Fixpoint count_char (c : ascii) (s : string) : nat :=
  match s with
  | String a s' => ((if Ascii.eqb a c then 1 else 0) + count_char c s')%nat
  | EmptyString => O
  end.

Fixpoint has_digit (s : string) : bool :=
  match s with
  | String a s' => Py.is_digit a || has_digit s'
  | EmptyString => false
  end.

(** [float(s)] for a text made of digits and dots: it is a number when
    it has at most one dot and at least one digit, and [ValueError]
    otherwise. *)
Definition float_of_number (s : string) : result value :=
  if (count_char "." s <=? 1)%nat && has_digit s then Ok (VFloat s)
  else Raise ValueError.

(** *** Profile fields *)

Definition default_data (now : datetime) : gmap string value :=
  list_to_map
    [ ("attorney_full_name", VNone); ("profile_url", VNone);
      ("firm_name", VNone); ("company_address", VNone);
      ("company_city", VNone); ("company_state", VNone);
      ("company_zip", VNone); ("company_country", VStr "United States");
      ("company_phone_number", VNone); ("company_fax_number", VNone);
      ("company_website", VNone); ("overall_average_rating", VNone);
      ("total_review_count", VInt 0); ("avvo_reviews_count", VInt 0);
      ("lawyers_com_reviews_count", VInt 0); ("avvo_rating", VNone);
      ("avvo_rating_description", VNone); ("years_licensed", VNone);
      ("year_licensed", VNone); ("years_licensed_text", VNone);
      ("practice_areas", VNone); ("primary_practice_area", VNone);
      ("lawyer_at_location", VNone); ("languages_spoken", VNone);
      ("is_pro", VBool false); ("is_claimed", VBool false);
      ("free_consultation", VBool false);
      ("virtual_consultation_available", VBool false);
      ("contingency_fee", VNone); ("hourly_rate", VNone);
      ("retainer_info", VNone); ("cost_details", VNone);
      ("payment_methods", VNone); ("currencies_accepted", VNone);
      ("education", VNone); ("bar_admissions", VNone);
      ("license_details", VNone); ("send_message_link", VNone);
      ("google_map_directions_link", VNone); ("profile_photo_url", VNone);
      ("latitude", VNone); ("longitude", VNone);
      ("practice_area_percentages", VNone); ("honors_awards", VNone);
      ("associations", VNone); ("work_experience", VNone);
      ("endorsements_received", VInt 0); ("endorsements_given", VInt 0);
      ("legal_answers", VInt 0); ("biography", VNone);
      ("professional_id", VNone); ("specialty_id", VNone);
      ("specialty_name", VNone); ("claim_status", VNone);
      ("additional_practice_areas", VNone);
      ("total_reviews_extracted", VInt 0);
      ("scraped_at", VStr (strftime_seconds now));
      ("review_date_filter", VNone);
      ("nomenclature_source", VStr "avvo"); ("nomenclature_id", VNone);
      ("nomenclature_zip_code", VNone); ("nomenclature_state_code", VNone);
      ("nomenclature_name", VNone); ("nomenclature_profile_id", VNone) ].

(** [parts[2:-1]] *)
Definition name_parts (parts : list string) : list string :=
  removelast (skipn 2 parts).

(** The decomposition of the identifier
    ([94401-ca-haitham-ballout-336338]) into the nomenclature fields. *)
Definition set_nomenclature (nomenclature_id : string)
    (data : gmap string value) : gmap string value :=
  let data := <["nomenclature_id" := VStr nomenclature_id]> data in
  let parts := Py.split "-" nomenclature_id in
  if (4 <=? length parts)%nat then
    let data := <["nomenclature_zip_code" := VStr (nth 0 parts "")]> data in
    let data :=
      <["nomenclature_state_code" := VStr (Py.upper (nth 1 parts ""))]> data in
    let data := <["nomenclature_profile_id" := VStr (last parts "")]> data in
    match name_parts parts with
    | [] => data
    | ps =>
        <["nomenclature_name" :=
            VStr (Py.title (Py.replace_char "-" " " (Py.join " " ps)))]> data
    end
  else data.

(** [if data['profile_url']: match = re.search(...); if match: ...] *)
Definition parse_nomenclature (data : gmap string value) : gmap string value :=
  match get data "profile_url" with
  | VStr url =>
      if Py.truthy url then
        match search_attorneys url with
        | Some nomenclature_id => set_nomenclature nomenclature_id data
        | None => data
        end
      else data
  | _ => data
  end.

(** The Avvo rating: [float(match.group(1))] is not guarded. *)
Definition extract_avvo_rating (soup : Soup) (data : gmap string value)
  : result (gmap string value) :=
  match span_avvo_rating_count soup with
  | Some rating_text =>
      match search_rating rating_text with
      | Some g =>
          let* v := float_of_number g in
          Ok (<["avvo_rating" := v]> data)
      | None => Ok data
      end
  | None => Ok data
  end.

(** *** Reviews *)

(** The formats the converter tries on a review or reply date. *)
Definition review_date_formats : list (list item) :=
  [ [Dir dB; Ws; Dir dd; Lit ","; Ws; Dir dY];
    [Dir db; Ws; Dir dd; Lit ","; Ws; Dir dY];
    [Dir dm; Lit "/"; Dir dd; Lit "/"; Dir dY];
    [Dir dB; Ws; Dir dd; Lit ","; Dir dY] ].

Definition parse_to_iso (date_str : string) : value :=
  match first_format date_str review_date_formats with
  | Some d => VStr (strftime_date d)
  | None => VNone
  end.

(** [s.strip('|')] *)
Fixpoint lstrip_bar (s : string) : string :=
  match s with
  | String c s' => if Ascii.eqb c "|" then lstrip_bar s' else s
  | EmptyString => EmptyString
  end.

Fixpoint rstrip_bar (s : string) : string :=
  match s with
  | String c s' =>
      match rstrip_bar s' with
      | EmptyString => if Ascii.eqb c "|" then EmptyString else String c EmptyString
      | r => String c r
      end
  | EmptyString => EmptyString
  end.

Definition strip_bar (s : string) : string := rstrip_bar (lstrip_bar s).

Definition default_review : gmap string value :=
  list_to_map
    [ ("reviewer_name", VNone); ("review_date", VNone);
      ("review_rating", VInt 0); ("review_title", VNone);
      ("review_text", VNone); ("review_type", VNone);
      ("review_tooltip", VNone); ("attorney_response_name", VNone);
      ("attorney_response_date", VNone); ("attorney_response_text", VNone) ].

(** The ellipsis character of the source, in UTF-8. *)
Definition ellipsis : string := String "226" (String "128" (String "166" EmptyString)).

Definition skipped_span (text : string) : bool :=
  String.eqb text "..." || String.eqb text ellipsis
  || String.eqb text "See Full Review".

(** The text of a review: the spans that are not empty and not a
    "see more" marker, joined by spaces. *)
Definition review_text_of (spans : list string) : string :=
  Py.strip
    (Py.join " "
       (List.filter (fun text => Py.truthy text && negb (skipped_span text)) spans)).

Definition set_opt (k : string) (o : option string)
    (d : gmap string value) : gmap string value :=
  match o with
  | Some s => <[k := VStr s]> d
  | None => d
  end.

(** The header of a review: tool tip, review type, reviewer and date. *)
Definition review_header (container : ReviewContainer)
    (review_data : gmap string value) : gmap string value :=
  let review_data := set_opt "review_tooltip" (header_tooltip container) review_data in
  let review_data :=
    match header_type_span container with
    | Some t =>
        let type_text := Py.strip (strip_bar t) in
        if Py.truthy type_text && negb (Py.contains "This review is from" type_text)
        then <["review_type" := VStr type_text]> review_data
        else review_data
    | None => review_data
    end in
  match posted_by container with
  | Some (name, date) =>
      let review_data := <["reviewer_name" := VStr (Py.strip name)]> review_data in
      match parse_to_iso (Py.strip date) with
      | VNone => review_data
      | v => <["review_date" := v]> review_data
      end
  | None => review_data
  end.

(** The title and the text. *)
Definition review_body (container : ReviewContainer)
    (review_data : gmap string value) : gmap string value :=
  let review_data := set_opt "review_title" (title_h4 container) review_data in
  match content_spans container with
  | Some spans => <["review_text" := VStr (review_text_of spans)]> review_data
  | None => review_data
  end.

(** The reply of the attorney, if there is one. *)
Definition review_response (container : ReviewContainer)
    (review_data : gmap string value) : gmap string value :=
  match response container with
  | Some r =>
      let review_data := set_opt "attorney_response_name" (response_h4 r) review_data in
      let review_data :=
        match response_span r with
        | Some reply_date_text =>
            match search_replied reply_date_text with
            | Some g =>
                match parse_to_iso (Py.strip g) with
                | VNone => review_data
                | v => <["attorney_response_date" := v]> review_data
                end
            | None => review_data
            end
        | None => review_data
        end in
      set_opt "attorney_response_text" (response_p r) review_data
  | None => review_data
  end.

(** The body of the loop over the containers, up to the test that keeps
    or drops the review. *)
Definition extract_review (container : ReviewContainer) : gmap string value :=
  let review_data :=
    <["review_rating" := VInt (Z.of_nat (star_icons container))]> default_review in
  review_response container
    (review_body container (review_header container review_data)).

(** [if review_data['review_text'] or review_data['review_title']] *)
Definition has_text_or_title (review_data : gmap string value) : bool :=
  truthy (get review_data "review_text") || truthy (get review_data "review_title").

(** The loop over [soup.find_all('div', class_='client-review')]. *)
Fixpoint extract_reviews (containers : list ReviewContainer)
  : list (gmap string value) :=
  match containers with
  | [] => []
  | container :: rest =>
      let review_data := extract_review container in
      if has_text_or_title review_data
      then review_data :: extract_reviews rest
      else extract_reviews rest
  end.

(** *** [_extract_data_from_soup]

    The statements for the name, the profile URL, the nomenclature, the
    Avvo rating, the reviews and the filter description; the other
    fields, which no property below reads, stay at their defaults. *)
Definition _extract_data_from_soup (now : datetime) (soup : Soup)
    (review_date_filter : option string)
  : result (gmap string value * list (gmap string value)) :=
  let data := default_data now in
  let data := set_opt "attorney_full_name" (h1_profile_name soup) data in
  let data := set_opt "profile_url" (link_canonical_href soup) data in
  let data := parse_nomenclature data in
  let* data := extract_avvo_rating soup data in
  let reviews := extract_reviews (client_reviews soup) in
  let data :=
    match reviews with
    | [] => data
    | _ => <["total_reviews_extracted" := VInt (Z.of_nat (length reviews))]> data
    end in
  let data :=
    match review_date_filter with
    | Some f => if Py.truthy f then <["review_date_filter" := VStr f]> data else data
    | None => data
    end in
  Ok (data, reviews).

(** [extract_profile_data_from_html]: the document is parsed and handed
    over. *)
Definition extract_profile_data_from_html (now : datetime) (html_content : Soup)
    (review_date_filter : option string) :=
  _extract_data_from_soup now html_content review_date_filter.

(** [if not data]: a dictionary is false when it is empty. *)
Definition dict_truthy (data : gmap string value) : bool :=
  negb (bool_decide (data = ∅)).

(** *** Rows ([save_to_csv] and [save_to_csv_append] build them alike) *)

Definition review_fields : list string :=
  [ "reviewer_name"; "review_date"; "review_rating"; "review_title";
    "review_text"; "review_type"; "review_tooltip";
    "attorney_response_name"; "attorney_response_date";
    "attorney_response_text" ].

(** [row = data.copy(); row[k] = review.get(k)] for the review fields *)
Definition review_row (data review : gmap string value) : gmap string value :=
  fold_left (fun row k => <[k := get review k]> row) review_fields data.

(** [row = data.copy(); row[k] = None] for the review fields *)
Definition empty_row (data : gmap string value) : gmap string value :=
  fold_left (fun row k => <[k := VNone]> row) review_fields data.

(** The first block of [save_to_csv]: one row per review, or one row
    with empty review fields. *)
Definition build_rows (data : gmap string value)
    (reviews : list (gmap string value)) : list (gmap string value) :=
  match reviews with
  | [] => [empty_row data]
  | _ => map (review_row data) reviews
  end.

Definition text_fields : list string :=
  [ "review_text"; "review_title"; "attorney_response_text"; "biography";
    "company_address"; "education"; "bar_admissions"; "honors_awards";
    "associations"; "work_experience"; "practice_areas";
    "additional_practice_areas"; "practice_area_percentages";
    "cost_details"; "retainer_info"; "payment_methods"; "license_details" ].

(** [re.sub(r'\s+', ' ', s)]; [in_ws] tells whether the previous
    character was white space. *)
Fixpoint squeeze (in_ws : bool) (s : string) : string :=
  match s with
  | String c s' =>
      if Py.is_space c then
        if in_ws then squeeze true s' else String " " (squeeze true s')
      else String c (squeeze false s')
  | EmptyString => EmptyString
  end.

Definition clean_text (s : string) : string :=
  Py.strip (squeeze false (Py.replace_char "013" " " (Py.replace_char "010" " " s))).

(** The second block: line breaks and runs of white space in the text
    fields become one space.  The text fields hold strings or [None]. *)
Definition clean_field (row : gmap string value) (field : string)
  : gmap string value :=
  match row !! field with
  | Some (VStr s) => <[field := VStr (clean_text s)]> row
  | _ => row
  end.

Definition clean_row (row : gmap string value) : gmap string value :=
  fold_left clean_field text_fields row.

(** The rows handed to [pd.DataFrame]. *)
Definition rows_of (data : gmap string value)
    (reviews : list (gmap string value)) : list (gmap string value) :=
  map clean_row (build_rows data reviews).

(** [save_to_csv]: what is written to the file. *)
Definition save_to_csv (data : gmap string value)
    (reviews : list (gmap string value)) : list (gmap string value) :=
  rows_of data reviews.

End Converter.

(** ** [avvo_scraper_direct_to_csv.py] *)

Module Scraper.

Import DateTime Exc Converter.

(** *** The date normaliser *)

(** ['%B %d, %Y'], ['%b %d, %Y'], ['%m/%d/%Y'], ['%B %d,%Y'], ['%Y-%m-%d'] *)
Definition date_formats : list (list item) :=
  [ [Dir dB; Ws; Dir dd; Lit ","; Ws; Dir dY];
    [Dir db; Ws; Dir dd; Lit ","; Ws; Dir dY];
    [Dir dm; Lit "/"; Dir dd; Lit "/"; Dir dY];
    [Dir dB; Ws; Dir dd; Lit ","; Dir dY];
    [Dir dY; Lit "-"; Dir dm; Lit "-"; Dir dd] ].

Definition parse_review_date (date_str : option string) : option datetime :=
  match date_str with
  | None => None
  | Some s =>
      if negb (Py.truthy s) then None
      else first_format (Py.strip s) date_formats
  end.

(** The date of a review container, [None] when the header pattern or
    the date does not parse. *)
Definition extract_review_date_from_html (review : ReviewContainer)
  : option datetime :=
  match posted_date review with
  | Some date_str => parse_review_date (Some date_str)
  | None => None
  end.

(** *** The browser

    A loaded page is its source, which the program parses with
    BeautifulSoup, and what the Selenium look-ups of the discovery phase
    return on it. *)
Record Link := mk_link {
  (** [get_attribute('href')] *)
  href : option string;
  (** [elem.text] *)
  text : string
}.

Record Page := mk_page {
  (** [BeautifulSoup(driver.page_source, 'html.parser')] *)
  source : Soup;
  (** [find_elements(By.CSS_SELECTOR, "a[href*='page=']")] *)
  pagination_links : list Link;
  (** [find_elements(By.CSS_SELECTOR, ".pagination a, .page-numbers a,
      [class*='pagination'] a")] *)
  pagination_elements : list Link;
  (** [find_elements(By.XPATH, "//*[contains(text(), 'Page') or
      contains(text(), 'of')]")] *)
  pagination_text : list Link
}.

(** [driver.get(url)]: the page that gets loaded, or [None] when the
    navigation raises; the browser then keeps the document it had. *)
Definition Web := string -> option Page.

(** [str(n)] *)
Definition str (n : Z) : string := DecimalString.NilZero.string_of_int (Z.to_int n).

(** [base_url + f"?page={page_num}"] *)
Definition page_url (base_url : string) (page_num : Z) : string :=
  base_url ++ "?page=" ++ str page_num.

(** *** Discovery of the review pages *)

(** [re.search(r'page=(\d+)', s)], giving [int] of group 1. *)
Fixpoint search_page (s : string) : option Z :=
  let here :=
    match Py.strip_prefix "page=" s with
    | Some r =>
        match fst (Py.span_digits r) with
        | EmptyString => None
        | g => Some (Py.int_of_digits g)
        end
    | None => None
    end in
  match here with
  | Some n => Some n
  | None =>
      match s with
      | String _ s' => search_page s'
      | EmptyString => None
      end
  end.

(** [\s+] at the start of [s]: what follows the white space. *)
Definition skip_spaces (s : string) : option string :=
  match s with
  | String c _ => if Py.is_space c then Some (Py.lstrip s) else None
  | EmptyString => None
  end.

(** [\d+\s+of\s+(\d+)] at the start of [s], ignoring case. *)
Definition match_n_of_m (s : string) : option Z :=
  match Py.span_digits s with
  | (EmptyString, _) => None
  | (_, r) =>
      match skip_spaces r with
      | Some r =>
          match Py.strip_prefix_ci "of" r with
          | Some r =>
              match skip_spaces r with
              | Some r =>
                  match fst (Py.span_digits r) with
                  | EmptyString => None
                  | g => Some (Py.int_of_digits g)
                  end
              | None => None
              end
          | None => None
          end
      | None => None
      end
  end.

(** [re.search(r'(?:Page\s+)?\d+\s+of\s+(\d+)', s, re.IGNORECASE)] *)
Fixpoint search_page_of (s : string) : option Z :=
  let with_page :=
    match Py.strip_prefix_ci "Page" s with
    | Some r =>
        match skip_spaces r with
        | Some r => match_n_of_m r
        | None => None
        end
    | None => None
    end in
  let here :=
    match with_page with
    | Some n => Some n
    | None => match_n_of_m s
    end in
  match here with
  | Some n => Some n
  | None =>
      match s with
      | String _ s' => search_page_of s'
      | EmptyString => None
      end
  end.

(** Method 1: links whose address carries [page=]. *)
Definition method1 (base_url : string) (links : list Link)
    (review_page_urls : gset (Z * string)) : gset (Z * string) :=
  fold_left
    (fun urls link =>
       match href link with
       | Some h =>
           if Py.truthy h && Py.contains "page=" h then
             match search_page h with
             | Some page_num =>
                 let h' :=
                   if Py.startswith h "/" then "https://www.avvo.com" ++ h
                   else if negb (Py.startswith h "http")
                        then base_url ++ "?page=" ++ str page_num
                        else h in
                 {[ (page_num, h') ]} ∪ urls
             | None => urls
             end
           else urls
       | None => urls
       end)
    links review_page_urls.

(** Method 2: pagination controls, by address or by numeric text. *)
Definition method2 (base_url : string) (elems : list Link)
    (review_page_urls : gset (Z * string)) : gset (Z * string) :=
  fold_left
    (fun urls elem =>
       let t := Py.strip (text elem) in
       match href elem with
       | Some h =>
           if Py.truthy h && (Py.contains "page=" h || Py.isdigit t) then
             let found :=
               if Py.contains "page=" h then
                 match search_page h with
                 | Some page_num => Some (page_num, h)
                 | None => None
                 end
               else
                 let page_num := Py.int_of_digits t in
                 Some (page_num, page_url base_url page_num) in
             match found with
             | Some (page_num, h) =>
                 let h' :=
                   if negb (Py.startswith h "http")
                   then page_url base_url page_num else h in
                 {[ (page_num, h') ]} ∪ urls
             | None => urls
             end
           else urls
       | None => urls
       end)
    elems review_page_urls.

(** [range(2, max_page + 1)] *)
Definition range_from_2 (max_page : Z) : list Z :=
  map (fun i => 2 + Z.of_nat i) (seq 0 (Z.to_nat (max_page - 1))).

(** Method 3: the first "page X of Y" text gives the pages 2 to Y. *)
Fixpoint method3 (base_url : string) (elems : list Link)
    (review_page_urls : gset (Z * string)) : gset (Z * string) :=
  match elems with
  | [] => review_page_urls
  | elem :: elems' =>
      match search_page_of (text elem) with
      | Some max_page =>
          fold_left
            (fun urls page_num => {[ (page_num, page_url base_url page_num) ]} ∪ urls)
            (range_from_2 max_page) review_page_urls
      | None => method3 base_url elems' review_page_urls
      end
  end.

(** The three methods fill one set of (page number, address) pairs. *)
Definition found_pages (base_url : string) (page : Page) : gset (Z * string) :=
  method3 base_url (pagination_text page)
    (method2 base_url (pagination_elements page)
       (method1 base_url (pagination_links page) ∅)).

Definition by_page_num (x y : Z * string) : Prop := fst x <= fst y.

#[global] Instance by_page_num_dec : RelDecision by_page_num.
Proof. intros x y. unfold by_page_num. apply _. Defined.

(** [sorted([(p, u) for p, u in review_page_urls if p > 1],
    key=lambda x: x[0])].  The order in which a Python set is listed is
    not specified, so neither is the order of two addresses with the same
    page number. *)
Definition discover (base_url : string) (page : Page) : list (Z * string) :=
  merge_sort by_page_num
    (List.filter (fun pu => 1 <? fst pu) (elements (found_pages base_url page))).

(** *** Walking the pages *)

(** A review whose date parses and is before the cut-off. *)
Definition too_old (cutoff_date : datetime) (review : ReviewContainer) : bool :=
  match extract_review_date_from_html review with
  | Some review_date => ltb review_date cutoff_date
  | None => false
  end.

(** A review the cut-off lets through: its date does not parse or is not
    before the cut-off. *)
Definition kept (cutoff_date : datetime) (review : ReviewContainer) : Prop :=
  too_old cutoff_date review = false.

Definition too_old_opt (cutoff_date : option datetime)
    (review : ReviewContainer) : bool :=
  match cutoff_date with
  | Some c => too_old c review
  | None => false
  end.

(** The loop over the containers of one page: the reviews it adds and
    [should_stop]. *)
Fixpoint check_reviews (cutoff_date : option datetime)
    (review_containers : list ReviewContainer) : list ReviewContainer * bool :=
  match review_containers with
  | [] => ([], false)
  | review :: rest =>
      if too_old_opt cutoff_date review then ([], true)
      else
        let '(added, should_stop) := check_reviews cutoff_date rest in
        (review :: added, should_stop)
  end.

(** The variables the two walks update. *)
Record walk := mk_walk {
  all_reviews_html : list ReviewContainer;
  (** the page the browser shows *)
  driver : Page;
  should_stop_main : bool
}.

(** The loop over the discovered pages. *)
Fixpoint load_pages (cutoff_date : option datetime) (web : Web)
    (review_page_urls : list (Z * string)) (w : walk) : walk :=
  match review_page_urls with
  | [] => w
  | (page_num, url) :: rest =>
      if (match cutoff_date with Some _ => true | None => false end)
         && should_stop_main w then w
      else
        match web url with
        | Some page =>
            match client_reviews (source page) with
            | [] => mk_walk (all_reviews_html w) page (should_stop_main w)
            | review_containers =>
                let '(added, should_stop) :=
                  check_reviews cutoff_date review_containers in
                let all := (all_reviews_html w ++ added)%list in
                if should_stop then mk_walk all page true
                else load_pages cutoff_date web rest
                       (mk_walk all page (should_stop_main w))
            end
        | None => w
        end
  end.

(** ['no reviews' in page_text or 'no more reviews' in page_text] *)
Definition says_no_reviews (soup : Soup) : bool :=
  let page_text := Py.lower (page_text soup) in
  Py.contains "no reviews" page_text || Py.contains "no more reviews" page_text.

Definition max_empty_pages : nat := 2.

(** The [while consecutive_empty_pages < max_empty_pages] loop, which
    tries page after page; [fuel] bounds the number of pages tried and
    [None] means that the loop is still running when it is used up. *)
Fixpoint try_pages (fuel : nat) (cutoff_date : option datetime) (web : Web)
    (base_url : string) (page_num : Z) (consecutive_empty_pages : nat)
    (w : walk) : option walk :=
  if (max_empty_pages <=? consecutive_empty_pages)%nat then Some w
  else
    match fuel with
    | O => None
    | S fuel' =>
        match web (page_url base_url page_num) with
        | Some page =>
            match client_reviews (source page) with
            | [] =>
                let w := mk_walk (all_reviews_html w) page (should_stop_main w) in
                if says_no_reviews (source page) then Some w
                else
                  let n := S consecutive_empty_pages in
                  if (max_empty_pages <=? n)%nat then Some w
                  else try_pages fuel' cutoff_date web base_url (page_num + 1) n w
            | review_containers =>
                let '(added, should_stop) :=
                  check_reviews cutoff_date review_containers in
                let all := (all_reviews_html w ++ added)%list in
                let n :=
                  if (0 <? length added)%nat && negb should_stop
                  then O else consecutive_empty_pages in
                if should_stop then Some (mk_walk all page true)
                else try_pages fuel' cutoff_date web base_url (page_num + 1) n
                       (mk_walk all page (should_stop_main w))
            end
        | None =>
            let n := S consecutive_empty_pages in
            if (max_empty_pages <=? n)%nat then Some w
            else try_pages fuel' cutoff_date web base_url (page_num + 1) n w
        end
    end.

(** *** The main page *)

(** The loop over the reviews of the main page: the first too-old one is
    removed from [main_soup]; the result is the containers that stay and
    the position of the one removed. *)
Fixpoint remove_first_old (cutoff_date : datetime)
    (reviews : list ReviewContainer) : option (list ReviewContainer * nat) :=
  match reviews with
  | [] => None
  | review :: rest =>
      if too_old cutoff_date review then Some (rest, O)
      else
        match remove_first_old cutoff_date rest with
        | Some (rest', i) => Some (review :: rest', S i)
        | None => None
        end
  end.

Definition with_reviews (soup : Soup) (reviews : list ReviewContainer)
    (at_ : option nat) : Soup :=
  mk_soup (h1_profile_name soup) (link_canonical_href soup)
    (span_avvo_rating_count soup) reviews at_ (page_text soup).

(** [main_soup] and [should_stop_main] after the main page is filtered. *)
Definition filter_main (cutoff_date : option datetime) (main_soup : Soup)
  : Soup * bool :=
  match cutoff_date with
  | Some c =>
      match remove_first_old c (client_reviews main_soup) with
      | Some (reviews, i) =>
          (with_reviews main_soup reviews
             (option_map (fun n => if (i <? n)%nat then pred n else n)
                (insert_point main_soup)),
           true)
      | None => (main_soup, false)
      end
  | None => (main_soup, false)
  end.

(** *** Putting the pages together *)

(** The further reviews are appended to the element found in
    [main_soup]. *)
Definition combine (main_soup : Soup) (all : list ReviewContainer)
  : option Soup :=
  match insert_point main_soup with
  | Some n =>
      Some (with_reviews main_soup
              (firstn n (client_reviews main_soup) ++ all
               ++ skipn n (client_reviews main_soup))%list
              (Some (n + length all)%nat))
  | None => None
  end.

(** [html_content] before the final pass. *)
Definition html_before_final (main_soup : Soup) (w : walk) : Soup :=
  match all_reviews_html w with
  | [] => source (driver w)
  | all =>
      match combine main_soup all with
      | Some soup => soup
      | None => source (driver w)
      end
  end.

(** The final pass removes every too-old review. *)
Definition final_pass (cutoff_date : option datetime) (html_content : Soup)
  : Soup :=
  match cutoff_date with
  | Some c =>
      with_reviews html_content
        (List.filter (fun r => negb (too_old c r)) (client_reviews html_content))
        (insert_point html_content)
  | None => html_content
  end.

(** [if days_back:] *)
Definition days_back_set (days_back : option Z) : option Z :=
  match days_back with
  | Some n => if n =? 0 then None else Some n
  | None => None
  end.

(** [cutoff_date]; the subtraction may raise. *)
Definition cutoff_of (now : datetime) (days_back : option Z)
  : result (option datetime) :=
  match days_back_set days_back with
  | Some n =>
      match sub_days now n with
      | Some c => Ok (Some c)
      | None => Raise OverflowError
      end
  | None => Ok None
  end.

(** [csv_filter_info] *)
Definition csv_filter_info (days_back : option Z) (cutoff_date : option datetime)
  : string :=
  match days_back_set days_back, cutoff_date with
  | Some n, Some c =>
      "Last " ++ str n ++ " days (from " ++ strftime_date c ++ ")"
  | _, _ => "All reviews (no date filter)"
  end.

(** The pages walked after the main page, from the state [w0] in which
    the browser shows the main page. *)
Definition walk_pages (fuel : nat) (cutoff_date : option datetime) (web : Web)
    (base_url : string) (review_page_urls : list (Z * string))
    (stop_main : bool) (main : Page) : option walk :=
  let w0 := mk_walk [] main stop_main in
  let review_page_urls :=
    if (match cutoff_date with Some _ => true | None => false end) && stop_main
    then [] else review_page_urls in
  let w :=
    match review_page_urls with
    | [] => w0
    | _ => load_pages cutoff_date web review_page_urls w0
    end in
  match review_page_urls with
  | [] =>
      if negb (should_stop_main w)
      then try_pages fuel cutoff_date web base_url 2 O w
      else Some w
  | _ => Some w
  end.

(** [html_content] when the pages have been walked and filtered: the
    document the profile and the reviews are extracted from. *)
Definition final_html (fuel : nat) (cutoff_date : option datetime) (web : Web)
    (url : string) (main : Page) : option Soup :=
  let '(main_soup, stop_main) := filter_main cutoff_date (source main) in
  let base_url := hd EmptyString (Py.split "?" url) in
  let review_page_urls := discover base_url main in
  match walk_pages fuel cutoff_date web base_url review_page_urls stop_main main with
  | Some w => Some (final_pass cutoff_date (html_before_final main_soup w))
  | None => None
  end.

(** *** Sites

    [served web urls pages]: the addresses load, in order, the pages, each
    with at least one review.  [served_from web base_url n pages]: the same
    for the addresses [base_url?page=n], [base_url?page=n+1], ... *)
Definition has_reviews (page : Page) : Prop := client_reviews (source page) <> [].




(** *** [scrape_and_convert_to_csv]

    The outer [option] is [None] when [fuel] does not suffice; the inner
    one is what the function returns, [None] for a failed profile.  Every
    exception raised inside is caught by the function itself.  The clock
    is read once, as [now]. *)
Definition scrape_and_convert_to_csv (fuel : nat) (now : datetime) (web : Web)
    (url : string) (days_back : option Z)
  : option (option (gmap string value * list (gmap string value))) :=
  match cutoff_of now days_back with
  | Raise _ => Some None
  | Ok cutoff_date =>
      match web url with
      | None => Some None
      | Some main =>
          match final_html fuel cutoff_date web url main with
          | None => None
          | Some html_content =>
              match extract_profile_data_from_html now html_content
                      (Some (csv_filter_info days_back cutoff_date)) with
              | Raise _ => Some None
              | Ok (data, reviews) =>
                  if negb (dict_truthy data) then Some None
                  else Some (Some (data, reviews))
              end
          end
      end
  end.

(** Whether a call has returned a record (rather than [None]). *)
Definition returned {A} (r : option (option A)) : bool :=
  match r with
  | Some (Some _) => true
  | _ => false
  end.

(** *** The output file and the batch loop *)

Inductive csv_line :=
| Header
| Blank
| Row (row : gmap string value).

(** [save_to_csv_append]: the file after the call; [file] is [None] when
    it does not exist yet. *)
Definition save_to_csv_append (data : gmap string value)
    (reviews : list (gmap string value)) (file : option (list csv_line))
    (is_first_url : bool) : list csv_line :=
  let rows := map Row (rows_of data reviews) in
  match file with
  | Some lines =>
      if negb is_first_url then (lines ++ Blank :: rows)%list
      else Header :: rows
  | None => Header :: rows
  end.

Record batch := mk_batch {
  output_csv : option (list csv_line);
  is_first_url : bool;
  successful : nat;
  failed : nat
}.

(** The loop over the URLs of the main program. *)
Fixpoint process_urls (fuel : nat) (now : datetime) (web : Web)
    (days_back : option Z) (urls : list string) (b : batch) : option batch :=
  match urls with
  | [] => Some b
  | url :: rest =>
      match scrape_and_convert_to_csv fuel now web url days_back with
      | None => None
      | Some (Some (data, reviews)) =>
          process_urls fuel now web days_back rest
            (mk_batch
               (Some (save_to_csv_append data reviews (output_csv b) (is_first_url b)))
               false (S (successful b)) (failed b))
      | Some None =>
          process_urls fuel now web days_back rest
            (mk_batch (output_csv b) (is_first_url b) (successful b) (S (failed b)))
      end
  end.

(** The counters and the number of lines of the file after a batch. *)
Definition summary (b : option batch) : option (nat * nat * option nat) :=
  option_map
    (fun b => (successful b, failed b, option_map (@length csv_line) (output_csv b)))
    b.

End Scraper.

(** ** Test documents *)

Module Samples.

Import DateTime Converter Scraper.

Definition now : datetime := mk_datetime 2026 11 4 12 0 0 0.

(** A review posted on [date] with a title and a body. *)
Definition review_on (date title : string) : ReviewContainer :=
  mk_container 5 None None (Some ("Ann", date)) (Some date)
    (Some title) (Some ["Very helpful."]) None.

(** A container with neither a title nor a body. *)
Definition bare_review : ReviewContainer :=
  mk_container 4 None None (Some ("Bob", "May 2, 2026")) (Some "May 2, 2026")
    None None None.

(** A document in which none of the look-ups finds anything. *)
Definition blank_soup : Soup := mk_soup None None None [] None EmptyString.

Definition soup_of (reviews : list ReviewContainer) : Soup :=
  mk_soup (Some "Haitham Ballout")
    (Some "https://www.avvo.com/attorneys/94401-ca-haitham-ballout-336338.html")
    (Some "Rating: 10.0") reviews (Some (length reviews)) EmptyString.

(** A page on which Selenium finds no pagination. *)
Definition page_of (soup : Soup) : Page := mk_page soup [] [] [].

(** A site with a single address. *)
Definition site (url : string) (page : Page) : Web :=
  fun u => if String.eqb u url then Some page else None.

(** A site given by its addresses and pages. *)
Fixpoint site_of (pages : list (string * Page)) : Web :=
  fun u =>
    match pages with
    | [] => None
    | (url, page) :: rest => if String.eqb u url then Some page else site_of rest u
    end.

Definition profile_url : string :=
  "https://www.avvo.com/attorneys/94401-ca-haitham-ballout-336338.html".

(** A document whose Avvo rating reads [1.2.3]. *)
Definition odd_rating_soup : Soup :=
  mk_soup (Some "Haitham Ballout") (Some profile_url) (Some "Rating: 1.2.3")
    [] None EmptyString.

Definition base_url : string :=
  "https://www.avvo.com/attorneys/94401-ca-haitham-ballout-336338.html".

(** Two links to page 2 that differ in their address. *)
Definition two_links_page : Page :=
  mk_page blank_soup
    [ mk_link (Some (base_url ++ "?page=2")) "2";
      mk_link (Some (base_url ++ "?sort=recent&page=2")) "Next" ]
    [] [].

(** A page with a link to page 3, a numeric control for page 2 and the
    text "Page 1 of 3". *)
Definition paginated_page : Page :=
  mk_page blank_soup
    [ mk_link (Some (base_url ++ "?page=3")) "3" ]
    [ mk_link (Some (base_url ++ "#")) " 2 ";
      mk_link (Some (base_url ++ "?page=3")) "3" ]
    [ mk_link None "Page 1 of 3" ].

(** A main page with one review and no pagination, on a site whose page 2
    cannot be loaded and whose page 3 has one more review. *)
Definition first_review : ReviewContainer := review_on "May 1, 2026" "first".
Definition third_review : ReviewContainer := review_on "April 1, 2026" "third".

Definition gap_site : Web :=
  site_of
    [ (base_url, page_of (soup_of [first_review]));
      (base_url ++ "?page=3", page_of (soup_of [third_review])) ].

Definition titles (soup : option Soup) : option (list (option string)) :=
  option_map (fun h => map title_h4 (client_reviews h)) soup.

(** A main page whose second review is older than a year and whose third
    review has a date that does not parse. *)
Definition cutoff : datetime := mk_datetime 2025 11 4 12 0 0 0.




(** The main page of [two_page_site], with a link to page 2. *)
Definition linked_main : Page :=
  mk_page (soup_of [first_review])
    [ mk_link (Some (base_url ++ "?page=2")) "2" ] [] [].


(** The titles of the reviews a call returns. *)
Definition returned_titles
    (r : option (option (gmap string value * list (gmap string value))))
  : option (option (list value)) :=
  option_map (option_map (fun dr => map (fun x => get x "review_title") (snd dr))) r.

(** A profile whose identifier has three tokens only. *)
Definition short_id_soup : Soup :=
  mk_soup (Some "Unnamed") (Some "https://www.avvo.com/attorneys/94401-ca-336338.html")
    None [] None EmptyString.

(** The nomenclature fields of a record. *)
Definition nomenclature (data : gmap string value) : list value :=
  map (get data)
    [ "nomenclature_id"; "nomenclature_zip_code"; "nomenclature_state_code";
      "nomenclature_name"; "nomenclature_profile_id" ].

Definition extracted_nomenclature (soup : Soup) : option (list value) :=
  match _extract_data_from_soup now soup None with
  | Exc.Ok (data, _) => Some (nomenclature data)
  | Exc.Raise _ => None
  end.

(** The scenario of three main-page reviews, 10, 20 and 400 days old. *)
Definition scenario_main : Page :=
  page_of (soup_of [ review_on "October 25, 2026" "ten days";
                     review_on "October 15, 2026" "twenty days";
                     review_on "September 30, 2025" "four hundred days" ]).

(** The same main page with links to two more pages of five reviews. *)
Definition five_reviews (tag : string) : list ReviewContainer :=
  map (fun n => review_on "January 5, 2020" (tag ++ n)) ["1"; "2"; "3"; "4"; "5"].

Definition scenario_linked_main : Page :=
  mk_page (source scenario_main)
    [ mk_link (Some (base_url ++ "?page=2")) "2";
      mk_link (Some (base_url ++ "?page=3")) "3" ] [] [].

Definition scenario_site : Web :=
  site_of
    [ (base_url, scenario_linked_main);
      (base_url ++ "?page=2", page_of (soup_of (five_reviews "a")));
      (base_url ++ "?page=3", page_of (soup_of (five_reviews "b"))) ].

(** The number of rows a call leads to. *)
Definition row_count
    (r : option (option (gmap string value * list (gmap string value))))
  : option (option nat) :=
  option_map (option_map (fun dr => length (rows_of (fst dr) (snd dr)))) r.

Definition new_batch : batch := mk_batch None true 0 0.

End Samples.

From Stdlib Require DecimalZ DecimalPos.

(** ** Sites seen by the iterative walk *)

Module Sites.

Import DateTime Converter Scraper.

(** Nothing is gathered at an address: it does not load, or the page has
    no review container. *)
Definition no_reviews_at (web : Web) (url : string) : Prop :=
  match web url with
  | Some page => client_reviews (source page) = []
  | None => True
  end.

(** From page [bound] on, the pages [base_url?page=n] give nothing. *)
Definition ends_at (web : Web) (base_url : string) (bound : Z) : Prop :=
  forall n, bound <= n -> no_reviews_at web (page_url base_url n).

(** A page none of whose reviews the cut-off rejects. *)
Definition all_recent (cutoff_date : option datetime) (page : Page) : Prop :=
  Forall (fun review => too_old_opt cutoff_date review = false)
    (client_reviews (source page)).

(** Every page number from 2 on loads a page with reviews, all of them
    recent. *)
Definition endless (cutoff_date : option datetime) (web : Web)
    (base_url : string) : Prop :=
  forall n, 2 <= n ->
    exists page, web (page_url base_url n) = Some page
                 /\ has_reviews page /\ all_recent cutoff_date page.

End Sites.

(** ** Further test sites *)

Module Cases.

Import DateTime Converter Scraper Samples.

(** A site that serves the same page whatever the address. *)
Definition same_page (page : Page) : Web := fun _ => Some page.

(** A second page with two reviews of the last year. *)
Definition recent_second_page : Page :=
  page_of (soup_of [ review_on "March 1, 2026" "second";
                     review_on "February 1, 2026" "third" ]).

(** A main page without pagination, and a second page. *)
Definition recent_site : Web :=
  site_of
    [ (base_url, page_of (soup_of [first_review]));
      (base_url ++ "?page=2", recent_second_page) ].



End Cases.

(** ** The lines a batch writes *)

Module Output.

Import DateTime Converter Scraper.

(** The rows of one URL, when the call returns a record. *)
Definition block_of (fuel : nat) (now : datetime) (web : Web)
    (days_back : option Z) (url : string) : option (list csv_line) :=
  match scrape_and_convert_to_csv fuel now web url days_back with
  | Some (Some (data, reviews)) => Some (map Row (rows_of data reviews))
  | _ => None
  end.

(** The blocks of the URLs for which a record is returned, in order. *)
Fixpoint blocks (fuel : nat) (now : datetime) (web : Web)
    (days_back : option Z) (urls : list string) : list (list csv_line) :=
  match urls with
  | [] => []
  | url :: rest =>
      match block_of fuel now web days_back url with
      | Some block => block :: blocks fuel now web days_back rest
      | None => blocks fuel now web days_back rest
      end
  end.

(** Whether a call has come to an end. *)
Definition finished {A} (r : option A) : bool :=
  match r with Some _ => true | None => false end.

(** A batch of three addresses, the second of which does not load. *)
Definition other_url : string :=
  "https://www.avvo.com/attorneys/28204-nc-michael-demayo-1742166.html".

Definition batch_site : Web :=
  Samples.site_of
    [ (Samples.profile_url, Samples.page_of (Samples.soup_of [Samples.first_review]));
      (other_url, Samples.page_of (Samples.soup_of [])) ].

Definition batch_urls : list string :=
  [ Samples.profile_url; "https://www.avvo.com/attorneys/missing.html"; other_url ].

End Output.

(** ** [avvo_scraper_direct_to_csv.py]: the URL file and the main program *)

Module Main.

Import DateTime Exc Converter Scraper.

(** *** [int(s)]

    Base 10, on ASCII text: white space around the number is skipped, one
    sign may come first, and single underscores may separate digits.  A
    text with more digits than [sys.int_info.default_max_str_digits] is
    rejected (CPython 3.11 and later, and the patched earlier releases);
    the program does not change that limit. *)
Definition max_str_digits : nat := 4300.

(** The white space [int] skips: tab, newline, vertical tab, form feed,
    carriage return and the space, but not the separators 0x1c-0x1f that
    [strip] removes. *)
Definition is_c_space (c : ascii) : bool :=
  ((9 <=? Py.code c) && (Py.code c <=? 13)) || (Py.code c =? 32).

Fixpoint skip_space (s : string) : string :=
  match s with
  | String c r => if is_c_space c then skip_space r else s
  | EmptyString => EmptyString
  end.

Fixpoint drop_space_at_end (s : string) : string :=
  match s with
  | String c r =>
      match drop_space_at_end r with
      | EmptyString => if is_c_space c then EmptyString else String c EmptyString
      | r' => String c r'
      end
  | EmptyString => EmptyString
  end.

(** A digit, then digits with at most one underscore before each;
    [after_digit] tells whether the previous character was a digit. *)
Fixpoint int_syntax (after_digit : bool) (s : string) : bool :=
  match s with
  | String c r =>
      if Py.is_digit c then int_syntax true r
      else if Ascii.eqb c "_" then after_digit && int_syntax false r
      else false
  | EmptyString => after_digit
  end.

(** The digits, without the underscores. *)
Fixpoint digits_of (s : string) : string :=
  match s with
  | String c r => if Ascii.eqb c "_" then digits_of r else String c (digits_of r)
  | EmptyString => EmptyString
  end.

Definition int_unsigned (s : string) : result Z :=
  if int_syntax false s && (String.length (digits_of s) <=? max_str_digits)%nat
  then Ok (Py.int_of_digits (digits_of s))
  else Raise ValueError.

Definition int (s : string) : result Z :=
  match drop_space_at_end (skip_space s) with
  | String c r =>
      if Ascii.eqb c "-" then let* n := int_unsigned r in Ok (- n)
      else if Ascii.eqb c "+" then int_unsigned r
      else int_unsigned (String c r)
  | EmptyString => Raise ValueError
  end.

(** *** [read_urls_from_file] *)

(** The test that makes a line a [DAYS_BACK] line, with or without [#]. *)
Definition is_days_back_line (line : string) : bool :=
  Py.startswith (Py.upper line) "DAYS_BACK="
  || (Py.startswith line "#" && Py.contains "DAYS_BACK=" (Py.upper line)).

(** [s.split('=', 1)[1]] for a text that holds ['=']: what follows the
    first ['=']. *)
Fixpoint after_equals (s : string) : string :=
  match s with
  | String c r => if Ascii.eqb c "=" then r else after_equals r
  | EmptyString => EmptyString
  end.

(** [s[1:]] *)
Definition tail (s : string) : string :=
  match s with
  | String _ r => r
  | EmptyString => EmptyString
  end.

(** The body of the [DAYS_BACK] branch: the new value of [days_back].  A
    value that [int] rejects leaves it as it is. *)
Definition days_back_setting (line : string) (days_back : option Z) : option Z :=
  let line := if Py.startswith line "#" then Py.strip (tail line) else line in
  if Py.contains "=" line then
    let days_back_str := Py.strip (after_equals line) in
    if String.eqb (Py.lower days_back_str) "none" then None
    else
      match int days_back_str with
      | Ok n => Some n
      | Raise _ => days_back
      end
  else days_back.

Definition is_url (line : string) : bool :=
  Py.startswith line "http://" || Py.startswith line "https://".

(** The body of the loop over the lines of the file; the state is [urls]
    and [days_back]. *)
Definition read_line (state : list string * option Z) (line : string)
  : list string * option Z :=
  let '(urls, days_back) := state in
  let line := Py.strip line in
  if is_days_back_line line then (urls, days_back_setting line days_back)
  else if negb (Py.truthy line)
          || (Py.startswith line "#"
              && negb (Py.contains "DAYS_BACK=" (Py.upper line)))
  then (urls, days_back)
  else if is_url line then ((urls ++ [line])%list, days_back)
  else (urls, days_back).

Definition nl : string := String "010" EmptyString.

(** The file written when there is none. *)
Definition sample_file : list string :=
  [ "# Add one URL per line" ++ nl;
    "# Lines starting with # are ignored" ++ nl;
    "# Optional: Add DAYS_BACK=365 to set review date filter (default: 365 days)" ++ nl;
    "# DAYS_BACK=365" ++ nl;
    "https://www.avvo.com/attorneys/28204-nc-michael-demayo-1742166.html" ++ nl ].

(** [file] is the lines of the file, as the iteration over it gives them,
    or [None] when it does not exist.  The result is what the function
    returns and the lines of the file after the call. *)
Definition read_urls_from_file (file : option (list string))
  : (list string * option Z) * list string :=
  match file with
  | None => (([], None), sample_file)
  | Some lines => (fold_left read_line lines ([], None), lines)
  end.

(** *** The main program *)

Definition DAYS_BACK_DEFAULT : Z := 365.

(** [DAYS_BACK]: the command line comes before the file and the file
    before the default; [argv] is [sys.argv]. *)
Definition main_days_back (days_back_from_file : option Z) (argv : list string)
  : result (option Z) :=
  let DAYS_BACK :=
    match days_back_from_file with
    | Some n => Some n
    | None => Some DAYS_BACK_DEFAULT
    end in
  match argv with
  | _ :: arg :: _ =>
      if negb (String.eqb (Py.lower arg) "none")
      then let* n := int arg in Ok (Some n)
      else Ok None
  | _ => Ok DAYS_BACK
  end.

(** How a run ends: [sys.exit], an exception nothing catches, or the end
    of the batch. *)
Inductive outcome :=
| Exit (status : Z)
| Uncaught (e : exn)
| Finished (b : batch).

(** The main program; [urls_file] and [output] are the two files before
    the run, and [None] means that [fuel] does not suffice. *)
Definition main (fuel : nat) (now : datetime) (web : Web)
    (urls_file : option (list string)) (argv : list string)
    (output : option (list csv_line)) : option outcome :=
  let '(urls, days_back_from_file) := fst (read_urls_from_file urls_file) in
  match urls with
  | [] => Some (Exit 1)
  | _ =>
      match main_days_back days_back_from_file argv with
      | Raise e => Some (Uncaught e)
      | Ok DAYS_BACK =>
          option_map Finished
            (process_urls fuel now web DAYS_BACK urls (mk_batch output true 0 0))
      end
  end.

End Main.

(** ** Sample URL files *)

Module Files.

Import Main.

Definition settings_first : list string :=
  [ "DAYS_BACK=30" ++ nl; "https://www.avvo.com/a.html" ].

Definition commented_setting : string := "  # DAYS_BACK=-7 " ++ nl.




End Files.

(** ** Spacing of a text *)

Module Spacing.


(** What the cleaning pass does to the value of a text field. *)
Definition cleaned (v : option Converter.value) : option Converter.value :=
  match v with
  | Some (Converter.VStr s) => Some (Converter.VStr (Converter.clean_text s))
  | _ => v
  end.


End Spacing.

(** ** The dates the two programs read *)

Module Dates.

Import DateTime Converter Scraper.


(** Whether a time of day is midnight. *)
Definition at_midnight (d : datetime) : bool :=
  (hour d =? 0) && (minute d =? 0) && (second d =? 0) && (microsecond d =? 0).

(** The time of day is within range. *)
Definition valid_time (d : datetime) : Prop :=
  0 <= hour d < 24 /\ 0 <= minute d < 60 /\ 0 <= second d < 60
  /\ 0 <= microsecond d < 1000000.

End Dates.

(** ** [html_to_csv_converter.py]: further blocks of [_extract_data_from_soup]

    Each block is a function of the record and of what the block looks up
    in the document. *)

Module Profile.

Import Exc Converter.

(** *** The address *)

(** [\d{n}] at the start of [s]: the digits and what follows them. *)
Fixpoint take_digits (n : nat) (s : string) : option (string * string) :=
  match n with
  | O => Some (EmptyString, s)
  | S n' =>
      match s with
      | String c r =>
          if Py.is_digit c then
            match take_digits n' r with
            | Some (d, rest) => Some (String c d, rest)
            | None => None
            end
          else None
      | EmptyString => None
      end
  end.

(** [\d{5}(?:-\d{4})?] at the start of [s]. *)
Definition match_zip (s : string) : option string :=
  match take_digits 5 s with
  | Some (zip, rest) =>
      match rest with
      | String c r =>
          if Ascii.eqb c "-" then
            match take_digits 4 r with
            | Some (plus4, _) => Some (zip ++ "-" ++ plus4)
            | None => Some zip
            end
          else Some zip
      | EmptyString => Some zip
      end
  | None => None
  end.

(** [re.match(r'([A-Z]{2})\s*,?\s*(\d{5}(?:-\d{4})?)?', s)]: the groups 1
    and 2.  Everything after the two letters is optional, so the greedy
    choices are never undone. *)
Definition match_state_zip (s : string) : option (string * option string) :=
  match s with
  | String a (String b r) =>
      if Py.is_upper a && Py.is_upper b then
        let r := Py.lstrip r in
        let r :=
          match r with
          | String c r' => if Ascii.eqb c "," then Py.lstrip r' else r
          | EmptyString => r
          end in
        Some (String a (String b EmptyString), match_zip r)
      else None
  | _ => None
  end.

(** The block that reads [<p id="masthead-location">];
    [masthead_location] is its [get_text(strip=True)]. *)
Definition extract_address (masthead_location : option string)
    (data : gmap string value) : gmap string value :=
  match masthead_location with
  | Some address_text =>
      let data := <["company_address" := VStr address_text]> data in
      let parts := map Py.strip (Py.split "," address_text) in
      if (2 <=? length parts)%nat then
        let last_part := Py.strip (last parts EmptyString) in
        let data :=
          match match_state_zip last_part with
          | Some (state, zip) =>
              let data := <["company_state" := VStr state]> data in
              match zip with
              | Some zip => <["company_zip" := VStr zip]> data
              | None => data
              end
          | None => data
          end in
        <["company_city" :=
            VStr (Py.strip (nth (length parts - 2) parts EmptyString))]> data
      else data
  | None => data
  end.

(** The three fields the block may set. *)
Definition address_fields (data : gmap string value) : list value :=
  map (get data) ["company_city"; "company_state"; "company_zip"].

(** *** The practice areas *)

(** [re.sub(r'^\d+\s*%?\s*', '', s)] *)
Definition drop_leading_number (s : string) : string :=
  match Py.span_digits s with
  | (EmptyString, _) => s
  | (_, r) =>
      let r := Py.lstrip r in
      match r with
      | String c r' => if Ascii.eqb c "%" then Py.lstrip r' else r
      | EmptyString => r
      end
  end.

(** [$]: the end of the text, or the line break that ends it. *)
Definition at_end (s : string) : bool :=
  String.eqb s EmptyString || String.eqb s (String "010" EmptyString).

(** [re.sub(r'\s*%$', '', s)]: the leftmost place from which white
    space, a [%] and the end follow is where the text is cut. *)
Fixpoint drop_trailing_percent (s : string) : string :=
  let here :=
    match Py.lstrip s with
    | String c e => if Ascii.eqb c "%" && at_end e then Some e else None
    | EmptyString => None
    end in
  match here with
  | Some e => e
  | None =>
      match s with
      | String c r => String c (drop_trailing_percent r)
      | EmptyString => EmptyString
      end
  end.

(** [pa_clean not in cleaned_practice_areas] *)
Definition not_in (s : string) (l : list string) : bool :=
  negb (existsb (String.eqb s) l).

(** The loop that cleans the names gathered by the eight methods and
    drops the repetitions; [cleaned_practice_areas] is the list built so
    far. *)
Fixpoint clean_practice_areas (cleaned_practice_areas : list string)
    (practice_areas : list string) : list string :=
  match practice_areas with
  | [] => cleaned_practice_areas
  | pa :: rest =>
      let pa_clean := Py.strip pa in
      let cleaned_practice_areas :=
        if Py.truthy pa_clean && negb (Py.isdigit pa_clean)
           && negb (Py.contains "%" pa_clean)
           && (2 <? String.length pa_clean)%nat
        then
          let pa_clean := drop_trailing_percent (drop_leading_number pa_clean) in
          if Py.truthy pa_clean && not_in pa_clean cleaned_practice_areas
          then (cleaned_practice_areas ++ [pa_clean])%list
          else cleaned_practice_areas
        else cleaned_practice_areas in
      clean_practice_areas cleaned_practice_areas rest
  end.

(** What the names of the cleaned list have in common, for names gathered
    as [sources]: not empty, no [%], no white space at either end, and the
    end of a gathered name. *)
Definition clean_name (sources : list string) (name : string) : Prop :=
  name <> EmptyString /\ Py.contains "%" name = false /\ Py.strip name = name
  /\ exists source front, In source sources /\ Py.strip source = front ++ name.

(** The block that stores them; [practice_areas] is the list the eight
    methods have gathered. *)
Definition set_practice_areas (practice_areas : list string)
    (data : gmap string value) : gmap string value :=
  match clean_practice_areas [] practice_areas with
  | [] => data
  | first :: others =>
      <["primary_practice_area" := VStr first]>
        (<["practice_areas" := VStr (Py.join ", " (first :: others))]> data)
  end.

End Profile.

(** ** Dates as the site prints them *)

Module Calendar.

Definition month_names : list string :=
  [ "January"; "February"; "March"; "April"; "May"; "June"; "July"; "August";
    "September"; "October"; "November"; "December" ].

Definition month_name (m : Z) : string :=
  nth (Z.to_nat (m - 1)) month_names EmptyString.

(** A date in the form of "February 1, 2018". *)
Definition long_form (y m d : Z) : string :=
  month_name m ++ " " ++ Scraper.str d ++ ", " ++ Py.pad4 y.

End Calendar.

(** * Properties *)

(** ** Sanity checks of the string and date models *)

Example strip_ex : Py.strip "  Feb 1, 2018 " = "Feb 1, 2018".
Proof. reflexivity. Qed.

Example split_ex :
  Py.split "-" "94401-ca-haitham-ballout-336338"
  = ["94401"; "ca"; "haitham"; "ballout"; "336338"].
Proof. reflexivity. Qed.

Example title_ex : Py.title "haitham ballout" = "Haitham Ballout".
Proof. reflexivity. Qed.

Example parse_long :
  Scraper.parse_review_date (Some "February 1, 2018")
  = Some (DateTime.mk_datetime 2018 2 1 0 0 0 0).
Proof. reflexivity. Qed.

Example parse_abbr :
  Scraper.parse_review_date (Some " feb  29, 2020 ")
  = Some (DateTime.mk_datetime 2020 2 29 0 0 0 0).
Proof. reflexivity. Qed.

Example parse_slash :
  Scraper.parse_review_date (Some "2/1/2018")
  = Some (DateTime.mk_datetime 2018 2 1 0 0 0 0).
Proof. reflexivity. Qed.

Example parse_nospace :
  Scraper.parse_review_date (Some "May 11,2018")
  = Some (DateTime.mk_datetime 2018 5 11 0 0 0 0).
Proof. reflexivity. Qed.

Example parse_iso :
  Scraper.parse_review_date (Some "2018-02-01")
  = Some (DateTime.mk_datetime 2018 2 1 0 0 0 0).
Proof. reflexivity. Qed.

Example parse_bad :
  Scraper.parse_review_date (Some "February 30, 2018") = None.
Proof. reflexivity. Qed.

Example iso_ex :
  DateTime.isoformat (DateTime.mk_datetime 2018 2 1 0 0 0 0) = "2018-02-01T00:00:00".
Proof. reflexivity. Qed.

Example sub_days_ex :
  DateTime.sub_days (DateTime.mk_datetime 2026 11 4 10 30 0 5) 365
  = Some (DateTime.mk_datetime 2025 11 4 10 30 0 5).
Proof. reflexivity. Qed.

Example sub_days_leap :
  DateTime.sub_days (DateTime.mk_datetime 2024 3 1 0 0 0 0) 1
  = Some (DateTime.mk_datetime 2024 2 29 0 0 0 0).
Proof. reflexivity. Qed.

Example sub_days_newyear :
  DateTime.sub_days (DateTime.mk_datetime 2025 1 1 0 0 0 0) 1
  = Some (DateTime.mk_datetime 2024 12 31 0 0 0 0).
Proof. reflexivity. Qed.

Example sub_days_overflow :
  DateTime.sub_days (DateTime.mk_datetime 2025 1 1 0 0 0 0) 800000 = None.
Proof. reflexivity. Qed.

(** ** Dictionaries *)

Section dict_facts.

Import Converter.

Lemma lookup_fold_insert_other (f : string -> value) (ks : list string)
    (m : gmap string value) (k : string) :
  ~ In k ks ->
  fold_left (fun row k' => <[k' := f k']> row) ks m !! k = m !! k.
Proof.
  revert m. induction ks as [|k' ks IH]; intros m Hk; simpl.
  - reflexivity.
  - rewrite IH by (intros H; apply Hk; right; exact H).
    apply lookup_insert_ne. intros ->. apply Hk. left. reflexivity.
Qed.

Lemma lookup_fold_insert_in (f : string -> value) (ks : list string)
    (m : gmap string value) (k : string) :
  In k ks ->
  fold_left (fun row k' => <[k' := f k']> row) ks m !! k = Some (f k).
Proof.
  revert m. induction ks as [|k' ks IH]; intros m Hk; simpl.
  - destruct Hk.
  - destruct (in_dec string_dec k ks) as [Hin|Hnin].
    + apply IH, Hin.
    + destruct Hk as [->|Hk]; [|contradiction].
      rewrite lookup_fold_insert_other by exact Hnin.
      apply lookup_insert_eq.
Qed.

End dict_facts.

(** ** Row materialisation *)

Section rows.

Import Converter.

Lemma review_row_profile (data review : gmap string value) (k : string) :
  ~ In k review_fields -> review_row data review !! k = data !! k.
Proof. intros Hk. unfold review_row. apply lookup_fold_insert_other, Hk. Qed.

Lemma review_row_review (data review : gmap string value) (k : string) :
  In k review_fields -> review_row data review !! k = Some (get review k).
Proof.
  intros Hk. unfold review_row.
  apply (lookup_fold_insert_in (fun k' => get review k')), Hk.
Qed.

Lemma empty_row_profile (data : gmap string value) (k : string) :
  ~ In k review_fields -> empty_row data !! k = data !! k.
Proof.
  intros Hk. unfold empty_row.
  apply (lookup_fold_insert_other (fun _ => VNone)), Hk.
Qed.

Lemma empty_row_review (data : gmap string value) (k : string) :
  In k review_fields -> empty_row data !! k = Some VNone.
Proof.
  intros Hk. unfold empty_row.
  apply (lookup_fold_insert_in (fun _ => VNone)), Hk.
Qed.

Lemma build_rows_length (data : gmap string value)
    (reviews : list (gmap string value)) :
  length (build_rows data reviews) = Nat.max 1 (length reviews).
Proof.
  destruct reviews as [|r rs]; simpl; [reflexivity|].
  rewrite length_map. reflexivity.
Qed.

(** No profile field of the extraction has the name of a review field. *)
Lemma default_data_review_fields (now : DateTime.datetime) (k : string) :
  In k review_fields -> default_data now !! k = None.
Proof.
  intros Hk. simpl in Hk.
  repeat (destruct Hk as [<-|Hk]; [reflexivity|]). destruct Hk.
Qed.

End rows.

(** C5.  Row materialisation produces [max 1 (len reviews)] rows: for an
    empty review list a single row whose review fields are all [None];
    otherwise the i-th row belongs to the i-th review and carries that
    review's fields; and in every row each profile field has exactly the
    value it has in the profile record. *)
Theorem C5_row_materialisation
    (data : gmap string Converter.value)
    (reviews : list (gmap string Converter.value)) :
  length (Converter.build_rows data reviews) = Nat.max 1 (length reviews)
  /\ (reviews = [] ->
      exists row, Converter.build_rows data reviews = [row]
        /\ forall k, In k Converter.review_fields -> row !! k = Some Converter.VNone)
  /\ (forall (i : nat) review, nth_error reviews i = Some review ->
      exists row, nth_error (Converter.build_rows data reviews) i = Some row
        /\ forall k, In k Converter.review_fields ->
                     row !! k = Some (Converter.get review k))
  /\ (forall row k, In row (Converter.build_rows data reviews) ->
      ~ In k Converter.review_fields -> row !! k = data !! k).
Proof.
  split; [apply build_rows_length|].
  split.
  { intros ->. exists (Converter.empty_row data). split; [reflexivity|].
    intros k Hk. apply empty_row_review, Hk. }
  split.
  { intros i review Hi.
    exists (Converter.review_row data review). split.
    - destruct reviews as [|r rs]; [destruct i; discriminate|].
      unfold Converter.build_rows. rewrite nth_error_map, Hi. reflexivity.
    - intros k Hk. apply review_row_review, Hk. }
  intros row k Hrow Hk.
  destruct reviews as [|r rs].
  - destruct Hrow as [<-|[]]. apply empty_row_profile, Hk.
  - unfold Converter.build_rows in Hrow. apply in_map_iff in Hrow.
    destruct Hrow as [review [<- _]]. apply review_row_profile, Hk.
Qed.

Section cleaning.

Import Converter.



(** The cleaning pass keeps the number of rows and every field that is
    not a text field. *)
Lemma rows_of_length (data : gmap string value)
    (reviews : list (gmap string value)) :
  length (rows_of data reviews) = Nat.max 1 (length reviews).
Proof. unfold rows_of. rewrite length_map. apply build_rows_length. Qed.


End cleaning.

(** ** The nomenclature identifier *)

Section nomenclature.

Import Converter.

Lemma no_char_app (c : ascii) (s t : string) :
  Py.no_char c s -> Py.no_char c t -> Py.no_char c (s ++ t).
Proof. induction s as [|a s IH]; simpl; intuition. Qed.

Lemma split_from_no_sep (sep : ascii) (s cur : string) :
  Py.no_char sep cur -> Forall (Py.no_char sep) (Py.split_from sep cur s).
Proof.
  revert cur. induction s as [|a s IH]; intros cur Hcur; simpl.
  - constructor; [exact Hcur|constructor].
  - destruct (Ascii.eqb a sep) eqn:E.
    + constructor; [exact Hcur|]. apply IH. exact I.
    + apply IH. apply no_char_app; [exact Hcur|]. simpl. split; [|exact I].
      intros ->. rewrite Ascii.eqb_refl in E. discriminate.
Qed.

Lemma split_no_sep (sep : ascii) (s : string) :
  Forall (Py.no_char sep) (Py.split sep s).
Proof. apply split_from_no_sep. exact I. Qed.

Lemma Forall_removelast {A} (P : A -> Prop) (l : list A) :
  Forall P l -> Forall P (removelast l).
Proof.
  induction 1 as [|x l Hx Hl IH]; simpl; [constructor|].
  destruct l; [constructor|]. constructor; assumption.
Qed.

Lemma Forall_skipn' {A} (P : A -> Prop) (n : nat) (l : list A) :
  Forall P l -> Forall P (skipn n l).
Proof.
  revert l. induction n as [|n IH]; intros l H; simpl; [exact H|].
  destruct H; [constructor|]. apply IH. assumption.
Qed.

Lemma join_no_char (c : ascii) (sep : string) (l : list string) :
  Py.no_char c sep -> Forall (Py.no_char c) l -> Py.no_char c (Py.join sep l).
Proof.
  intros Hsep. induction 1 as [|x l Hx Hl IH]; simpl; [exact I|].
  destruct l as [|y l]; [exact Hx|].
  apply no_char_app; [exact Hx|]. apply no_char_app; [exact Hsep|exact IH].
Qed.

Lemma replace_char_absent (a b : ascii) (s : string) :
  Py.no_char a s -> Py.replace_char a b s = s.
Proof.
  induction s as [|c s IH]; simpl; [reflexivity|].
  intros [Hc Hs]. rewrite IH by exact Hs.
  destruct (Ascii.eqb c a) eqn:E; [|reflexivity].
  apply Ascii.eqb_eq in E. contradiction.
Qed.

(** After the split on the dash, the replacement of dashes in the name
    changes nothing. *)
Lemma name_of_parts (nomenclature_id : string) :
  let ps := name_parts (Py.split "-" nomenclature_id) in
  Py.replace_char "-" " " (Py.join " " ps) = Py.join " " ps.
Proof.
  intros ps. apply replace_char_absent, join_no_char.
  - simpl. split; [discriminate|exact I].
  - apply Forall_removelast, Forall_skipn', split_no_sep.
Qed.

Lemma name_parts_nonempty (parts : list string) :
  (4 <= length parts)%nat -> name_parts parts <> [].
Proof.
  destruct parts as [|a [|b [|c [|d l]]]]; simpl; try lia.
  intros _. unfold name_parts. simpl. destruct l; discriminate.
Qed.

End nomenclature.

(** C2 (amended).  When the identifier has at least four dash-separated
    tokens, the first is the postal code, the second, upper-cased, the state
    code, the last the profile id, and the tokens in between (there is at
    least one), joined by spaces and title-cased, the name.  When it has
    fewer than four tokens, only the identifier itself is stored and the
    four fields keep the value they had. *)
Theorem C2_decomposition (nomenclature_id : string)
    (data : gmap string Converter.value) :
  let parts := Py.split "-" nomenclature_id in
  let data' := Converter.set_nomenclature nomenclature_id data in
  ((4 <= length parts)%nat ->
     data' !! "nomenclature_zip_code" = Some (Converter.VStr (nth 0 parts ""))
     /\ data' !! "nomenclature_state_code"
        = Some (Converter.VStr (Py.upper (nth 1 parts "")))
     /\ data' !! "nomenclature_profile_id" = Some (Converter.VStr (last parts ""))
     /\ Converter.name_parts parts <> []
     /\ data' !! "nomenclature_name"
        = Some (Converter.VStr (Py.title (Py.join " " (Converter.name_parts parts)))))
  /\ ((length parts < 4)%nat ->
      forall k, k <> "nomenclature_id" -> data' !! k = data !! k).
Proof.
  intros parts data'. split.
  - intros Hlen.
    pose proof (name_parts_nonempty parts Hlen) as Hne.
    pose proof (name_of_parts nomenclature_id) as Hname. simpl in Hname.
    fold parts in Hname.
    subst data'. unfold Converter.set_nomenclature. fold parts.
    destruct (4 <=? length parts)%nat eqn:E; [|apply Nat.leb_gt in E; lia].
    destruct (Converter.name_parts parts) as [|p ps] eqn:Eps; [contradiction|].
    rewrite Hname.
    repeat split; try discriminate.
    + rewrite !lookup_insert_ne by discriminate. apply lookup_insert_eq.
    + rewrite !lookup_insert_ne by discriminate. apply lookup_insert_eq.
    + rewrite !lookup_insert_ne by discriminate. apply lookup_insert_eq.
    + apply lookup_insert_eq.
  - intros Hlen k Hk. subst data'. unfold Converter.set_nomenclature. fold parts.
    destruct (4 <=? length parts)%nat eqn:E; [apply Nat.leb_le in E; lia|].
    apply lookup_insert_ne. congruence.
Qed.

Lemma C2_decomposition_witness :
  let data' :=
    Converter.set_nomenclature "94401-ca-haitham-ballout-336338" ∅ in
  data' !! "nomenclature_zip_code" = Some (Converter.VStr "94401")
  /\ data' !! "nomenclature_state_code" = Some (Converter.VStr "CA")
  /\ data' !! "nomenclature_profile_id" = Some (Converter.VStr "336338")
  /\ data' !! "nomenclature_name" = Some (Converter.VStr "Haitham Ballout").
Proof.
  destruct (C2_decomposition "94401-ca-haitham-ballout-336338" ∅) as [H _].
  destruct H as (Hz & Hs & Hp & _ & Hn); [simpl; lia|].
  repeat split; assumption.
Defined.

(** C2 as stated fails for an identifier of three tokens: the identifier
    is stored and the four fields stay [None]. *)
Lemma C2_three_tokens_counterexample :
  Py.split "-" "94401-ca-336338" = ["94401"; "ca"; "336338"]
  /\ Samples.extracted_nomenclature Samples.short_id_soup
     = Some [ Converter.VStr "94401-ca-336338"; Converter.VNone; Converter.VNone;
              Converter.VNone; Converter.VNone ].
Proof. vm_compute. split; reflexivity. Qed.

Example nomenclature_two_name_tokens :
  Samples.extracted_nomenclature (Samples.soup_of [])
  = Some [ Converter.VStr "94401-ca-haitham-ballout-336338"; Converter.VStr "94401";
           Converter.VStr "CA"; Converter.VStr "Haitham Ballout";
           Converter.VStr "336338" ].
Proof. vm_compute. reflexivity. Qed.

Example nomenclature_one_name_token :
  Converter.get (Converter.set_nomenclature "94401-ca-john-336338" ∅) "nomenclature_name"
  = Converter.VStr "John".
Proof. vm_compute. reflexivity. Qed.

(** ** Reviews *)

Section reviews.

Import Converter.

Lemma set_opt_other (k k' : string) (o : option string) (d : gmap string value) :
  k <> k' -> set_opt k o d !! k' = d !! k'.
Proof. intros H. destruct o; simpl; [apply lookup_insert_ne, H|reflexivity]. Qed.

Lemma review_header_other (c : ReviewContainer) (d : gmap string value) (k : string) :
  ~ In k ["review_tooltip"; "review_type"; "reviewer_name"; "review_date"] ->
  review_header c d !! k = d !! k.
Proof.
  intros Hk. unfold review_header.
  assert (forall k' v (m : gmap string value),
            In k' ["review_tooltip"; "review_type"; "reviewer_name"; "review_date"] ->
            <[k' := v]> m !! k = m !! k) as Hins.
  { intros k' v m Hk'. apply lookup_insert_ne. intros ->. contradiction. }
  repeat case_match; rewrite ?Hins by (simpl; tauto);
    apply set_opt_other; intros <-; apply Hk; simpl; tauto.
Qed.

Lemma review_response_other (c : ReviewContainer) (d : gmap string value) (k : string) :
  ~ In k ["attorney_response_name"; "attorney_response_date"; "attorney_response_text"] ->
  review_response c d !! k = d !! k.
Proof.
  intros Hk. unfold review_response.
  assert (forall k' v (m : gmap string value),
            In k' ["attorney_response_name"; "attorney_response_date";
                   "attorney_response_text"] ->
            <[k' := v]> m !! k = m !! k) as Hins.
  { intros k' v m Hk'. apply lookup_insert_ne. intros ->. contradiction. }
  assert (forall k' o (m : gmap string value),
            In k' ["attorney_response_name"; "attorney_response_date";
                   "attorney_response_text"] ->
            set_opt k' o m !! k = m !! k) as Hset.
  { intros k' o m Hk'. apply set_opt_other. intros ->. contradiction. }
  repeat case_match; rewrite ?Hset, ?Hins, ?Hset by (simpl; tauto); reflexivity.
Qed.

Lemma extract_review_title (c : ReviewContainer) :
  extract_review c !! "review_title"
  = Some (match title_h4 c with Some s => VStr s | None => VNone end).
Proof.
  unfold extract_review.
  rewrite review_response_other by (simpl; intuition discriminate).
  unfold review_body.
  destruct (content_spans c);
    rewrite ?lookup_insert_ne by discriminate;
    (destruct (title_h4 c); simpl;
     [apply lookup_insert_eq
     |rewrite review_header_other by (simpl; intuition discriminate); reflexivity]).
Qed.

Lemma extract_review_text (c : ReviewContainer) :
  extract_review c !! "review_text"
  = Some (match content_spans c with
          | Some spans => VStr (review_text_of spans)
          | None => VNone
          end).
Proof.
  unfold extract_review.
  rewrite review_response_other by (simpl; intuition discriminate).
  unfold review_body.
  destruct (content_spans c); [apply lookup_insert_eq|].
  rewrite set_opt_other by discriminate.
  rewrite review_header_other by (simpl; intuition discriminate). reflexivity.
Qed.

Lemma truthy_text (s : string) : Py.truthy s = true <-> s <> EmptyString.
Proof. destruct s; simpl; split; congruence. Qed.

Lemma truthy_is_text (o : option string) :
  let v := match o with Some s => VStr s | None => VNone end in
  truthy v = true <-> is_text v.
Proof.
  destruct o as [s|]; simpl.
  - rewrite truthy_text. split.
    + intros H. exists s. split; [reflexivity|exact H].
    + intros (s' & [= <-] & H). exact H.
  - split; [discriminate|]. intros (s' & H & _). discriminate.
Qed.

Lemma has_text_or_title_spec (c : ReviewContainer) :
  has_text_or_title (extract_review c) = true
  <-> is_text (get (extract_review c) "review_title")
      \/ is_text (get (extract_review c) "review_text").
Proof.
  unfold has_text_or_title, get.
  rewrite extract_review_title, extract_review_text. simpl.
  rewrite orb_true_iff.
  rewrite (truthy_is_text (title_h4 c)).
  pose proof (truthy_is_text (option_map review_text_of (content_spans c))) as H.
  destruct (content_spans c); simpl in *; rewrite H; tauto.
Qed.

Lemma extract_reviews_filter (containers : list ReviewContainer) :
  extract_reviews containers
  = List.filter has_text_or_title (map extract_review containers).
Proof.
  induction containers as [|c cs IH]; simpl; [reflexivity|].
  rewrite IH. reflexivity.
Qed.

Lemma extract_data_reviews now soup f data reviews :
  _extract_data_from_soup now soup f = Exc.Ok (data, reviews) ->
  reviews = extract_reviews (client_reviews soup).
Proof.
  unfold _extract_data_from_soup.
  destruct (extract_avvo_rating _ _) as [d|e]; simpl; [|discriminate].
  intros [= _ <-]. reflexivity.
Qed.

Lemma extract_data_ok now soup f :
  Exc.is_ok (_extract_data_from_soup now soup f) = true ->
  exists data,
    _extract_data_from_soup now soup f
    = Exc.Ok (data, extract_reviews (client_reviews soup)).
Proof.
  unfold _extract_data_from_soup.
  destruct (extract_avvo_rating _ _) as [d|e]; simpl; [|discriminate].
  intros _. eexists. reflexivity.
Qed.

End reviews.

(** C7.  The reviews the extraction returns are exactly the records of the
    review containers of the document, in which the title or the body text
    is a non-empty string; a record with neither is left out. *)
Theorem C7_review_kept (now : DateTime.datetime) (soup : Converter.Soup)
    (f : option string) (data : gmap string Converter.value)
    (reviews : list (gmap string Converter.value)) :
  Converter._extract_data_from_soup now soup f = Exc.Ok (data, reviews) ->
  forall r,
    In r reviews <->
    (exists c, In c (Converter.client_reviews soup) /\ r = Converter.extract_review c)
    /\ (Converter.is_text (Converter.get r "review_title")
        \/ Converter.is_text (Converter.get r "review_text")).
Proof.
  intros H r. rewrite (extract_data_reviews _ _ _ _ _ H).
  rewrite extract_reviews_filter, filter_In, in_map_iff. split.
  - intros [(c & <- & Hc) Hk]. split; [exists c; auto|].
    apply has_text_or_title_spec, Hk.
  - intros [(c & Hc & ->) Hk]. split; [exists c; auto|].
    apply has_text_or_title_spec, Hk.
Qed.

Lemma C7_review_kept_witness :
  let soup := Samples.soup_of
                [Samples.review_on "May 1, 2026" "Great"; Samples.bare_review] in
  In (Converter.extract_review (Samples.review_on "May 1, 2026" "Great"))
     (Converter.extract_reviews (Converter.client_reviews soup))
  /\ ~ In (Converter.extract_review Samples.bare_review)
          (Converter.extract_reviews (Converter.client_reviews soup)).
Proof.
  intros soup.
  destruct (extract_data_ok Samples.now soup None) as [data E];
    [vm_compute; reflexivity|].
  pose proof (C7_review_kept _ _ _ _ _ E) as H.
  split.
  - apply (H _). split.
    + eexists. split; [left; reflexivity|reflexivity].
    + left. exists "Great". split; [vm_compute; reflexivity|discriminate].
  - intros Hin.
    destruct (proj1 (H _) Hin) as [_ [(s & Hs & Hne)|(s & Hs & Hne)]];
      vm_compute in Hs; discriminate.
Defined.

(** ** Profile extraction *)

Section extraction.

Import Exc Converter.

Lemma default_data_name now : default_data now !! "attorney_full_name" = Some VNone.
Proof. reflexivity. Qed.

Lemma default_data_url now : default_data now !! "profile_url" = Some VNone.
Proof. reflexivity. Qed.

Lemma extract_avvo_rating_other soup (d d' : gmap string value) (k : string) :
  extract_avvo_rating soup d = Ok d' -> k <> "avvo_rating" -> d' !! k = d !! k.
Proof.
  unfold extract_avvo_rating. intros H Hk.
  destruct (span_avvo_rating_count soup) as [t|]; [|injection H as <-; reflexivity].
  destruct (search_rating t) as [g|]; [|injection H as <-; reflexivity].
  destruct (float_of_number g) as [v|e]; simpl in H; [|discriminate].
  injection H as <-. apply lookup_insert_ne. congruence.
Qed.

(** What the extraction leaves in a field that only the statements before
    the rating may have set. *)
Lemma extract_data_early_field now soup f data reviews (k : string) :
  _extract_data_from_soup now soup f = Ok (data, reviews) ->
  k <> "avvo_rating" -> k <> "total_reviews_extracted" ->
  k <> "review_date_filter" ->
  data !! k
  = parse_nomenclature
      (set_opt "profile_url" (link_canonical_href soup)
         (set_opt "attorney_full_name" (h1_profile_name soup) (default_data now)))
    !! k.
Proof.
  unfold _extract_data_from_soup. intros H K1 K2 K3.
  destruct (extract_avvo_rating _ _) as [d|e] eqn:E; simpl in H; [|discriminate].
  injection H as <- _.
  rewrite <- (extract_avvo_rating_other _ _ _ k E K1).
  destruct f as [f|]; [destruct (Py.truthy f)|];
    rewrite ?lookup_insert_ne by congruence;
    (destruct (extract_reviews _); rewrite ?lookup_insert_ne by congruence;
     reflexivity).
Qed.

Lemma extract_data_filter now soup f data reviews :
  _extract_data_from_soup now soup (Some f) = Ok (data, reviews) ->
  Py.truthy f = true ->
  data !! "review_date_filter" = Some (VStr f).
Proof.
  unfold _extract_data_from_soup. intros H Hf.
  destruct (extract_avvo_rating _ _) as [d|e]; simpl in H; [|discriminate].
  injection H as <- _. rewrite Hf. apply lookup_insert_eq.
Qed.

Lemma dict_truthy_lookup (d : gmap string value) (k : string) (v : value) :
  d !! k = Some v -> dict_truthy d = true.
Proof.
  intros H. unfold dict_truthy. rewrite bool_decide_eq_false_2; [reflexivity|].
  intros ->. rewrite lookup_empty in H. discriminate.
Qed.

Lemma extract_identity_missing now soup f data reviews :
  h1_profile_name soup = None -> link_canonical_href soup = None ->
  _extract_data_from_soup now soup f = Ok (data, reviews) ->
  data !! "attorney_full_name" = Some VNone
  /\ data !! "profile_url" = Some VNone.
Proof.
  intros Hn Hu H.
  rewrite !(extract_data_early_field _ _ _ _ _ _ H) by discriminate.
  rewrite Hn, Hu. unfold set_opt, parse_nomenclature, get.
  rewrite default_data_url. cbn [default].
  split; [apply default_data_name|apply default_data_url].
Qed.

End extraction.

(** C4 (amended).  When neither the profile name nor the profile URL is
    found in the document the scraper ends up with, the extraction still
    returns a record, with both fields [None]; the record is not empty, so
    the "failed to extract" test does not fire: the scraper returns the
    record and its reviews, the batch loop writes their rows, counts the URL
    as successful and goes on with the next URL. *)
Theorem C4_missing_identity (fuel : nat) (now : DateTime.datetime)
    (web : Scraper.Web) (days_back : option Z) (url : string)
    (rest : list string) (b : Scraper.batch)
    (cutoff_date : option DateTime.datetime) (main : Scraper.Page)
    (html_content : Converter.Soup)
    (data : gmap string Converter.value)
    (reviews : list (gmap string Converter.value)) :
  Scraper.cutoff_of now days_back = Exc.Ok cutoff_date ->
  web url = Some main ->
  Scraper.final_html fuel cutoff_date web url main = Some html_content ->
  Converter.h1_profile_name html_content = None ->
  Converter.link_canonical_href html_content = None ->
  Converter.extract_profile_data_from_html now html_content
    (Some (Scraper.csv_filter_info days_back cutoff_date)) = Exc.Ok (data, reviews) ->
  data !! "attorney_full_name" = Some Converter.VNone
  /\ data !! "profile_url" = Some Converter.VNone
  /\ Scraper.scrape_and_convert_to_csv fuel now web url days_back
     = Some (Some (data, reviews))
  /\ Scraper.process_urls fuel now web days_back (url :: rest) b
     = Scraper.process_urls fuel now web days_back rest
         (Scraper.mk_batch
            (Some (Scraper.save_to_csv_append data reviews
                     (Scraper.output_csv b) (Scraper.is_first_url b)))
            false (S (Scraper.successful b)) (Scraper.failed b)).
Proof.
  intros Hc Hw Hf Hn Hu He.
  unfold Converter.extract_profile_data_from_html in He.
  destruct (extract_identity_missing _ _ _ _ _ Hn Hu He) as [Hname Hurl].
  assert (Scraper.scrape_and_convert_to_csv fuel now web url days_back
          = Some (Some (data, reviews))) as Hs.
  { unfold Scraper.scrape_and_convert_to_csv,
      Converter.extract_profile_data_from_html.
    rewrite Hc, Hw, Hf, He.
    rewrite (dict_truthy_lookup _ _ _ Hname). reflexivity. }
  repeat split; try assumption.
  cbn [Scraper.process_urls]. rewrite Hs. reflexivity.
Qed.

Lemma returned_inv {A} (r : option (option A)) :
  Scraper.returned r = true -> exists a, r = Some (Some a).
Proof.
  destruct r as [[a|]|]; simpl; try discriminate. intros _. exists a. reflexivity.
Qed.

Lemma C4_missing_identity_witness :
  let web := Samples.site Samples.profile_url (Samples.page_of Samples.blank_soup) in
  exists data reviews,
    Scraper.scrape_and_convert_to_csv 2 Samples.now web Samples.profile_url None
    = Some (Some (data, reviews))
    /\ data !! "attorney_full_name" = Some Converter.VNone
    /\ data !! "profile_url" = Some Converter.VNone.
Proof.
  intros web.
  destruct (extract_data_ok Samples.now Samples.blank_soup
              (Some (Scraper.csv_filter_info None None))) as [data E];
    [vm_compute; reflexivity|].
  assert (Scraper.final_html 2 None web Samples.profile_url
            (Samples.page_of Samples.blank_soup) = Some Samples.blank_soup) as Hf
    by (vm_compute; reflexivity).
  destruct (C4_missing_identity 2 Samples.now web None Samples.profile_url []
              Samples.new_batch None (Samples.page_of Samples.blank_soup)
              Samples.blank_soup data _ eq_refl eq_refl Hf eq_refl eq_refl E)
    as (Hn & Hu & Hs & _).
  exists data, (Converter.extract_reviews (Converter.client_reviews Samples.blank_soup)).
  split; [exact Hs|]. split; assumption.
Defined.

(** C4 as stated fails: for a document without profile name and URL the
    scraper returns a record, the batch counts the URL as successful and
    writes a header and one row. *)
Lemma C4_counterexample :
  let web := Samples.site Samples.profile_url (Samples.page_of Samples.blank_soup) in
  Converter.h1_profile_name Samples.blank_soup = None
  /\ Converter.link_canonical_href Samples.blank_soup = None
  /\ (exists data reviews,
        Scraper.scrape_and_convert_to_csv 2 Samples.now web Samples.profile_url None
        = Some (Some (data, reviews)))
  /\ Scraper.summary
       (Scraper.process_urls 2 Samples.now web None [Samples.profile_url]
          Samples.new_batch)
     = Some (1%nat, 0%nat, Some 2%nat).
Proof.
  intros web. split; [reflexivity|]. split; [reflexivity|]. split.
  - destruct (returned_inv
                (Scraper.scrape_and_convert_to_csv 2 Samples.now web
                   Samples.profile_url None)) as [[data reviews] H];
      [vm_compute; reflexivity|].
    exists data, reviews. exact H.
  - vm_compute. reflexivity.
Qed.

(** C6 (the code departs from it).  A document whose Avvo rating text is
    [Rating: 1.2.3] makes the extraction raise [ValueError]: the pattern
    captures [1.2.3] and [float] rejects it outside any [try].  The scraper
    then reports the profile as failed. *)
Theorem C6_rating_raises (now : DateTime.datetime) (f : option string) :
  Converter.search_rating "Rating: 1.2.3" = Some "1.2.3"
  /\ Converter.float_of_number "1.2.3" = Exc.Raise Exc.ValueError
  /\ Converter._extract_data_from_soup now Samples.odd_rating_soup f
     = Exc.Raise Exc.ValueError
  /\ Scraper.scrape_and_convert_to_csv 2 Samples.now
       (Samples.site Samples.profile_url (Samples.page_of Samples.odd_rating_soup))
       Samples.profile_url None
     = Some None.
Proof.
  split; [reflexivity|]. split; [reflexivity|]. split.
  - unfold Converter._extract_data_from_soup.
    assert (forall d, Converter.extract_avvo_rating Samples.odd_rating_soup d
                      = Exc.Raise Exc.ValueError) as -> by (intros d; reflexivity).
    reflexivity.
  - vm_compute. reflexivity.
Qed.

(** ** The days-back filter *)

Section days_back.

Import Exc Converter Scraper.

Lemma check_reviews_no_cutoff (review_containers : list ReviewContainer) :
  check_reviews None review_containers = (review_containers, false).
Proof.
  induction review_containers as [|r rs IH]; simpl; [reflexivity|].
  rewrite IH. reflexivity.
Qed.

Lemma scrape_result_filter fuel now web url days_back data reviews :
  scrape_and_convert_to_csv fuel now web url days_back = Some (Some (data, reviews)) ->
  exists cutoff_date,
    cutoff_of now days_back = Ok cutoff_date
    /\ data !! "review_date_filter"
       = Some (VStr (csv_filter_info days_back cutoff_date)).
Proof.
  unfold scrape_and_convert_to_csv, extract_profile_data_from_html.
  destruct (cutoff_of now days_back) as [c|e]; [|discriminate].
  destruct (web url) as [main|]; [|discriminate].
  destruct (final_html fuel c web url main) as [html|]; [|discriminate].
  destruct (_extract_data_from_soup _ _ _) as [[d r]|e] eqn:E; [|discriminate].
  destruct (negb (dict_truthy d)); [discriminate|].
  intros [= <- <-]. exists c. split; [reflexivity|].
  apply (extract_data_filter _ _ _ _ _ E).
  unfold csv_filter_info.
  destruct (days_back_set days_back); [destruct c|]; reflexivity.
Qed.

End days_back.

(** C10.  With [days_back = 0] no cut-off date is computed, the run is the
    same as with [days_back = None] whatever the site is, no review is
    dropped or stopped at because of its date, and the filter description
    stored with the profile is the one for "no date filter". *)
Theorem C10_zero_days_is_no_filter (fuel : nat) (now : DateTime.datetime)
    (web : Scraper.Web) (url : string) :
  Scraper.cutoff_of now (Some 0) = Exc.Ok None
  /\ Scraper.scrape_and_convert_to_csv fuel now web url (Some 0)
     = Scraper.scrape_and_convert_to_csv fuel now web url None
  /\ (forall review_containers,
        Scraper.check_reviews None review_containers = (review_containers, false))
  /\ (forall html_content, Scraper.final_pass None html_content = html_content)
  /\ (forall data reviews,
        Scraper.scrape_and_convert_to_csv fuel now web url (Some 0)
        = Some (Some (data, reviews)) ->
        data !! "review_date_filter"
        = Some (Converter.VStr "All reviews (no date filter)")).
Proof.
  split; [reflexivity|]. split; [reflexivity|].
  split; [apply check_reviews_no_cutoff|]. split; [reflexivity|].
  intros data reviews H.
  destruct (scrape_result_filter _ _ _ _ _ _ _ H) as (c & Hc & Hd).
  injection Hc as <-. exact Hd.
Qed.

Lemma C10_zero_days_is_no_filter_witness :
  let web := Samples.site Samples.profile_url
               (Samples.page_of
                  (Samples.soup_of [Samples.review_on "May 1, 2001" "Old but kept"])) in
  exists data reviews,
    Scraper.scrape_and_convert_to_csv 2 Samples.now web Samples.profile_url (Some 0)
    = Some (Some (data, reviews))
    /\ data !! "review_date_filter"
       = Some (Converter.VStr "All reviews (no date filter)").
Proof.
  intros web.
  destruct (returned_inv
              (Scraper.scrape_and_convert_to_csv 2 Samples.now web
                 Samples.profile_url (Some 0))) as [[data reviews] H];
    [vm_compute; reflexivity|].
  exists data, reviews. split; [exact H|].
  destruct (C10_zero_days_is_no_filter 2 Samples.now web Samples.profile_url)
    as (_ & _ & _ & _ & Hd).
  exact (Hd data reviews H).
Defined.

(** ** Discovery of the review pages *)

Section discovery.

Import Scraper.

Lemma method1_union (base_url : string) (links : list Link) (acc : gset (Z * string)) :
  method1 base_url links acc = method1 base_url links ∅ ∪ acc.
Proof.
  unfold method1. revert acc.
  induction links as [|l ls IH]; intros acc; simpl.
  - symmetry. apply (left_id_L ∅ (∪)).
  - rewrite IH. rewrite (IH (match href l with Some _ => _ | None => _ end)).
    rewrite <- (assoc_L (∪)). f_equal.
    repeat case_match;
      first [ symmetry; apply (left_id_L ∅ (∪))
            | rewrite <- (assoc_L (∪)), (left_id_L ∅ (∪)); reflexivity ].
Qed.

Lemma method2_union (base_url : string) (elems : list Link) (acc : gset (Z * string)) :
  method2 base_url elems acc = method2 base_url elems ∅ ∪ acc.
Proof.
  unfold method2. revert acc.
  induction elems as [|l ls IH]; intros acc; simpl.
  - symmetry. apply (left_id_L ∅ (∪)).
  - rewrite IH. rewrite (IH (match href l with Some _ => _ | None => _ end)).
    rewrite <- (assoc_L (∪)). f_equal.
    repeat case_match;
      first [ symmetry; apply (left_id_L ∅ (∪))
            | rewrite <- (assoc_L (∪)), (left_id_L ∅ (∪)); reflexivity ].
Qed.

Lemma add_pages_union (base_url : string) (pages : list Z) (acc : gset (Z * string)) :
  fold_left (fun urls page_num => {[ (page_num, page_url base_url page_num) ]} ∪ urls)
    pages acc
  = fold_left (fun urls page_num => {[ (page_num, page_url base_url page_num) ]} ∪ urls)
      pages ∅ ∪ acc.
Proof.
  revert acc. induction pages as [|p ps IH]; intros acc; simpl.
  - symmetry. apply (left_id_L ∅ (∪)).
  - rewrite IH. rewrite (IH (_ ∪ ∅)).
    rewrite <- !(assoc_L (∪)), (left_id_L ∅ (∪)). reflexivity.
Qed.

Lemma method3_union (base_url : string) (elems : list Link) (acc : gset (Z * string)) :
  method3 base_url elems acc = method3 base_url elems ∅ ∪ acc.
Proof.
  induction elems as [|l ls IH]; simpl.
  - symmetry. apply (left_id_L ∅ (∪)).
  - destruct (search_page_of (text l)); [apply add_pages_union|exact IH].
Qed.

#[local] Instance by_page_num_total : Total by_page_num.
Proof. intros x y. unfold by_page_num. lia. Qed.

#[local] Instance by_page_num_trans : Transitive by_page_num.
Proof. intros x y z. unfold by_page_num. lia. Qed.

Lemma discover_In (base_url : string) (page : Page) (pu : Z * string) :
  In pu (discover base_url page) <-> pu ∈ found_pages base_url page /\ 1 < fst pu.
Proof.
  unfold discover.
  rewrite <- list_elem_of_In, merge_sort_Permutation, list_elem_of_In.
  rewrite filter_In, <- list_elem_of_In, elem_of_elements, Z.ltb_lt. reflexivity.
Qed.

Lemma discover_NoDup (base_url : string) (page : Page) : NoDup (discover base_url page).
Proof.
  unfold discover.
  eapply Permutation_NoDup; [symmetry; apply merge_sort_Permutation|].
  apply List.NoDup_filter, NoDup_ListNoDup, NoDup_elements.
Qed.

Lemma discover_Sorted (base_url : string) (page : Page) :
  StronglySorted by_page_num (discover base_url page).
Proof. apply StronglySorted_merge_sort; apply _. Qed.

End discovery.

(** C8 (amended).  The discovery phase produces the union of what its three
    strategies find, as pairs of a page number and an address, restricted to
    page numbers greater than 1; each pair appears once, and the pairs are
    listed in non-decreasing order of page number.  (One page number can
    appear several times, with different addresses.) *)
Theorem C8_discovery (base_url : string) (page : Scraper.Page) :
  Scraper.found_pages base_url page
  = Scraper.method1 base_url (Scraper.pagination_links page) ∅
    ∪ Scraper.method2 base_url (Scraper.pagination_elements page) ∅
    ∪ Scraper.method3 base_url (Scraper.pagination_text page) ∅
  /\ (forall pu, In pu (Scraper.discover base_url page)
                 <-> pu ∈ Scraper.found_pages base_url page /\ 1 < fst pu)
  /\ NoDup (Scraper.discover base_url page)
  /\ StronglySorted (fun x y => fst x <= fst y) (Scraper.discover base_url page).
Proof.
  split.
  { unfold Scraper.found_pages.
    rewrite method3_union, method2_union.
    rewrite (comm_L (∪) (Scraper.method3 _ _ _)), (comm_L (∪) (Scraper.method2 _ _ _)).
    reflexivity. }
  split; [apply discover_In|]. split; [apply discover_NoDup|].
  apply discover_Sorted.
Qed.

Example discovery_ex :
  Scraper.discover Samples.base_url Samples.paginated_page
  = [ (2, Samples.base_url ++ "?page=2"); (3, Samples.base_url ++ "?page=3") ].
Proof. vm_compute. reflexivity. Qed.

(** C8 as stated fails: two links to page 2 with different addresses give
    page number 2 twice. *)
Lemma C8_counterexample :
  map fst (Scraper.discover Samples.base_url Samples.two_links_page) = [2; 2]
  /\ ~ NoDup (map fst (Scraper.discover Samples.base_url Samples.two_links_page)).
Proof.
  assert (map fst (Scraper.discover Samples.base_url Samples.two_links_page) = [2; 2])
    as E by (vm_compute; reflexivity).
  split; [exact E|]. rewrite E. intros H. inversion H as [|x l Hx _]; subst.
  apply Hx. left. reflexivity.
Qed.

(** ** Fetch errors during the walk *)

Section fetch_errors.

Import Converter Scraper.

Variable cutoff_date : option DateTime.datetime.
Variable web : Web.

Lemma load_pages_fetch_error (page_num : Z) (url : string)
    (rest : list (Z * string)) (w : walk) :
  web url = None -> load_pages cutoff_date web ((page_num, url) :: rest) w = w.
Proof.
  intros H. cbn [load_pages]. rewrite H.
  destruct (_ && should_stop_main w); reflexivity.
Qed.

Lemma load_pages_keeps (urls : list (Z * string)) (w : walk) :
  exists extra,
    all_reviews_html (load_pages cutoff_date web urls w)
    = (all_reviews_html w ++ extra)%list.
Proof.
  revert w. induction urls as [|[p u] rest IH]; intros w; cbn [load_pages].
  - exists []. rewrite app_nil_r. reflexivity.
  - destruct (_ && should_stop_main w); [exists []; rewrite app_nil_r; reflexivity|].
    destruct (web u) as [page|]; [|exists []; rewrite app_nil_r; reflexivity].
    destruct (client_reviews (source page)) as [|r rs] eqn:E;
      [exists []; simpl; rewrite app_nil_r; reflexivity|].
    destruct (check_reviews cutoff_date (r :: rs)) as [added should_stop].
    destruct should_stop; [exists added; reflexivity|].
    destruct (IH (mk_walk (all_reviews_html w ++ added) page (should_stop_main w)))
      as [extra Hx].
    exists (added ++ extra)%list. rewrite Hx. simpl. rewrite app_assoc. reflexivity.
Qed.

Lemma try_pages_fetch_error (fuel : nat) (base_url : string) (page_num : Z)
    (consecutive_empty_pages : nat) (w : walk) :
  web (page_url base_url page_num) = None ->
  (consecutive_empty_pages < max_empty_pages)%nat ->
  try_pages (S fuel) cutoff_date web base_url page_num consecutive_empty_pages w
  = if (max_empty_pages <=? S consecutive_empty_pages)%nat then Some w
    else try_pages fuel cutoff_date web base_url (page_num + 1)
           (S consecutive_empty_pages) w.
Proof.
  intros H Hn. cbn [try_pages]. rewrite H.
  destruct (max_empty_pages <=? consecutive_empty_pages)%nat eqn:E;
    [apply Nat.leb_le in E; lia|reflexivity].
Qed.

Lemma try_pages_keeps (fuel : nat) (base_url : string) (page_num : Z)
    (consecutive_empty_pages : nat) (w w' : walk) :
  try_pages fuel cutoff_date web base_url page_num consecutive_empty_pages w = Some w' ->
  exists extra, all_reviews_html w' = (all_reviews_html w ++ extra)%list.
Proof.
  revert page_num consecutive_empty_pages w.
  induction fuel as [|fuel IH]; intros page_num n w; cbn [try_pages].
  - destruct (max_empty_pages <=? n)%nat; [|discriminate].
    intros [= <-]. exists []. rewrite app_nil_r. reflexivity.
  - destruct (max_empty_pages <=? n)%nat;
      [intros [= <-]; exists []; rewrite app_nil_r; reflexivity|].
    destruct (web (page_url base_url page_num)) as [page|].
    + destruct (client_reviews (source page)) as [|r rs] eqn:E.
      * destruct (says_no_reviews (source page));
          [intros [= <-]; exists []; simpl; rewrite app_nil_r; reflexivity|].
        destruct (max_empty_pages <=? S n)%nat;
          [intros [= <-]; exists []; simpl; rewrite app_nil_r; reflexivity|].
        intros H. apply IH in H. exact H.
      * destruct (check_reviews cutoff_date (r :: rs)) as [added should_stop].
        destruct should_stop; [intros [= <-]; exists added; reflexivity|].
        intros H. apply IH in H. destruct H as [extra Hx].
        exists (added ++ extra)%list. rewrite Hx. simpl. rewrite app_assoc.
        reflexivity.
    + destruct (max_empty_pages <=? S n)%nat;
        [intros [= <-]; exists []; rewrite app_nil_r; reflexivity|].
      apply IH.
Qed.

End fetch_errors.

(** C9 (amended).  In the walk over the discovered pages a fetch error
    ends the walk at once, with the reviews gathered so far.  In the
    iterative fall-back a fetch error counts as an empty page: after the
    first one the walk goes on with the next page number, and it ends at the
    second consecutive failed or empty page.  In both walks the reviews
    gathered before remain, followed by what is gathered later, and the
    error is not passed on. *)
Theorem C9_fetch_error (cutoff_date : option DateTime.datetime)
    (web : Scraper.Web) (base_url : string) :
  (forall page_num url rest w,
      web url = None ->
      Scraper.load_pages cutoff_date web ((page_num, url) :: rest) w = w)
  /\ (forall urls w, exists extra,
        Scraper.all_reviews_html (Scraper.load_pages cutoff_date web urls w)
        = (Scraper.all_reviews_html w ++ extra)%list)
  /\ (forall fuel page_num w,
        web (Scraper.page_url base_url page_num) = None ->
        Scraper.try_pages (S fuel) cutoff_date web base_url page_num 0 w
        = Scraper.try_pages fuel cutoff_date web base_url (page_num + 1) 1 w)
  /\ (forall fuel page_num w,
        web (Scraper.page_url base_url page_num) = None ->
        Scraper.try_pages (S fuel) cutoff_date web base_url page_num 1 w = Some w)
  /\ (forall fuel page_num n w w',
        Scraper.try_pages fuel cutoff_date web base_url page_num n w = Some w' ->
        exists extra,
          Scraper.all_reviews_html w' = (Scraper.all_reviews_html w ++ extra)%list).
Proof.
  split; [intros; apply load_pages_fetch_error; assumption|].
  split; [apply load_pages_keeps|].
  split.
  { intros fuel page_num w H.
    rewrite try_pages_fetch_error by (assumption || (unfold Scraper.max_empty_pages; lia)).
    reflexivity. }
  split.
  { intros fuel page_num w H.
    rewrite try_pages_fetch_error by (assumption || (unfold Scraper.max_empty_pages; lia)).
    reflexivity. }
  intros fuel page_num n w w'. apply try_pages_keeps.
Qed.

Lemma C9_fetch_error_witness :
  let w0 := Scraper.mk_walk [] (Samples.page_of (Samples.soup_of [Samples.first_review]))
              false in
  Scraper.load_pages None Samples.gap_site [(2, Samples.base_url ++ "?page=2")] w0 = w0
  /\ Scraper.try_pages 4 None Samples.gap_site Samples.base_url 2 0 w0
     = Scraper.try_pages 3 None Samples.gap_site Samples.base_url 3 1 w0
  /\ Scraper.try_pages 1 None Samples.gap_site Samples.base_url 5 1 w0 = Some w0.
Proof.
  intros w0.
  destruct (C9_fetch_error None Samples.gap_site Samples.base_url)
    as (H1 & _ & H3 & H4 & _).
  split; [apply H1; reflexivity|].
  split; [apply (H3 3%nat 2 w0); reflexivity|].
  apply (H4 0%nat 5 w0); reflexivity.
Defined.

(** C9 as stated fails in the iterative fall-back: page 2 cannot be
    loaded, yet the walk goes on and gathers the review of page 3. *)
Lemma C9_counterexample :
  Samples.gap_site (Scraper.page_url Samples.base_url 2) = None
  /\ Scraper.discover Samples.base_url
       (Samples.page_of (Samples.soup_of [Samples.first_review])) = []
  /\ option_map Scraper.all_reviews_html
       (Scraper.try_pages 4 None Samples.gap_site Samples.base_url 2 0
          (Scraper.mk_walk []
             (Samples.page_of (Samples.soup_of [Samples.first_review])) false))
     = Some [Samples.third_review]
  /\ Samples.titles
       (Scraper.final_html 4 None Samples.gap_site Samples.base_url
          (Samples.page_of (Samples.soup_of [Samples.first_review])))
     = Some [Some "first"; Some "third"].
Proof. vm_compute. repeat split; reflexivity. Qed.

(** ** The cut-off rule *)

Section cutoff.

Import Converter Scraper.

Variable c : DateTime.datetime.




Lemma remove_first_old_kept (l : list ReviewContainer) :
  Forall (kept c) l -> remove_first_old c l = None.
Proof.
  induction 1 as [|r l Hr Hl IH]; simpl; [reflexivity|].
  rewrite Hr, IH. reflexivity.
Qed.



Variable web : Web.



End cutoff.

Section final_html.

Import Converter Scraper.

Variable c : DateTime.datetime.
Variable web : Web.

Lemma filter_main_kept (soup : Soup) :
  Forall (Scraper.kept c) (client_reviews soup) -> filter_main (Some c) soup = (soup, false).
Proof. intros H. unfold filter_main. rewrite (remove_first_old_kept c _ H). reflexivity. Qed.




End final_html.




(** The two scenarios of the specification: a cut-off of 365 days on a main
    page with reviews 10, 20 and 400 days old gives 2 rows and no further
    page is asked for; without cut-off, two further pages of 5 reviews give
    13 rows. *)
Example scenario_cutoff :
  Samples.returned_titles
    (Scraper.scrape_and_convert_to_csv 0 Samples.now
       (Samples.site Samples.base_url Samples.scenario_main) Samples.base_url
       (Some 365))
  = Some (Some [Converter.VStr "ten days"; Converter.VStr "twenty days"])
  /\ Samples.row_count
       (Scraper.scrape_and_convert_to_csv 0 Samples.now
          (Samples.site Samples.base_url Samples.scenario_main) Samples.base_url
          (Some 365))
     = Some (Some 2%nat).
Proof. vm_compute. split; reflexivity. Qed.

Example scenario_no_cutoff :
  Samples.row_count
    (Scraper.scrape_and_convert_to_csv 0 Samples.now Samples.scenario_site
       Samples.base_url None)
  = Some (Some 13%nat).
Proof. vm_compute. reflexivity. Qed.

(** When a walk ends without having gathered a review, [html_content] is
    read again from the browser, which by then shows the last page loaded:
    here the first review of page 2 is too old, and the result is what the
    final pass leaves of page 2, without the review of the main page. *)
Remark page_source_after_walk :
  let old_first :=
    Samples.page_of
      (Samples.soup_of [ Samples.review_on "March 1, 2019" "old";
                         Samples.review_on "February 1, 2026" "late" ]) in
  Samples.titles
    (Scraper.final_html 1 (Some Samples.cutoff)
       (Samples.site_of
          [ (Samples.base_url, Samples.linked_main);
            (Samples.base_url ++ "?page=2", old_first) ])
       Samples.base_url Samples.linked_main)
  = Some [Some "late"].
Proof. vm_compute. reflexivity. Qed.

(** ** The date normaliser *)

Section dates.

Import DateTime Scraper.

Ltac digit_cases k :=
  let H := fresh in
  assert (k = 0 \/ k = 1 \/ k = 2 \/ k = 3 \/ k = 4 \/ k = 5 \/ k = 6 \/ k = 7
          \/ k = 8 \/ k = 9) as H by lia;
  repeat (destruct H as [->|H]); [..|subst k].

Lemma digit_char_facts (k : Z) :
  0 <= k < 10 ->
  Py.is_digit (Py.digit_char k) = true
  /\ Py.is_space (Py.digit_char k) = false
  /\ Py.digit_val (Py.digit_char k) = k.
Proof. intros Hk. digit_cases k; repeat split; reflexivity. Qed.

(** A date that [strptime] returns exists and has no time of day. *)
Lemma strptime_valid (s : string) (fmt : list item) (d : datetime) :
  strptime s fmt = Some d ->
  valid_date (year d) (month d) (day d) = true
  /\ d = mk_datetime (year d) (month d) (day d) 0 0 0 0.
Proof.
  unfold strptime.
  destruct (re_match fmt s no_fields) as [[f [|? ?]]|]; try discriminate.
  destruct (valid_date _ _ _) eqn:E; [|discriminate].
  intros [= <-]. split; [exact E|reflexivity].
Qed.

Lemma first_format_valid (s : string) (fmts : list (list item)) (d : datetime) :
  first_format s fmts = Some d ->
  valid_date (year d) (month d) (day d) = true
  /\ d = mk_datetime (year d) (month d) (day d) 0 0 0 0.
Proof.
  induction fmts as [|fmt fmts IH]; simpl; [discriminate|].
  destruct (strptime s fmt) as [d'|] eqn:E; [|exact IH].
  intros [= <-]. exact (strptime_valid _ _ _ E).
Qed.

Lemma parse_review_date_valid (x : option string) (d : datetime) :
  parse_review_date x = Some d ->
  valid_date (year d) (month d) (day d) = true
  /\ d = mk_datetime (year d) (month d) (day d) 0 0 0 0.
Proof.
  unfold parse_review_date. destruct x as [s|]; [|discriminate].
  destruct (negb (Py.truthy s)); [discriminate|]. apply first_format_valid.
Qed.

(** An item without alternative makes the match fail. *)
Lemma re_match_no_alternative (it : item) (fmt : list item) (s : string) (f : fields) :
  alternatives it s = [] -> re_match (it :: fmt) s f = None.
Proof. intros H. cbn [re_match]. rewrite H. reflexivity. Qed.

Lemma re_match_one_alternative (it : item) (fmt : list item) (s r : string)
    (f : fields) (v : Z) :
  alternatives it s = [(v, r)] ->
  re_match (it :: fmt) s f = re_match fmt r (set_field it v f).
Proof.
  intros H. cbn [re_match]. rewrite H.
  destruct (re_match fmt r (set_field it v f)); reflexivity.
Qed.

Lemma strptime_no_alternative (it : item) (fmt : list item) (s : string) :
  alternatives it s = [] -> strptime s (it :: fmt) = None.
Proof. intros H. unfold strptime. rewrite (re_match_no_alternative _ _ _ _ H). reflexivity. Qed.

(** No month name starts with a digit. *)
Lemma month_name_digit (k : Z) (s : string) :
  0 <= k < 10 ->
  alternatives (Dir dB) (String (Py.digit_char k) s) = []
  /\ alternatives (Dir db) (String (Py.digit_char k) s) = [].
Proof. intros Hk. digit_cases k; split; reflexivity. Qed.

(** What stands for the month in ['%m/%d/%Y'] is followed by a slash. *)
Lemma slash_format_digits (a b c : Z) (s : string) :
  0 <= a < 10 -> 0 <= b < 10 -> 0 <= c < 10 ->
  strptime (String (Py.digit_char a) (String (Py.digit_char b)
              (String (Py.digit_char c) s)))
    [Dir dm; Lit "/"; Dir dd; Lit "/"; Dir dY] = None.
Proof.
  intros Ha Hb Hc. digit_cases a; digit_cases b; digit_cases c; reflexivity.
Qed.

Lemma year_digits (a b c e : Z) (s : string) :
  0 <= a < 10 -> 0 <= b < 10 -> 0 <= c < 10 -> 0 <= e < 10 ->
  alternatives (Dir dY)
    (String (Py.digit_char a) (String (Py.digit_char b)
       (String (Py.digit_char c) (String (Py.digit_char e) s))))
  = [(1000 * a + 100 * b + 10 * c + e, s)].
Proof.
  intros Ha Hb Hc He.
  destruct (digit_char_facts a Ha) as (Da & _ & Va).
  destruct (digit_char_facts b Hb) as (Db & _ & Vb).
  destruct (digit_char_facts c Hc) as (Dc & _ & Vc).
  destruct (digit_char_facts e He) as (De & _ & Ve).
  cbn [alternatives year_alts]. rewrite Da, Db, Dc, De. cbn [andb].
  unfold Py.int_of_digits. cbn [Py.int_from]. rewrite Va, Vb, Vc, Ve.
  do 2 f_equal. lia.
Qed.

Ltac range_cases k lo hi :=
  let H := fresh in
  assert (lo <= k <= hi) as H by lia;
  let rec go n :=
    (let E := fresh in
     destruct (Z.eq_dec k n) as [E|E];
     [ subst k
     | tryif (assert (n + 1 > hi) by lia) then exfalso; lia
       else (let n' := eval cbv in (n + 1) in go n') ])
  in go lo.

(** The month and the day of ['%Y-%m-%d'], once the year is read. *)
Lemma month_day_digits (y m d' : Z) :
  1 <= m <= 12 -> 1 <= d' <= 31 ->
  re_match [Lit "-"; Dir dm; Lit "-"; Dir dd]
    ("-" ++ Py.pad2 m ++ "-" ++ Py.pad2 d') (mk_fields y 1 1)
  = Some (mk_fields y m d', EmptyString).
Proof.
  intros Hm Hd.
  range_cases m 1 12; range_cases d' 1 31; reflexivity.
Qed.

Lemma rstrip_no_space (s : string) : Py.no_space s -> Py.rstrip s = s.
Proof.
  induction s as [|c s IH]; simpl; [reflexivity|].
  intros [Hc Hs]. rewrite (IH Hs), Hc. destruct s; reflexivity.
Qed.

Lemma strip_no_space (s : string) : Py.no_space s -> Py.strip s = s.
Proof.
  intros H. unfold Py.strip.
  destruct s as [|c s]; [reflexivity|]. cbn [Py.lstrip].
  destruct H as [Hc Hs]. rewrite Hc. apply rstrip_no_space. split; assumption.
Qed.

Lemma pad2_no_space (n : Z) (s : string) :
  Py.no_space s -> Py.no_space (Py.pad2 n ++ s).
Proof.
  intros H. unfold Py.pad2. cbn [append Py.no_space].
  split; [|split; [|exact H]];
    apply digit_char_facts, Z.mod_pos_bound; lia.
Qed.

Lemma pad2_alone_no_space (n : Z) : Py.no_space (Py.pad2 n).
Proof.
  unfold Py.pad2. cbn [Py.no_space].
  split; [|split; [|exact I]];
    apply digit_char_facts, Z.mod_pos_bound; lia.
Qed.

Lemma days_in_month_le (y m : Z) : days_in_month y m <= 31.
Proof.
  unfold days_in_month.
  destruct (m =? 2); [destruct (is_leap y); lia|].
  destruct (_ || _); lia.
Qed.

(** The ISO form of a date that exists is read back as that date. *)
Lemma parse_iso_date (y m d' : Z) :
  valid_date y m d' = true ->
  parse_review_date (Some (date_isoformat (mk_datetime y m d' 0 0 0 0)))
  = Some (mk_datetime y m d' 0 0 0 0).
Proof.
  intros Hv. pose proof Hv as Hb. unfold valid_date in Hb.
  repeat (apply andb_prop in Hb; destruct Hb as [Hb ?]).
  pose proof (days_in_month_le y m).
  assert (1 <= y <= 9999 /\ 1 <= m <= 12 /\ 1 <= d' <= 31) as (Hy & Hm & Hd) by lia.
  set (a := y / 1000 mod 10). set (b := y / 100 mod 10).
  set (c := y / 10 mod 10). set (e := y mod 10).
  assert (0 <= a < 10) as Ha by (apply Z.mod_pos_bound; lia).
  assert (0 <= b < 10) as Hb' by (apply Z.mod_pos_bound; lia).
  assert (0 <= c < 10) as Hc by (apply Z.mod_pos_bound; lia).
  assert (0 <= e < 10) as He by (apply Z.mod_pos_bound; lia).
  assert (1000 * a + 100 * b + 10 * c + e = y) as Ey
    by (subst a b c e; Z.to_euclidean_division_equations; lia).
  set (tail := "-" ++ Py.pad2 m ++ "-" ++ Py.pad2 d').
  change (date_isoformat (mk_datetime y m d' 0 0 0 0))
    with (String (Py.digit_char a) (String (Py.digit_char b)
            (String (Py.digit_char c) (String (Py.digit_char e) tail)))).
  unfold parse_review_date. cbn [Py.truthy negb].
  rewrite strip_no_space.
  2:{ cbn [Py.no_space].
      repeat (split; [apply digit_char_facts; assumption|]).
      subst tail. cbn [append Py.no_space]. split; [reflexivity|].
      apply pad2_no_space. cbn [append Py.no_space]. split; [reflexivity|].
      apply pad2_alone_no_space. }
  unfold date_formats. cbn [first_format].
  rewrite (strptime_no_alternative _ _ _ (proj1 (month_name_digit a _ Ha))).
  rewrite (strptime_no_alternative _ _ _ (proj2 (month_name_digit a _ Ha))).
  rewrite (slash_format_digits a b c _ Ha Hb' Hc).
  rewrite (strptime_no_alternative _ _ _ (proj1 (month_name_digit a _ Ha))).
  unfold strptime.
  rewrite (re_match_one_alternative _ _ _ _ _ _ (year_digits a b c e tail Ha Hb' Hc He)).
  rewrite Ey. cbn [set_field no_fields f_month f_day].
  subst tail. rewrite (month_day_digits y m d' Hm Hd).
  cbn [f_year f_month f_day]. rewrite Hv. reflexivity.
Qed.

End dates.

(** C3 (amended).  For every text on which the parse succeeds, the result
    has no time of day, its [isoformat()] is the ISO date followed by
    [T00:00:00], and parsing the ISO date (the first ten characters) gives
    the same value again. *)
Theorem C3_date_roundtrip (x : string) (d : DateTime.datetime) :
  Scraper.parse_review_date (Some x) = Some d ->
  DateTime.isoformat d = DateTime.date_isoformat d ++ "T00:00:00"
  /\ Scraper.parse_review_date (Some (DateTime.date_isoformat d)) = Some d.
Proof.
  intros H. destruct (parse_review_date_valid _ _ H) as [Hv Hd].
  rewrite Hd. split; [reflexivity|]. apply parse_iso_date. exact Hv.
Qed.

Lemma C3_date_roundtrip_witness :
  Scraper.parse_review_date (Some "2020-02-29")
  = Some (DateTime.mk_datetime 2020 2 29 0 0 0 0).
Proof.
  exact (proj2 (C3_date_roundtrip "Feb 29, 2020"
                  (DateTime.mk_datetime 2020 2 29 0 0 0 0) eq_refl)).
Defined.

(** C3 as stated fails: the [isoformat()] of a parsed date carries the
    time of day, which no format of the parser accepts. *)
Lemma C3_counterexample :
  Scraper.parse_review_date (Some "2018-02-01")
  = Some (DateTime.mk_datetime 2018 2 1 0 0 0 0)
  /\ DateTime.isoformat (DateTime.mk_datetime 2018 2 1 0 0 0 0)
     = "2018-02-01T00:00:00"
  /\ Scraper.parse_review_date
       (Some (DateTime.isoformat (DateTime.mk_datetime 2018 2 1 0 0 0 0)))
     = None.
Proof. repeat split; reflexivity. Qed.

(** ** Page addresses *)

Section addresses.

Import Scraper.

(** [str] never gives the same text for two numbers. *)
Lemma str_inj (n m : Z) : str n = str m -> n = m.
Proof.
  unfold str. intros H. apply DecimalZ.to_int_inj.
  assert (forall z, Z.to_int z <> Decimal.Pos Decimal.Nil
                    /\ Z.to_int z <> Decimal.Neg Decimal.Nil) as Hnil.
  { intros [|p|p]; simpl; split; try discriminate; intros [= E];
      apply (DecimalPos.Unsigned.to_uint_nonnil p E). }
  pose proof (NilZero.isi (Z.to_int n) (proj1 (Hnil n)) (proj2 (Hnil n))) as Hn.
  pose proof (NilZero.isi (Z.to_int m) (proj1 (Hnil m)) (proj2 (Hnil m))) as Hm.
  rewrite H, Hm in Hn. injection Hn as <-. reflexivity.
Qed.

Lemma page_url_inj (base_url : string) (n m : Z) :
  page_url base_url n = page_url base_url m -> n = m.
Proof.
  unfold page_url. induction base_url as [|c b IH]; cbn [append].
  - intros [= H]. apply str_inj. exact H.
  - intros [= H]. apply IH. exact H.
Qed.

Lemma page_url_not_base (base_url : string) (n : Z) :
  page_url base_url n <> base_url.
Proof.
  unfold page_url. induction base_url as [|c b IH]; cbn [append].
  - discriminate.
  - intros [= H]. apply IH. exact H.
Qed.

(** A site given by a list serves nothing at an address that is not in
    the list. *)
Lemma site_of_none (pages : list (string * Page)) (u : string) :
  Forall (fun entry => fst entry <> u) pages -> Samples.site_of pages u = None.
Proof.
  induction 1 as [|[url page] pages Hne Hrest IH]; [reflexivity|].
  cbn [Samples.site_of]. cbn [fst] in Hne.
  destruct (String.eqb u url) eqn:E; [|exact IH].
  apply String.eqb_eq in E. congruence.
Qed.

End addresses.

(** ** Further properties of the walk over the review pages *)

Section walks.

Import DateTime Converter Scraper Sites.

Variable cutoff_date : option datetime.
Variable web : Web.
Variable base_url : string.

Lemma max_empty_reached (empty : nat) :
  (2 <= empty)%nat -> (max_empty_pages <=? empty)%nat = true.
Proof. intros H. apply Nat.leb_le. unfold max_empty_pages. lia. Qed.

Lemma max_empty_not_reached (empty : nat) :
  (empty < 2)%nat -> (max_empty_pages <=? empty)%nat = false.
Proof. intros H. apply Nat.leb_gt. unfold max_empty_pages. lia. Qed.

(** The fuel the iterative walk needs on a site that ends at [bound]. *)
Lemma try_pages_ends (bound : Z) (fuel : nat) (page_num : Z) (empty : nat)
    (w : walk) :
  ends_at web base_url bound ->
  ((if (page_num <? bound)%Z then Z.to_nat (bound - page_num)%Z + 2 else 2 - empty)
   <= fuel)%nat ->
  exists w', try_pages fuel cutoff_date web base_url page_num empty w = Some w'.
Proof.
  intros Hend. revert page_num empty w.
  induction fuel as [|fuel IH]; intros page_num empty w Hfuel.
  - destruct (page_num <? bound); [lia|].
    cbn [try_pages]. rewrite max_empty_reached by lia. eexists. reflexivity.
  - cbn [try_pages].
    destruct (max_empty_pages <=? empty)%nat eqn:Ee; [eexists; reflexivity|].
    apply Nat.leb_gt in Ee. unfold max_empty_pages in Ee.
    assert (forall empty' w',
               ((page_num <? bound) = false -> empty' = S empty) ->
               exists w'', (if (max_empty_pages <=? empty')%nat then Some w'
                            else try_pages fuel cutoff_date web base_url
                                   (page_num + 1) empty' w') = Some w'') as Hnext.
    { intros empty' w' He.
      destruct (max_empty_pages <=? empty')%nat eqn:Ee'; [eexists; reflexivity|].
      apply IH.
      destruct (page_num <? bound) eqn:Ep.
      - apply Z.ltb_lt in Ep.
        destruct (page_num + 1 <? bound) eqn:Ep'; lia.
      - rewrite (He eq_refl). apply Z.ltb_ge in Ep.
        destruct (page_num + 1 <? bound) eqn:Ep'; [apply Z.ltb_lt in Ep'; lia|lia]. }
    pose proof (Hend page_num) as Hpage. unfold no_reviews_at in Hpage.
    destruct (web (page_url base_url page_num)) as [page|].
    + destruct (client_reviews (source page)) as [|r rs] eqn:Er.
      * destruct (says_no_reviews (source page)); [eexists; reflexivity|].
        apply (Hnext (S empty)). reflexivity.
      * destruct (check_reviews cutoff_date (r :: rs)) as [added should_stop].
        destruct should_stop; [eexists; reflexivity|].
        destruct (page_num <? bound) eqn:Ep.
        -- pose proof (Hnext
                         (if (0 <? length added)%nat && negb false then O else empty)
                         (mk_walk (all_reviews_html w ++ added) page
                            (should_stop_main w))) as Hn.
           destruct (max_empty_pages <=? _)%nat eqn:Ee' in Hn.
           ++ apply Nat.leb_le in Ee'. unfold max_empty_pages in Ee'.
              destruct ((0 <? length added)%nat && negb false); lia.
           ++ apply Hn. discriminate.
        -- apply Z.ltb_ge in Ep. discriminate (Hpage Ep).
    + apply (Hnext (S empty)). reflexivity.
Qed.

(** On a site that serves reviews for every page number, none of them too
    old, the iterative walk goes on whatever the fuel. *)
Lemma try_pages_endless (fuel : nat) (page_num : Z) (empty : nat) (w : walk) :
  endless cutoff_date web base_url -> 2 <= page_num -> (empty < 2)%nat ->
  try_pages fuel cutoff_date web base_url page_num empty w = None.
Proof.
  intros Hend. revert page_num empty w.
  induction fuel as [|fuel IH]; intros page_num empty w Hp He;
    cbn [try_pages]; rewrite max_empty_not_reached by exact He; [reflexivity|].
  destruct (Hend page_num Hp) as (page & Hweb & Hne & Hrecent).
  rewrite Hweb. unfold has_reviews in Hne. unfold all_recent in Hrecent.
  destruct (client_reviews (source page)) as [|r rs] eqn:Er; [contradiction|].
  assert (check_reviews cutoff_date (r :: rs) = (r :: rs, false)) as ->.
  { clear -Hrecent. induction Hrecent as [|x l Hx Hl IHl]; [reflexivity|].
    cbn [check_reviews]. rewrite Hx, IHl. reflexivity. }
  apply IH; [lia|]. cbn. lia.
Qed.


Lemma filter_main_recent (main : Page) :
  all_recent cutoff_date main ->
  filter_main cutoff_date (source main) = (source main, false).
Proof.
  unfold all_recent. intros H. destruct cutoff_date as [c|]; [|reflexivity].
  apply filter_main_kept. exact H.
Qed.







End walks.

Section walk_results.

Import DateTime Exc Converter Scraper Sites.

Variable web : Web.

Lemma walk_pages_returns (fuel : nat) (cutoff_date : option datetime)
    (base_url : string) (urls : list (Z * string)) (stop_main : bool)
    (main : Page) (bound : Z) :
  ends_at web base_url bound -> (Z.to_nat (bound - 2) + 2 <= fuel)%nat ->
  exists w, walk_pages fuel cutoff_date web base_url urls stop_main main = Some w.
Proof.
  intros Hend Hfuel. unfold walk_pages.
  destruct (if _ && stop_main then [] else urls) as [|pu urls'];
    [|eexists; reflexivity].
  destruct (negb _); [|eexists; reflexivity].
  apply (try_pages_ends cutoff_date web base_url bound); [exact Hend|].
  destruct (2 <? bound) eqn:E; lia.
Qed.



End walk_results.

(** X1.  When the pages [base_url?page=n] give nothing from some page
    number [bound] on (they do not load or hold no review), a call of
    [scrape_and_convert_to_csv] comes to an end: [bound] page loads of the
    iterative walk suffice, whatever the cut-off and whatever the main page
    links to. *)
Theorem X1_scrape_returns_on_finite_site (fuel : nat) (now : DateTime.datetime)
    (web : Scraper.Web) (url : string) (days_back : option Z) (bound : Z) :
  Sites.ends_at web (hd EmptyString (Py.split "?" url)) bound ->
  (Z.to_nat (bound - 2) + 2 <= fuel)%nat ->
  exists r, Scraper.scrape_and_convert_to_csv fuel now web url days_back = Some r.
Proof.
  intros Hend Hfuel. unfold Scraper.scrape_and_convert_to_csv.
  destruct (Scraper.cutoff_of now days_back) as [c|e]; [|eexists; reflexivity].
  destruct (web url) as [main|]; [|eexists; reflexivity].
  assert (exists h, Scraper.final_html fuel c web url main = Some h) as [h ->].
  { unfold Scraper.final_html.
    destruct (Scraper.filter_main c (Scraper.source main)) as [main_soup stop_main].
    destruct (walk_pages_returns web fuel c (hd EmptyString (Py.split "?" url))
                (Scraper.discover (hd EmptyString (Py.split "?" url)) main)
                stop_main main bound Hend Hfuel) as [w ->].
    eexists. reflexivity. }
  destruct (Converter.extract_profile_data_from_html _ _ _) as [[data reviews]|e];
    [|eexists; reflexivity].
  destruct (negb (Converter.dict_truthy data)); eexists; reflexivity.
Qed.

Lemma X1_scrape_returns_on_finite_site_witness :
  exists r,
    Scraper.scrape_and_convert_to_csv 3 Samples.now Cases.recent_site
      Samples.base_url (Some 365) = Some r.
Proof.
  apply (X1_scrape_returns_on_finite_site 3 Samples.now Cases.recent_site
           Samples.base_url (Some 365) 3).
  - intros n Hn. unfold Sites.no_reviews_at.
    change (hd EmptyString (Py.split "?" Samples.base_url)) with Samples.base_url.
    unfold Cases.recent_site. rewrite site_of_none; [exact I|].
    repeat constructor; cbn [fst].
    + intros E. symmetry in E. exact (page_url_not_base _ _ E).
    + change (Samples.base_url ++ "?page=2")
        with (Scraper.page_url Samples.base_url 2).
      intros E. apply page_url_inj in E. lia.
  - simpl. lia.
Defined.

(** X2.  The iterative walk has no bound on the page number.  When the
    main page shows no pagination and none of its reviews is too old, and
    every address [base_url?page=n] loads a page with reviews none of which
    is too old (a site that ignores the page number does so), a call of
    [scrape_and_convert_to_csv] never returns: the loop is still running
    after any number of page loads. *)
Theorem X2_scrape_endless (now : DateTime.datetime) (web : Scraper.Web)
    (url : string) (days_back : option Z)
    (cutoff_date : option DateTime.datetime) (main : Scraper.Page) :
  Scraper.cutoff_of now days_back = Exc.Ok cutoff_date ->
  web url = Some main ->
  Scraper.discover (hd EmptyString (Py.split "?" url)) main = [] ->
  Sites.all_recent cutoff_date main ->
  Sites.endless cutoff_date web (hd EmptyString (Py.split "?" url)) ->
  forall fuel, Scraper.scrape_and_convert_to_csv fuel now web url days_back = None.
Proof.
  intros Hc Hm Hd Hr Hend fuel. unfold Scraper.scrape_and_convert_to_csv.
  rewrite Hc, Hm. unfold Scraper.final_html.
  rewrite (filter_main_recent _ _ Hr), Hd. unfold Scraper.walk_pages.
  rewrite andb_false_r. cbn [Scraper.should_stop_main negb].
  rewrite (try_pages_endless cutoff_date web _ fuel 2 0 _ Hend); [reflexivity|lia|lia].
Qed.

Lemma X2_scrape_endless_witness :
  Scraper.scrape_and_convert_to_csv 1000 Samples.now
    (Cases.same_page (Samples.page_of (Samples.soup_of [Samples.first_review])))
    Samples.base_url (Some 365) = None.
Proof.
  generalize 1000%nat.
  apply (X2_scrape_endless Samples.now
           (Cases.same_page (Samples.page_of (Samples.soup_of [Samples.first_review])))
           Samples.base_url (Some 365) (Some Samples.cutoff)
           (Samples.page_of (Samples.soup_of [Samples.first_review]))).
  - vm_compute. reflexivity.
  - reflexivity.
  - vm_compute. reflexivity.
  - repeat constructor.
  - intros n Hn. eexists. split; [reflexivity|].
    split; [discriminate|repeat constructor].
Defined.







(** ** The batch loop *)

Section batch.

Import DateTime Converter Scraper Output.

Variable fuel : nat.
Variable now : datetime.
Variable web : Web.
Variable days_back : option Z.

Lemma finished_inv {A} (r : option A) : finished r = true -> exists a, r = Some a.
Proof. destruct r as [a|]; [exists a; reflexivity|discriminate]. Qed.

(** The counters after the loop. *)
Lemma process_urls_counters (urls : list string) (b b' : batch) :
  process_urls fuel now web days_back urls b = Some b' ->
  successful b'
  = (successful b
     + length (List.filter
                 (fun url => returned (scrape_and_convert_to_csv fuel now web url days_back))
                 urls))%nat
  /\ failed b'
     = (failed b
        + length (List.filter
                    (fun url =>
                       negb (returned (scrape_and_convert_to_csv fuel now web url days_back)))
                    urls))%nat.
Proof.
  revert b. induction urls as [|url urls IH]; intros b; cbn [process_urls List.filter].
  - intros [= <-]. cbn [length]. lia.
  - destruct (scrape_and_convert_to_csv fuel now web url days_back)
      as [[[data reviews]|]|]; [| |discriminate];
      intros H; apply IH in H; cbn [successful failed] in H;
      cbn [returned negb length]; lia.
Qed.

(** The loop comes to an end when every call does. *)
Lemma process_urls_finishes (urls : list string) (b : batch) :
  Forall (fun url => exists r, scrape_and_convert_to_csv fuel now web url days_back = Some r)
    urls ->
  exists b', process_urls fuel now web days_back urls b = Some b'.
Proof.
  intros H. revert b. induction H as [|url urls [r Hr] Hrest IH]; intros b;
    cbn [process_urls]; [eexists; reflexivity|].
  rewrite Hr. destruct r as [[data reviews]|]; apply IH.
Qed.

(** The file once a first record has been written. *)
Lemma process_urls_appends (urls : list string) (b b' : batch)
    (lines : list csv_line) :
  output_csv b = Some lines -> is_first_url b = false ->
  process_urls fuel now web days_back urls b = Some b' ->
  output_csv b'
  = Some (lines ++ concat (map (cons Blank) (blocks fuel now web days_back urls)))%list
  /\ is_first_url b' = false.
Proof.
  revert b lines. induction urls as [|url urls IH]; intros b lines Hl Hf;
    cbn [process_urls].
  - intros [= <-]. cbn. rewrite app_nil_r. split; assumption.
  - cbn [blocks]. unfold block_of.
    destruct (scrape_and_convert_to_csv fuel now web url days_back)
      as [[[data reviews]|]|]; [| |discriminate]; intros H.
    + eapply IH in H; [|reflexivity|reflexivity].
      destruct H as [H1 H2]. split; [|exact H2]. rewrite H1.
      unfold save_to_csv_append. rewrite Hl, Hf. cbn [negb].
      cbn [map concat]. rewrite <- app_assoc. reflexivity.
    + eapply IH in H; [|exact Hl|exact Hf]. exact H.
Qed.

(** The file after a loop that starts as the main program starts it. *)
Lemma process_urls_file (urls : list string) (b b' : batch) :
  is_first_url b = true ->
  process_urls fuel now web days_back urls b = Some b' ->
  match blocks fuel now web days_back urls with
  | [] => output_csv b' = output_csv b /\ is_first_url b' = true
  | block :: rest =>
      output_csv b' = Some (Header :: block ++ concat (map (cons Blank) rest))%list
      /\ is_first_url b' = false
  end.
Proof.
  revert b. induction urls as [|url urls IH]; intros b Hf; cbn [process_urls].
  - intros [= <-]. split; [reflexivity|exact Hf].
  - cbn [blocks]. unfold block_of.
    destruct (scrape_and_convert_to_csv fuel now web url days_back)
      as [[[data reviews]|]|]; [| |discriminate]; intros H.
    + eapply process_urls_appends in H; [|reflexivity|reflexivity].
      destruct H as [H1 H2]. split; [|exact H2]. rewrite H1. f_equal.
      unfold save_to_csv_append. rewrite Hf.
      destruct (output_csv b); reflexivity.
    + apply IH in H; [|exact Hf]. exact H.
Qed.

End batch.

(** X6.  The batch loop counts every URL once: a URL is counted as
    successful exactly when its call returns a record, and as failed
    otherwise, so the two counters grow by the number of URLs.  A failed URL
    does not end the batch: when every call comes to an end, so does the
    loop. *)
Theorem X6_batch_counters (fuel : nat) (now : DateTime.datetime)
    (web : Scraper.Web) (days_back : option Z) (urls : list string)
    (b : Scraper.batch) :
  Forall (fun url =>
            exists r, Scraper.scrape_and_convert_to_csv fuel now web url days_back
                      = Some r) urls ->
  exists b',
    Scraper.process_urls fuel now web days_back urls b = Some b'
    /\ Scraper.successful b'
       = (Scraper.successful b
          + length (List.filter
                      (fun url =>
                         Scraper.returned
                           (Scraper.scrape_and_convert_to_csv fuel now web url days_back))
                      urls))%nat
    /\ (Scraper.successful b' + Scraper.failed b'
        = Scraper.successful b + Scraper.failed b + length urls)%nat.
Proof.
  intros H.
  destruct (process_urls_finishes fuel now web days_back urls b H) as [b' Hb].
  exists b'. split; [exact Hb|].
  destruct (process_urls_counters fuel now web days_back urls b b' Hb) as [Hs Hf].
  split; [exact Hs|]. rewrite Hs, Hf.
  pose proof (filter_length
                (fun url =>
                   Scraper.returned
                     (Scraper.scrape_and_convert_to_csv fuel now web url days_back))
                urls) as Hlen.
  lia.
Qed.

Lemma X6_batch_counters_witness :
  exists b',
    Scraper.process_urls 2 Samples.now Output.batch_site None Output.batch_urls
      Samples.new_batch = Some b'
    /\ Scraper.successful b' = 2%nat /\ Scraper.failed b' = 1%nat.
Proof.
  destruct (X6_batch_counters 2 Samples.now Output.batch_site None Output.batch_urls
              Samples.new_batch) as (b' & Hb & Hs & Hsum).
  - repeat constructor; apply finished_inv; vm_compute; reflexivity.
  - exists b'. split; [exact Hb|].
    assert (Scraper.successful b' = 2%nat) as Hs2
        by (rewrite Hs; vm_compute; reflexivity).
    split; [exact Hs2|]. rewrite Hs2 in Hsum. cbn in Hsum. lia.
Defined.

(** X7.  The file a batch leaves, started as the main program starts it
    ([is_first_url] true).  When no URL gives a record the file is left as
    it was.  Otherwise whatever the file held before is replaced: the file
    is the header, the rows of the first URL that gives a record, and then,
    for each later URL that gives a record, one blank line followed by its
    rows; failed URLs leave no trace. *)
Theorem X7_batch_file (fuel : nat) (now : DateTime.datetime) (web : Scraper.Web)
    (days_back : option Z) (urls : list string) (b b' : Scraper.batch) :
  Scraper.is_first_url b = true ->
  Scraper.process_urls fuel now web days_back urls b = Some b' ->
  match Output.blocks fuel now web days_back urls with
  | [] => Scraper.output_csv b' = Scraper.output_csv b
          /\ Scraper.is_first_url b' = true
  | block :: rest =>
      Scraper.output_csv b'
      = Some (Scraper.Header :: block
              ++ concat (map (cons Scraper.Blank) rest))%list
      /\ Scraper.is_first_url b' = false
  end.
Proof. apply process_urls_file. Qed.

Lemma X7_batch_file_witness :
  exists b' block1 block2,
    Scraper.process_urls 2 Samples.now Output.batch_site None Output.batch_urls
      (Scraper.mk_batch (Some [Scraper.Blank; Scraper.Blank]) true 0 0) = Some b'
    /\ Scraper.output_csv b'
       = Some (Scraper.Header :: block1 ++ Scraper.Blank :: block2)%list
    /\ length block1 = 1%nat /\ length block2 = 1%nat.
Proof.
  destruct (finished_inv
              (Scraper.process_urls 2 Samples.now Output.batch_site None
                 Output.batch_urls
                 (Scraper.mk_batch (Some [Scraper.Blank; Scraper.Blank]) true 0 0)))
    as [b' Hb]; [vm_compute; reflexivity|].
  pose proof (X7_batch_file 2 Samples.now Output.batch_site None Output.batch_urls
                (Scraper.mk_batch (Some [Scraper.Blank; Scraper.Blank]) true 0 0)
                b' eq_refl Hb) as H.
  assert (map (@length Scraper.csv_line)
            (Output.blocks 2 Samples.now Output.batch_site None Output.batch_urls)
          = [1; 1]%nat) as Hlen by (vm_compute; reflexivity).
  destruct (Output.blocks 2 Samples.now Output.batch_site None Output.batch_urls)
    as [|block1 [|block2 [|block3 rest]]];
    [discriminate Hlen|discriminate Hlen| |discriminate Hlen].
  injection Hlen as H1 H2. destruct H as [H _].
  exists b', block1, block2. split; [exact Hb|].
  split; [|split; assumption]. rewrite H. cbn [map concat]. rewrite app_nil_r.
  reflexivity.
Defined.

(** ** The page list of the third discovery method *)

Section page_text.

Import Scraper.

Lemma In_range_from_2 (p max_page : Z) :
  In p (range_from_2 max_page) <-> 2 <= p <= max_page.
Proof.
  unfold range_from_2. rewrite in_map_iff. split.
  - intros (i & <- & Hi). apply in_seq in Hi. lia.
  - intros Hp. exists (Z.to_nat (p - 2)). split; [lia|]. apply in_seq. lia.
Qed.

Lemma NoDup_range_from_2 (max_page : Z) : List.NoDup (range_from_2 max_page).
Proof.
  unfold range_from_2. apply Finite.Injective_map_NoDup; [|apply List.seq_NoDup].
  intros i j H. lia.
Qed.

Lemma add_pages_elem (base_url : string) (pages : list Z) (acc : gset (Z * string))
    (pu : Z * string) :
  pu ∈ fold_left
         (fun urls page_num => {[ (page_num, page_url base_url page_num) ]} ∪ urls)
         pages acc
  <-> pu ∈ acc \/ (In (fst pu) pages /\ snd pu = page_url base_url (fst pu)).
Proof.
  revert acc. induction pages as [|p ps IH]; intros acc; cbn [fold_left].
  - cbn [In]. tauto.
  - rewrite IH, elem_of_union, elem_of_singleton. cbn [In]. destruct pu as [q u].
    cbn [fst snd]. split.
    + intros [[[= -> ->]|H]|[H1 H2]]; auto.
    + intros [H|[[<-|H1] H2]]; auto.
      left. left. rewrite H2. reflexivity.
Qed.

(** The first element whose text reads "n of m" decides. *)
Lemma method3_first (base_url : string) (before : list Link) (elem : Link)
    (after : list Link) (max_page : Z) (acc : gset (Z * string)) :
  Forall (fun e => search_page_of (text e) = None) before ->
  search_page_of (text elem) = Some max_page ->
  method3 base_url (before ++ elem :: after) acc
  = fold_left
      (fun urls page_num => {[ (page_num, page_url base_url page_num) ]} ∪ urls)
      (range_from_2 max_page) acc.
Proof.
  intros Hb He. induction Hb as [|e before Hn Hb IH]; cbn [app method3].
  - rewrite He. reflexivity.
  - rewrite Hn. exact IH.
Qed.

Lemma method3_none (base_url : string) (elems : list Link) (acc : gset (Z * string)) :
  Forall (fun e => search_page_of (text e) = None) elems ->
  method3 base_url elems acc = acc.
Proof.
  induction 1 as [|e elems Hn He IH]; cbn [method3]; [reflexivity|].
  rewrite Hn. exact IH.
Qed.

(** Two lists sorted by page number that hold the same pairs, each once,
    are equal when no page number comes with two addresses. *)
Lemma sorted_pages_unique (l1 l2 : list (Z * string)) :
  StronglySorted by_page_num l1 -> StronglySorted by_page_num l2 ->
  List.NoDup l1 -> List.NoDup l2 ->
  (forall x, In x l1 <-> In x l2) ->
  (forall x y, In x l1 -> In y l1 -> fst x = fst y -> x = y) ->
  l1 = l2.
Proof.
  revert l2. induction l1 as [|x1 l1 IH]; intros l2 S1 S2 N1 N2 Hin Hfst.
  - destruct l2 as [|x2 l2]; [reflexivity|].
    destruct (proj2 (Hin x2) (or_introl eq_refl)).
  - destruct l2 as [|x2 l2]; [destruct (proj1 (Hin x1) (or_introl eq_refl))|].
    inversion S1 as [|? ? S1' F1]; subst. inversion S2 as [|? ? S2' F2]; subst.
    inversion N1 as [|? ? Hn1 N1']; subst. inversion N2 as [|? ? Hn2 N2']; subst.
    assert (x1 = x2) as ->.
    { destruct (proj1 (Hin x1) (or_introl eq_refl)) as [E|H1]; [congruence|].
      destruct (proj2 (Hin x2) (or_introl eq_refl)) as [E|H2]; [congruence|].
      rewrite List.Forall_forall in F1, F2.
      pose proof (F1 x2 H2) as L1. pose proof (F2 x1 H1) as L2.
      unfold by_page_num in L1, L2.
      apply Hfst; [left; reflexivity|right; exact H2|lia]. }
    f_equal. apply IH; try assumption.
    + intros x. split; intros Hx.
      * destruct (proj1 (Hin x) (or_intror Hx)) as [E|H]; [|exact H].
        subst x. contradiction.
      * destruct (proj2 (Hin x) (or_intror Hx)) as [E|H]; [|exact H].
        subst x. contradiction.
    + intros x y Hx Hy. apply Hfst; right; assumption.
Qed.

Lemma numbered_pages_sorted (base_url : string) (l : list Z) :
  StronglySorted Z.le l ->
  StronglySorted by_page_num (map (fun p => (p, page_url base_url p)) l).
Proof.
  induction 1 as [|p l Hs IH Hp]; cbn [map]; constructor; [exact IH|].
  rewrite List.Forall_forall in Hp |- *. intros pu Hpu.
  apply in_map_iff in Hpu. destruct Hpu as (q & <- & Hq).
  unfold by_page_num. cbn [fst]. apply Hp. exact Hq.
Qed.

Lemma range_from_2_sorted (max_page : Z) : StronglySorted Z.le (range_from_2 max_page).
Proof.
  unfold range_from_2. generalize (Z.to_nat (max_page - 1)). intros n.
  generalize 0%nat. induction n as [|n IH]; intros start; cbn [seq map];
    constructor; [apply IH|].
  rewrite List.Forall_forall. intros q Hq. apply in_map_iff in Hq.
  destruct Hq as (i & <- & Hi). apply in_seq in Hi. lia.
Qed.

End page_text.

(** X8.  The third discovery method.  The first element whose text reads
    "n of m" (with or without "Page", in any case) gives exactly the pairs
    (p, base_url?page=p) for p from 2 to m; elements after it are not looked
    at, and when no text matches nothing is added.  On a page where the two
    other methods find nothing, the pages visited are therefore 2, 3, ..., m
    in this order, each once; for m below 2 there is none. *)
Theorem X8_page_text_discovery (base_url : string) (page : Scraper.Page)
    (before : list Scraper.Link) (elem : Scraper.Link) (after : list Scraper.Link)
    (max_page : Z) :
  Scraper.pagination_text page = (before ++ elem :: after)%list ->
  Forall (fun e => Scraper.search_page_of (Scraper.text e) = None) before ->
  Scraper.search_page_of (Scraper.text elem) = Some max_page ->
  (forall acc pu,
      pu ∈ Scraper.method3 base_url (Scraper.pagination_text page) acc
      <-> pu ∈ acc
          \/ (2 <= fst pu <= max_page
              /\ snd pu = Scraper.page_url base_url (fst pu)))
  /\ (Scraper.pagination_links page = [] -> Scraper.pagination_elements page = [] ->
      Scraper.discover base_url page
      = map (fun p => (p, Scraper.page_url base_url p))
          (Scraper.range_from_2 max_page)).
Proof.
  intros Ht Hb He.
  assert (forall acc pu,
             pu ∈ Scraper.method3 base_url (Scraper.pagination_text page) acc
             <-> pu ∈ acc
                 \/ (2 <= fst pu <= max_page
                     /\ snd pu = Scraper.page_url base_url (fst pu))) as Hm.
  { intros acc pu. rewrite Ht, (method3_first _ _ _ _ _ _ Hb He), add_pages_elem.
    rewrite In_range_from_2. reflexivity. }
  split; [exact Hm|]. intros Hl Hp.
  apply sorted_pages_unique.
  - apply discover_Sorted.
  - apply numbered_pages_sorted, range_from_2_sorted.
  - apply discover_NoDup.
  - apply Finite.Injective_map_NoDup; [|apply NoDup_range_from_2].
    intros p q [= H _]. exact H.
  - intros pu. rewrite discover_In. unfold Scraper.found_pages.
    rewrite Hm, Hl, Hp. cbn [Scraper.method1 Scraper.method2 fold_left].
    rewrite in_map_iff. split.
    + intros [[H|[H1 H2]] H3]; [apply elem_of_empty in H; contradiction|].
      exists (fst pu). split; [|apply In_range_from_2; exact H1].
      destruct pu as [p u]. cbn [fst snd] in *. rewrite H2. reflexivity.
    + intros (p & <- & H). apply In_range_from_2 in H. cbn [fst snd].
      split; [right; split; [exact H|reflexivity]|lia].
  - intros x y Hx Hy Hxy. apply discover_In in Hx, Hy.
    destruct Hx as [Hx _], Hy as [Hy _]. unfold Scraper.found_pages in Hx, Hy.
    rewrite Hm, Hl, Hp in Hx, Hy. cbn [Scraper.method1 Scraper.method2 fold_left] in Hx, Hy.
    destruct Hx as [Hx|[_ Hx]]; [apply elem_of_empty in Hx; contradiction|].
    destruct Hy as [Hy|[_ Hy]]; [apply elem_of_empty in Hy; contradiction|].
    destruct x as [p u], y as [q v]. cbn [fst snd] in *. congruence.
Qed.

Lemma X8_page_text_discovery_witness :
  Scraper.discover Samples.base_url
    (Scraper.mk_page Samples.blank_soup [] []
       [ Scraper.mk_link None "Reviews"; Scraper.mk_link None "page 1 OF 4";
         Scraper.mk_link None "1 of 9" ])
  = [ (2, Scraper.page_url Samples.base_url 2);
      (3, Scraper.page_url Samples.base_url 3);
      (4, Scraper.page_url Samples.base_url 4) ].
Proof.
  apply (X8_page_text_discovery Samples.base_url
           (Scraper.mk_page Samples.blank_soup [] []
              [ Scraper.mk_link None "Reviews"; Scraper.mk_link None "page 1 OF 4";
                Scraper.mk_link None "1 of 9" ])
           [Scraper.mk_link None "Reviews"] (Scraper.mk_link None "page 1 OF 4")
           [Scraper.mk_link None "1 of 9"] 4).
  - reflexivity.
  - repeat constructor.
  - reflexivity.
  - reflexivity.
  - reflexivity.
Defined.

(** ** Numbers as text *)

Section numbers.

Import Scraper Main.

Ltac ascii_cases c := destruct c as [[] [] [] [] [] [] [] []].

Lemma digit_not_space (c : ascii) : Py.is_digit c = true -> Py.is_space c = false.
Proof. ascii_cases c; try discriminate; reflexivity. Qed.

Lemma digit_not_underscore (c : ascii) : Py.is_digit c = true -> Ascii.eqb c "_" = false.
Proof. ascii_cases c; try discriminate; reflexivity. Qed.

Lemma c_space_is_space (c : ascii) : Py.is_space c = false -> is_c_space c = false.
Proof. ascii_cases c; try discriminate; reflexivity. Qed.

Lemma all_digits_no_space (s : string) : Py.all_digits s = true -> Py.no_space s.
Proof.
  induction s as [|c s IH]; cbn [Py.all_digits Py.no_space]; [trivial|].
  intros H. apply andb_prop in H. destruct H as [Hc Hs].
  split; [apply digit_not_space; exact Hc|apply IH; exact Hs].
Qed.

Lemma skip_space_no_space (s : string) : Py.no_space s -> skip_space s = s.
Proof.
  destruct s as [|c s]; cbn [Py.no_space skip_space]; [reflexivity|].
  intros [Hc _]. rewrite (c_space_is_space _ Hc). reflexivity.
Qed.

Lemma drop_space_no_space (s : string) : Py.no_space s -> drop_space_at_end s = s.
Proof.
  induction s as [|c s IH]; cbn [Py.no_space drop_space_at_end]; [reflexivity|].
  intros [Hc Hs]. rewrite (IH Hs), (c_space_is_space _ Hc).
  destruct s; reflexivity.
Qed.

Lemma int_syntax_digits (s : string) :
  Py.all_digits s = true -> int_syntax true s = true.
Proof.
  induction s as [|c s IH]; cbn [Py.all_digits int_syntax]; [reflexivity|].
  intros H. apply andb_prop in H. destruct H as [Hc Hs]. rewrite Hc. apply IH, Hs.
Qed.

Lemma digits_of_digits (s : string) : Py.all_digits s = true -> digits_of s = s.
Proof.
  induction s as [|c s IH]; cbn [Py.all_digits digits_of]; [reflexivity|].
  intros H. apply andb_prop in H. destruct H as [Hc Hs].
  rewrite (digit_not_underscore _ Hc), (IH Hs). reflexivity.
Qed.

(** [int] on a text made of digits only. *)
Lemma int_unsigned_digits (s : string) :
  Py.isdigit s = true -> (String.length s <= max_str_digits)%nat ->
  int_unsigned s = Exc.Ok (Py.int_of_digits s).
Proof.
  intros Hd Hlen. unfold int_unsigned.
  destruct s as [|c s]; [discriminate|]. cbn [Py.isdigit] in Hd.
  rewrite (digits_of_digits _ Hd).
  apply Nat.leb_le in Hlen. rewrite Hlen, andb_true_r.
  cbn [Py.all_digits] in Hd. apply andb_prop in Hd. destruct Hd as [Hc Hs].
  cbn [int_syntax]. rewrite Hc, (int_syntax_digits _ Hs). reflexivity.
Qed.

(** The decimal digits of a number, as [str] prints them. *)
Lemma all_digits_uint (d : Decimal.uint) :
  Py.all_digits (NilEmpty.string_of_uint d) = true.
Proof. induction d; cbn [NilEmpty.string_of_uint Py.all_digits]; auto. Qed.

Lemma int_from_uint_acc (d : Decimal.uint) (acc : positive) :
  Py.int_from (Z.pos acc) (NilEmpty.string_of_uint d) = Z.pos (Pos.of_uint_acc d acc).
Proof.
  revert acc. induction d; intros acc;
    cbn [NilEmpty.string_of_uint Py.int_from Pos.of_uint_acc]; [reflexivity|..];
    rewrite <- IHd; f_equal;
    match goal with
    | |- context [Py.digit_val ?c] =>
        let v := eval vm_compute in (Py.digit_val c) in
        change (Py.digit_val c) with v
    end; lia.
Qed.

Lemma int_from_uint (d : Decimal.uint) :
  Py.int_from 0 (NilEmpty.string_of_uint d) = Z.of_N (Pos.of_uint d).
Proof.
  induction d; cbn [NilEmpty.string_of_uint Py.int_from Pos.of_uint];
    [reflexivity|exact IHd|..];
    match goal with
    | |- Py.int_from ?a _ = Z.of_N (N.pos (Pos.of_uint_acc _ ?k)) =>
        change a with (Z.pos k); apply int_from_uint_acc
    end.
Qed.

Lemma str_pos (p : positive) :
  str (Z.pos p) = NilEmpty.string_of_uint (Pos.to_uint p).
Proof.
  unfold str. cbn [Z.to_int NilZero.string_of_int NilZero.string_of_uint].
  pose proof (DecimalPos.Unsigned.to_uint_nonnil p) as H.
  destruct (Pos.to_uint p); [contradiction|reflexivity..].
Qed.

Lemma str_neg (p : positive) : str (Z.neg p) = String "-" (str (Z.pos p)).
Proof.
  rewrite str_pos. unfold str.
  cbn [Z.to_int NilZero.string_of_int NilZero.string_of_uint].
  pose proof (DecimalPos.Unsigned.to_uint_nonnil p) as H.
  destruct (Pos.to_uint p); [contradiction|reflexivity..].
Qed.

(** [str] of a natural number is a run of digits that reads as the
    number. *)
Lemma str_digits (n : Z) :
  0 <= n -> Py.isdigit (str n) = true /\ Py.int_of_digits (str n) = n.
Proof.
  intros Hn. destruct n as [|p|p]; [split; reflexivity| |lia].
  rewrite str_pos. split.
  - pose proof (all_digits_uint (Pos.to_uint p)) as H.
    pose proof (DecimalPos.Unsigned.to_uint_nonnil p) as Hnil.
    destruct (Pos.to_uint p); [contradiction|exact H..].
  - unfold Py.int_of_digits. rewrite int_from_uint, DecimalPos.Unsigned.of_to.
    reflexivity.
Qed.

Lemma isdigit_all_digits (s : string) : Py.isdigit s = true -> Py.all_digits s = true.
Proof. destruct s; [discriminate|trivial]. Qed.

Lemma str_no_space (n : Z) : Py.no_space (str n).
Proof.
  destruct n as [|p|p].
  - cbn. auto.
  - apply all_digits_no_space, isdigit_all_digits, str_digits. lia.
  - rewrite str_neg. cbn [Py.no_space]. split; [reflexivity|].
    apply all_digits_no_space, isdigit_all_digits, str_digits. lia.
Qed.

(** [int(str(n))] is [n], within the limit on the number of digits. *)
Lemma int_str (n : Z) :
  (String.length (str (Z.abs n)) <= max_str_digits)%nat -> int (str n) = Exc.Ok n.
Proof.
  intros Hlen. unfold int.
  rewrite (skip_space_no_space _ (str_no_space n)),
          (drop_space_no_space _ (str_no_space n)).
  destruct n as [|p|p].
  - reflexivity.
  - cbn [Z.abs] in Hlen.
    destruct (str_digits (Z.pos p)) as [Hd Hv]; [lia|].
    pose proof (int_unsigned_digits _ Hd Hlen) as Hi. rewrite Hv in Hi.
    destruct (str (Z.pos p)) as [|c r] eqn:E; [discriminate|].
    cbn [Py.isdigit Py.all_digits] in Hd. apply andb_prop in Hd. destruct Hd as [Hc _].
    assert (Ascii.eqb c "-" = false) as -> by (revert Hc; clear; ascii_cases c; try discriminate; reflexivity).
    assert (Ascii.eqb c "+" = false) as -> by (revert Hc; clear; ascii_cases c; try discriminate; reflexivity).
    exact Hi.
  - cbn [Z.abs] in Hlen. rewrite str_neg.
    destruct (str_digits (Z.pos p)) as [Hd Hv]; [lia|].
    rewrite Ascii.eqb_refl, (int_unsigned_digits _ Hd Hlen), Hv. reflexivity.
Qed.

End numbers.

(** ** The URL file *)

Section url_file.

Import Scraper Main.

Ltac ascii_cases c := destruct c as [[] [] [] [] [] [] [] []].

Lemma days_back_line_not_url (line : string) :
  is_days_back_line line = true -> is_url line = false.
Proof.
  destruct line as [|c r]; [discriminate|].
  unfold is_url, Py.startswith. cbn [Py.strip_prefix].
  destruct (Ascii.eqb_spec "h" c) as [<-|_]; [|reflexivity].
  discriminate.
Qed.

Lemma comment_not_url (line : string) (b : bool) :
  negb (Py.truthy line) || (Py.startswith line "#" && b) = true ->
  is_url line = false.
Proof.
  destruct line as [|c r]; [reflexivity|].
  unfold is_url, Py.startswith. cbn [Py.strip_prefix Py.truthy negb orb].
  destruct (Ascii.eqb_spec "h" c) as [<-|_]; [|reflexivity].
  discriminate.
Qed.

(** The URLs gathered by the loop over the lines. *)
Lemma read_lines_urls (lines : list string) (urls : list string) (d : option Z) :
  fst (fold_left read_line lines (urls, d))
  = (urls ++ List.filter is_url (map Py.strip lines))%list.
Proof.
  revert urls d. induction lines as [|l lines IH]; intros urls d;
    cbn [fold_left map List.filter]; [rewrite app_nil_r; reflexivity|].
  unfold read_line at 2.
  destruct (is_days_back_line (Py.strip l)) eqn:E1.
  { rewrite (days_back_line_not_url _ E1). apply IH. }
  destruct (negb (Py.truthy (Py.strip l)) || _) eqn:E2.
  { rewrite (comment_not_url _ _ E2). apply IH. }
  destruct (is_url (Py.strip l)); [|apply IH].
  rewrite IH, <- app_assoc. reflexivity.
Qed.

(** The setting after the last line. *)
Lemma read_lines_last (lines : list string) (raw : string) :
  snd (fold_left read_line (lines ++ [raw])%list ([], None))
  = snd (read_line (fold_left read_line lines ([], None)) raw).
Proof. rewrite fold_left_app. reflexivity. Qed.

Lemma str_not_none (n : Z) : String.eqb (Py.lower (str n)) "none" = false.
Proof.
  destruct n as [|p|p]; [reflexivity| |rewrite str_neg; reflexivity].
  destruct (str_digits (Z.pos p)) as [Hd _]; [lia|].
  destruct (str (Z.pos p)) as [|c r]; [discriminate|].
  cbn [Py.isdigit Py.all_digits] in Hd. apply andb_prop in Hd. destruct Hd as [Hc _].
  cbn [Py.lower String.eqb].
  assert (Ascii.eqb (Py.to_lower c) "n" = false) as ->
      by (revert Hc; clear; ascii_cases c; try discriminate; reflexivity).
  reflexivity.
Qed.

Lemma setting_of_number (n : Z) (d : option Z) :
  (String.length (str (Z.abs n)) <= max_str_digits)%nat ->
  days_back_setting ("DAYS_BACK=" ++ str n) d = Some n.
Proof.
  intros Hlen. unfold days_back_setting.
  change (Py.startswith ("DAYS_BACK=" ++ str n) "#") with false. cbv iota.
  change (Py.contains "=" ("DAYS_BACK=" ++ str n)) with true. cbv iota.
  change (after_equals ("DAYS_BACK=" ++ str n)) with (str n).
  rewrite (strip_no_space _ (str_no_space n)), str_not_none, (int_str n Hlen).
  reflexivity.
Qed.











End url_file.

(** X9.  The URLs that [read_urls_from_file] returns are the lines of the
    file, stripped of surrounding white space, that start with [http://] or
    [https://] (in lower case), in the order of the file and with their
    repetitions.  Blank lines, comments and [DAYS_BACK] lines never add a URL
    and never hide one. *)
Theorem X9_urls_of_file (lines : list string) :
  fst (fst (Main.read_urls_from_file (Some lines)))
  = List.filter Main.is_url (map Py.strip lines).
Proof. cbn [Main.read_urls_from_file fst]. apply read_lines_urls. Qed.

(** X10.  A last line [DAYS_BACK=n], written as [str] prints the integer
    [n] (negative numbers included, at most 4300 digits), sets the filter to
    [n], whatever the lines before it say; so does the commented form
    [# DAYS_BACK=n]. *)
Theorem X10_days_back_of_file (lines : list string) (raw : string) (n : Z) :
  (String.length (Scraper.str (Z.abs n)) <= Main.max_str_digits)%nat ->
  Py.strip raw = "DAYS_BACK=" ++ Scraper.str n
  \/ Py.strip raw = "# DAYS_BACK=" ++ Scraper.str n ->
  snd (fst (Main.read_urls_from_file (Some (lines ++ [raw])%list))) = Some n.
Proof.
  intros Hlen Hraw. cbn [Main.read_urls_from_file fst]. rewrite read_lines_last.
  destruct (fold_left Main.read_line lines ([], None)) as [urls d].
  unfold Main.read_line. destruct Hraw as [-> | ->].
  - change (Main.is_days_back_line ("DAYS_BACK=" ++ Scraper.str n)) with true.
    cbv iota. cbn [snd]. apply setting_of_number. exact Hlen.
  - change (Main.is_days_back_line ("# DAYS_BACK=" ++ Scraper.str n)) with true.
    cbv iota. cbn [snd]. rewrite <- (setting_of_number n d Hlen).
    unfold Main.days_back_setting at 1.
    change (Py.startswith ("# DAYS_BACK=" ++ Scraper.str n) "#") with true.
    cbv iota.
    assert (Py.strip (Main.tail ("# DAYS_BACK=" ++ Scraper.str n))
            = "DAYS_BACK=" ++ Scraper.str n) as ->.
    { unfold Py.strip.
      change (Py.lstrip (Main.tail ("# DAYS_BACK=" ++ Scraper.str n)))
        with ("DAYS_BACK=" ++ Scraper.str n).
      apply rstrip_no_space. cbn [append Py.no_space].
      repeat (split; [reflexivity|]). apply str_no_space. }
    reflexivity.
Qed.

Lemma X10_days_back_of_file_witness :
  snd (fst (Main.read_urls_from_file
              (Some (Files.settings_first ++ [Files.commented_setting])%list)))
  = Some (-7).
Proof.
  apply (X10_days_back_of_file Files.settings_first Files.commented_setting (-7)).
  - vm_compute. lia.
  - right. reflexivity.
Defined.



(** ** Further properties of the extraction *)

Section extraction_more.

Import Exc Converter.

Lemma set_nomenclature_other (nomenclature_id : string) (d : gmap string value)
    (k : string) :
  k <> "nomenclature_id" -> k <> "nomenclature_zip_code" ->
  k <> "nomenclature_state_code" -> k <> "nomenclature_profile_id" ->
  k <> "nomenclature_name" ->
  set_nomenclature nomenclature_id d !! k = d !! k.
Proof.
  intros K1 K2 K3 K4 K5. unfold set_nomenclature.
  destruct (4 <=? length (Py.split "-" nomenclature_id))%nat;
    [|rewrite lookup_insert_ne by congruence; reflexivity].
  destruct (name_parts _); rewrite !lookup_insert_ne by congruence; reflexivity.
Qed.

Lemma parse_nomenclature_other (d : gmap string value) (k : string) :
  k <> "nomenclature_id" -> k <> "nomenclature_zip_code" ->
  k <> "nomenclature_state_code" -> k <> "nomenclature_profile_id" ->
  k <> "nomenclature_name" ->
  parse_nomenclature d !! k = d !! k.
Proof.
  intros K1 K2 K3 K4 K5. unfold parse_nomenclature.
  destruct (get d "profile_url") as [ |url| | | ]; try reflexivity.
  destruct (Py.truthy url); [|reflexivity].
  destruct (search_attorneys url); [|reflexivity].
  apply set_nomenclature_other; assumption.
Qed.

Lemma default_data_total now :
  default_data now !! "total_reviews_extracted" = Some (VInt 0).
Proof. reflexivity. Qed.

End extraction_more.

(** X12.  The field [total_reviews_extracted] of the record that
    [_extract_data_from_soup] returns is the number of reviews it returns
    with it: 0 when there is none, and no other statement changes it. *)
Theorem X12_total_reviews_extracted (now : DateTime.datetime)
    (soup : Converter.Soup) (review_date_filter : option string)
    (data : gmap string Converter.value)
    (reviews : list (gmap string Converter.value)) :
  Converter._extract_data_from_soup now soup review_date_filter
  = Exc.Ok (data, reviews) ->
  data !! "total_reviews_extracted"
  = Some (Converter.VInt (Z.of_nat (length reviews))).
Proof.
  unfold Converter._extract_data_from_soup. intros H.
  destruct (Converter.extract_avvo_rating _ _) as [d|e] eqn:E; cbn [Exc.bind] in H;
    [|discriminate].
  injection H as <- <-.
  assert (d !! "total_reviews_extracted" = Some (Converter.VInt 0)) as Hd.
  { rewrite (extract_avvo_rating_other _ _ _ _ E) by discriminate.
    rewrite parse_nomenclature_other by discriminate.
    rewrite !set_opt_other by discriminate. apply default_data_total. }
  destruct review_date_filter as [f|]; [destruct (Py.truthy f)|];
    rewrite ?lookup_insert_ne by discriminate;
    (destruct (Converter.extract_reviews _) as [|r rs];
     [exact Hd|apply lookup_insert_eq]).
Qed.

Lemma X12_total_reviews_extracted_witness :
  exists data reviews,
    Converter._extract_data_from_soup Samples.now
      (Samples.soup_of [Samples.first_review; Samples.bare_review;
                        Samples.third_review]) None
    = Exc.Ok (data, reviews)
    /\ data !! "total_reviews_extracted" = Some (Converter.VInt 2).
Proof.
  destruct (extract_data_ok Samples.now
              (Samples.soup_of [Samples.first_review; Samples.bare_review;
                                Samples.third_review]) None) as [data E];
    [vm_compute; reflexivity|].
  exists data, (Converter.extract_reviews
                  (Converter.client_reviews
                     (Samples.soup_of [Samples.first_review; Samples.bare_review;
                                       Samples.third_review]))).
  split; [exact E|].
  exact (X12_total_reviews_extracted _ _ _ _ _ E).
Defined.

(** ** The cleaning pass *)

Section spacing.

Import Converter Spacing.







Lemma rstrip_idem (s : string) : Py.rstrip (Py.rstrip s) = Py.rstrip s.
Proof.
  induction s as [|c s IH]; cbn [Py.rstrip]; [reflexivity|].
  destruct (Py.rstrip s) as [|d r] eqn:E.
  - destruct (Py.is_space c) eqn:Ec; [reflexivity|]. cbn [Py.rstrip]. rewrite Ec.
    reflexivity.
  - change (Py.rstrip (String c (String d r)))
      with (match Py.rstrip (String d r) with
            | EmptyString =>
                if Py.is_space c then EmptyString else String c EmptyString
            | r' => String c r'
            end).
    rewrite IH. reflexivity.
Qed.

Lemma lstrip_rstrip_started (s : string) :
  Py.lstrip (Py.rstrip (Py.lstrip s)) = Py.rstrip (Py.lstrip s).
Proof.
  induction s as [|c s IH]; [reflexivity|]. cbn [Py.lstrip].
  destruct (Py.is_space c) eqn:Ec; [exact IH|].
  cbn [Py.rstrip]. destruct (Py.rstrip s); rewrite ?Ec; cbn [Py.lstrip];
    rewrite Ec; reflexivity.
Qed.

(** [strip] leaves a stripped text as it is. *)
Lemma strip_idem (s : string) : Py.strip (Py.strip s) = Py.strip s.
Proof. unfold Py.strip. rewrite lstrip_rstrip_started. apply rstrip_idem. Qed.




End spacing.



(** ** The profile URL and the nomenclature *)

Section profile_url.

Import Exc Converter.

Lemma html_split_slug (t : string) :
  Py.no_char "/" t -> html_split (t ++ ".html") = Some t.
Proof.
  induction t as [|c t IH]; [reflexivity|].
  intros [Hc Ht]. change (String c t ++ ".html") with (String c (t ++ ".html")).
  cbn [html_split].
  destruct (Ascii.eqb_spec c "/") as [->|_]; [contradiction|].
  rewrite (IH Ht). reflexivity.
Qed.

(** The identifier found in the address of a profile. *)
Lemma search_attorneys_avvo (slug : string) :
  slug <> EmptyString -> Py.no_char "/" slug ->
  search_attorneys ("https://www.avvo.com/attorneys/" ++ slug ++ ".html") = Some slug.
Proof.
  destruct slug as [|c t]; [contradiction|]. intros _ [Hc Ht].
  change ("https://www.avvo.com/attorneys/" ++ String c t ++ ".html")
    with ("https://www.avvo.com" ++ "/attorneys/" ++ String c (t ++ ".html")).
  simpl.
  destruct (Ascii.eqb_spec c "/") as [->|_]; [contradiction|].
  rewrite (html_split_slug _ Ht). reflexivity.
Qed.

Lemma append_snoc (cur : string) (c : ascii) (x : string) :
  (cur ++ String c EmptyString) ++ x = cur ++ String c x.
Proof.
  induction cur as [|a cur IH]; [reflexivity|].
  change (String a ((cur ++ String c EmptyString) ++ x) = String a (cur ++ String c x)).
  rewrite IH. reflexivity.
Qed.

Lemma append_empty (s : string) : s ++ EmptyString = s.
Proof.
  induction s as [|a s IH]; [reflexivity|].
  change (String a (s ++ EmptyString) = String a s). rewrite IH. reflexivity.
Qed.

Lemma split_from_token (sep : ascii) (cur x rest : string) :
  Py.no_char sep x ->
  Py.split_from sep cur (x ++ String sep rest)
  = (cur ++ x) :: Py.split_from sep EmptyString rest.
Proof.
  revert cur. induction x as [|a x IH]; intros cur.
  - intros _. change (EmptyString ++ String sep rest) with (String sep rest).
    cbn [Py.split_from]. rewrite Ascii.eqb_refl, append_empty. reflexivity.
  - intros [Ha Hx].
    change (String a x ++ String sep rest) with (String a (x ++ String sep rest)).
    cbn [Py.split_from].
    destruct (Ascii.eqb_spec a sep) as [->|_]; [contradiction|].
    rewrite (IH _ Hx), append_snoc. reflexivity.
Qed.

Lemma split_from_last (sep : ascii) (cur x : string) :
  Py.no_char sep x -> Py.split_from sep cur x = [cur ++ x].
Proof.
  revert cur. induction x as [|a x IH]; intros cur; cbn [Py.split_from].
  - intros _. rewrite append_empty. reflexivity.
  - intros [Ha Hx]. destruct (Ascii.eqb_spec a sep) as [->|_]; [contradiction|].
    rewrite (IH _ Hx), append_snoc. reflexivity.
Qed.

(** Splitting what [join] has put together gives the tokens back. *)
Lemma split_join (sep : ascii) (tokens : list string) :
  tokens <> [] -> Forall (Py.no_char sep) tokens ->
  Py.split sep (Py.join (String sep EmptyString) tokens) = tokens.
Proof.
  intros Hne H. unfold Py.split.
  induction H as [|x l Hx Hl IH]; [contradiction|].
  destruct l as [|y l].
  - cbn [Py.join]. apply split_from_last. exact Hx.
  - change (Py.join (String sep EmptyString) (x :: y :: l))
      with (x ++ String sep (Py.join (String sep EmptyString) (y :: l))).
    rewrite (split_from_token _ _ _ _ Hx), IH by discriminate. reflexivity.
Qed.

Lemma name_parts_tokens (zip st : string) (names : list string) (pid : string) :
  name_parts (zip :: st :: names ++ [pid]) = names.
Proof. unfold name_parts. cbn [skipn]. apply removelast_last. Qed.

End profile_url.

(** X14.  When the canonical link of the document is the address of an
    Avvo profile, [https://www.avvo.com/attorneys/<id>.html] with a
    non-empty [<id>] free of slashes, the record holds that address as
    [profile_url] and [<id>], whole, as [nomenclature_id]. *)
Theorem X14_identifier_of_profile_url (now : DateTime.datetime)
    (soup : Converter.Soup) (review_date_filter : option string)
    (data : gmap string Converter.value)
    (reviews : list (gmap string Converter.value)) (slug : string) :
  slug <> EmptyString -> Py.no_char "/" slug ->
  Converter.link_canonical_href soup
  = Some ("https://www.avvo.com/attorneys/" ++ slug ++ ".html") ->
  Converter._extract_data_from_soup now soup review_date_filter
  = Exc.Ok (data, reviews) ->
  data !! "profile_url"
  = Some (Converter.VStr ("https://www.avvo.com/attorneys/" ++ slug ++ ".html"))
  /\ data !! "nomenclature_id" = Some (Converter.VStr slug).
Proof.
  intros Hne Hid Hurl H.
  rewrite !(extract_data_early_field _ _ _ _ _ _ H) by discriminate.
  rewrite Hurl. unfold Converter.parse_nomenclature, Converter.get.
  cbn [Converter.set_opt]. rewrite lookup_insert_eq. cbn [default]. unfold id.
  change (Py.truthy ("https://www.avvo.com/attorneys/" ++ slug ++ ".html")) with true.
  cbv iota. rewrite (search_attorneys_avvo slug Hne Hid).
  split.
  - rewrite set_nomenclature_other by discriminate. apply lookup_insert_eq.
  - unfold Converter.set_nomenclature.
    destruct (4 <=? length (Py.split "-" slug))%nat; [|apply lookup_insert_eq].
    destruct (Converter.name_parts _); rewrite !lookup_insert_ne by discriminate;
      apply lookup_insert_eq.
Qed.

Lemma X14_identifier_of_profile_url_witness :
  exists data reviews,
    Converter._extract_data_from_soup Samples.now Samples.short_id_soup None
    = Exc.Ok (data, reviews)
    /\ data !! "nomenclature_id" = Some (Converter.VStr "94401-ca-336338").
Proof.
  destruct (extract_data_ok Samples.now Samples.short_id_soup None) as [data E];
    [vm_compute; reflexivity|].
  exists data, (Converter.extract_reviews
                  (Converter.client_reviews Samples.short_id_soup)).
  split; [exact E|].
  apply (X14_identifier_of_profile_url Samples.now Samples.short_id_soup None data
           (Converter.extract_reviews (Converter.client_reviews Samples.short_id_soup))
           "94401-ca-336338");
    [discriminate|cbn; repeat split; discriminate|reflexivity|exact E].
Defined.

(** X15.  The address of a profile is read back into its parts.  When the
    canonical link is [https://www.avvo.com/attorneys/] followed by a postal
    code, a state code, one or more name tokens and a profile id, joined by
    dashes, and [.html], none of them holding a dash or a slash, the record
    holds the postal code, the state code in upper case, the name tokens
    joined by spaces in title case, and the profile id. *)
Theorem X15_profile_url_round_trip (now : DateTime.datetime)
    (soup : Converter.Soup) (review_date_filter : option string)
    (data : gmap string Converter.value)
    (reviews : list (gmap string Converter.value))
    (zip st : string) (names : list string) (pid : string) :
  names <> [] ->
  Forall (Py.no_char "-") (zip :: st :: names ++ [pid]) ->
  Forall (Py.no_char "/") (zip :: st :: names ++ [pid]) ->
  Converter.link_canonical_href soup
  = Some ("https://www.avvo.com/attorneys/"
          ++ Py.join "-" (zip :: st :: names ++ [pid]) ++ ".html") ->
  Converter._extract_data_from_soup now soup review_date_filter
  = Exc.Ok (data, reviews) ->
  data !! "nomenclature_zip_code" = Some (Converter.VStr zip)
  /\ data !! "nomenclature_state_code" = Some (Converter.VStr (Py.upper st))
  /\ data !! "nomenclature_name"
     = Some (Converter.VStr (Py.title (Py.join " " names)))
  /\ data !! "nomenclature_profile_id" = Some (Converter.VStr pid).
Proof.
  intros Hnames Hdash Hslash Hurl H.
  set (slug := Py.join "-" (zip :: st :: names ++ [pid])) in *.
  assert (Py.split "-" slug = zip :: st :: names ++ [pid]) as Hsplit
      by (apply split_join; [discriminate|exact Hdash]).
  assert (Py.no_char "/" slug) as Hs.
  { apply join_no_char; [cbn; split; [discriminate|exact I]|exact Hslash]. }
  assert (slug <> EmptyString) as Hne.
  { unfold slug. cbn [Py.join app]. destruct (names ++ [pid])%list eqn:E.
    - destruct names; discriminate E.
    - destruct zip; discriminate. }
  rewrite !(extract_data_early_field _ _ _ _ _ _ H) by discriminate.
  rewrite Hurl. unfold Converter.parse_nomenclature, Converter.get.
  cbn [Converter.set_opt]. rewrite lookup_insert_eq. cbn [default]. unfold id.
  change (Py.truthy ("https://www.avvo.com/attorneys/" ++ slug ++ ".html")) with true.
  cbv iota. rewrite (search_attorneys_avvo slug Hne Hs).
  pose proof (name_of_parts slug) as Hname. cbv zeta in Hname.
  unfold Converter.set_nomenclature. rewrite Hsplit in *.
  rewrite name_parts_tokens in *.
  assert ((4 <=? length (zip :: st :: names ++ [pid]))%nat = true) as ->.
  { apply Nat.leb_le. cbn [length]. rewrite length_app. cbn [length].
    destruct names; [contradiction|cbn [length]; lia]. }
  assert (last (zip :: st :: names ++ [pid]) EmptyString = pid) as ->
      by (apply (last_last (zip :: st :: names))).
  cbn [nth].
  destruct names as [|n1 names']; [contradiction|]. rewrite Hname.
  repeat split; rewrite ?lookup_insert_ne by discriminate; apply lookup_insert_eq.
Qed.

Lemma X15_profile_url_round_trip_witness :
  exists data reviews,
    Converter._extract_data_from_soup Samples.now (Samples.soup_of []) None
    = Exc.Ok (data, reviews)
    /\ data !! "nomenclature_zip_code" = Some (Converter.VStr "94401")
    /\ data !! "nomenclature_state_code" = Some (Converter.VStr "CA")
    /\ data !! "nomenclature_name" = Some (Converter.VStr "Haitham Ballout")
    /\ data !! "nomenclature_profile_id" = Some (Converter.VStr "336338").
Proof.
  destruct (extract_data_ok Samples.now (Samples.soup_of []) None) as [data E];
    [vm_compute; reflexivity|].
  exists data, (Converter.extract_reviews
                  (Converter.client_reviews (Samples.soup_of []))).
  split; [exact E|].
  apply (X15_profile_url_round_trip Samples.now (Samples.soup_of []) None data
           (Converter.extract_reviews (Converter.client_reviews (Samples.soup_of [])))
           "94401" "ca" ["haitham"; "ballout"] "336338");
    [discriminate
    |repeat constructor; cbn; repeat split; discriminate
    |repeat constructor; cbn; repeat split; discriminate
    |reflexivity|exact E].
Defined.

(** ** The dates of the filter and the dates of the export *)

Section two_parsers.

Import DateTime Converter Scraper Dates.


Lemma first_format_empty (fmts : list (list item)) :
  Forall (fun fmt => fmt <> []) fmts -> first_format EmptyString fmts = None.
Proof.
  induction 1 as [|fmt fmts Hf Hr IH]; [reflexivity|]. cbn [first_format].
  assert (strptime EmptyString fmt = None) as ->; [|exact IH].
  destruct fmt as [|it fmt]; [contradiction|].
  apply strptime_no_alternative. destruct it as [[]| |c]; reflexivity.
Qed.

(** The date of the filter is the date of the stripped text. *)
Lemma parse_review_date_strip (s : string) :
  parse_review_date (Some s) = first_format (Py.strip s) date_formats.
Proof.
  unfold parse_review_date. destruct s as [|c s]; [|reflexivity].
  symmetry. apply first_format_empty. repeat constructor; discriminate.
Qed.




End two_parsers.



Section exported_dates.

Import DateTime Converter Scraper Dates.

(** A date read by the parser, compared with a cut-off on the same day. *)
Lemma same_day_ltb (d c : datetime) :
  valid_time c ->
  d = mk_datetime (year c) (month c) (day c) 0 0 0 0 ->
  ltb d c = negb (at_midnight c).
Proof.
  intros (Hh & Hm & Hs & Hu) ->. unfold ltb, components, at_midnight.
  cbn [year month day hour minute second microsecond lex_ltb].
  rewrite !Z.ltb_irrefl, !Z.eqb_refl. cbn [orb andb].
  destruct (Z.eqb_spec (hour c) 0) as [->|Nh];
    [|replace (0 <? hour c) with true by (symmetry; apply Z.ltb_lt; lia);
      reflexivity].
  cbn [Z.ltb Z.compare Z.eqb orb andb].
  destruct (Z.eqb_spec (minute c) 0) as [->|Nm];
    [|replace (0 <? minute c) with true by (symmetry; apply Z.ltb_lt; lia);
      reflexivity].
  cbn [Z.ltb Z.compare Z.eqb orb andb].
  destruct (Z.eqb_spec (second c) 0) as [->|Ns];
    [|replace (0 <? second c) with true by (symmetry; apply Z.ltb_lt; lia);
      reflexivity].
  cbn [Z.ltb Z.compare Z.eqb orb andb].
  destruct (Z.eqb_spec (microsecond c) 0) as [->|Nu]; [reflexivity|].
  replace (0 <? microsecond c) with true by (symmetry; apply Z.ltb_lt; lia).
  reflexivity.
Qed.

(** The cut-off has the time of day of the clock. *)
Lemma sub_days_time (now c : datetime) (n : Z) :
  sub_days now n = Some c ->
  hour c = hour now /\ minute c = minute now /\ second c = second now
  /\ microsecond c = microsecond now.
Proof.
  unfold sub_days. destruct (Z.abs n <=? 999999999); [|discriminate].
  destruct (_ && _); [|discriminate].
  destruct (ord2ymd _) as [[y m] d']. intros [= <-]. repeat split.
Qed.

End exported_dates.



(** X18.  The day of the cut-off itself is filtered out.  The cut-off
    keeps the time of day at which the program runs, while a parsed review
    date is at midnight; so a review dated on the very day of the cut-off
    ([days_back] days before today) counts as too old, except when the
    program runs at midnight sharp. *)
Theorem X18_cutoff_day_is_too_old (now : DateTime.datetime) (n : Z)
    (c : DateTime.datetime) (container : Converter.ReviewContainer)
    (d : DateTime.datetime) :
  Dates.valid_time now ->
  Scraper.cutoff_of now (Some n) = Exc.Ok (Some c) ->
  Scraper.extract_review_date_from_html container = Some d ->
  DateTime.year d = DateTime.year c -> DateTime.month d = DateTime.month c ->
  DateTime.day d = DateTime.day c ->
  Scraper.too_old c container = negb (Dates.at_midnight now).
Proof.
  intros Hnow Hc Hd Ey Em Ed.
  assert (DateTime.sub_days now n = Some c) as Hsub.
  { unfold Scraper.cutoff_of, Scraper.days_back_set in Hc.
    destruct (n =? 0); [discriminate|].
    destruct (DateTime.sub_days now n) as [c'|]; [|discriminate].
    injection Hc as <-. reflexivity. }
  destruct (sub_days_time now c n Hsub) as (Hh & Hm & Hs & Hu).
  assert (d = DateTime.mk_datetime (DateTime.year c) (DateTime.month c)
                (DateTime.day c) 0 0 0 0) as Hdc.
  { unfold Scraper.extract_review_date_from_html in Hd.
    destruct (Converter.posted_date container) as [date_str|]; [|discriminate].
    destruct (parse_review_date_valid _ _ Hd) as [_ Hmid].
    rewrite Hmid, Ey, Em, Ed. reflexivity. }
  unfold Scraper.too_old. rewrite Hd.
  rewrite (same_day_ltb d c); [|unfold Dates.valid_time in *; rewrite Hh, Hm, Hs, Hu;
                                exact Hnow|exact Hdc].
  unfold Dates.at_midnight. rewrite Hh, Hm, Hs, Hu. reflexivity.
Qed.

Lemma X18_cutoff_day_is_too_old_witness :
  Scraper.too_old Samples.cutoff (Samples.review_on "November 4, 2025" "edge")
  = true.
Proof.
  apply (X18_cutoff_day_is_too_old Samples.now 365 Samples.cutoff
           (Samples.review_on "November 4, 2025" "edge")
           (DateTime.mk_datetime 2025 11 4 0 0 0 0)).
  - unfold Dates.valid_time. cbn. lia.
  - vm_compute. reflexivity.
  - vm_compute. reflexivity.
  - reflexivity.
  - reflexivity.
  - reflexivity.
Defined.

(** ** The address *)

Section address.

Import Exc Converter Profile.

Ltac ascii_cases c := destruct c as [[] [] [] [] [] [] [] []].

Lemma take_digits_all (z r : string) :
  Py.all_digits z = true ->
  take_digits (String.length z) (z ++ r) = Some (z, r).
Proof.
  induction z as [|c z IH]; [reflexivity|].
  cbn [Py.all_digits String.length]. intros H. apply andb_prop in H.
  destruct H as [Hc Hz].
  change (String c z ++ r) with (String c (z ++ r)). cbn [take_digits].
  rewrite Hc, (IH Hz). reflexivity.
Qed.

Lemma lstrip_blank_app (ws s : string) :
  Py.lstrip ws = EmptyString -> Py.lstrip (ws ++ s) = Py.lstrip s.
Proof.
  induction ws as [|c ws IH]; [reflexivity|]. cbn [Py.lstrip].
  change (String c ws ++ s) with (String c (ws ++ s)). cbn [Py.lstrip].
  destruct (Py.is_space c); [exact IH|discriminate].
Qed.

Lemma digit_not_comma (c : ascii) : Py.is_digit c = true -> Ascii.eqb c "," = false.
Proof. ascii_cases c; try discriminate; reflexivity. Qed.

(** The postal code, with or without its four further digits. *)
Lemma match_zip_code (zip plus4 : string) :
  Py.all_digits zip = true -> String.length zip = 5%nat ->
  plus4 = EmptyString
  \/ (exists d, plus4 = String "-" d /\ Py.all_digits d = true
                /\ String.length d = 4%nat) ->
  match_zip (zip ++ plus4) = Some (zip ++ plus4).
Proof.
  intros Hz Hlen Hp. unfold match_zip. rewrite <- Hlen at 1.
  rewrite (take_digits_all _ _ Hz).
  destruct Hp as [->|(d & -> & Hd & Hl)].
  - rewrite append_empty. reflexivity.
  - rewrite Ascii.eqb_refl. rewrite <- Hl.
    rewrite <- (append_empty d) at 2. rewrite (take_digits_all _ _ Hd).
    reflexivity.
Qed.

Lemma match_state_zip_code (a b : ascii) (ws zip plus4 : string) :
  Py.is_upper a = true -> Py.is_upper b = true ->
  Py.lstrip ws = EmptyString ->
  Py.all_digits zip = true -> String.length zip = 5%nat ->
  plus4 = EmptyString
  \/ (exists d, plus4 = String "-" d /\ Py.all_digits d = true
                /\ String.length d = 4%nat) ->
  match_state_zip (String a (String b (ws ++ zip ++ plus4)))
  = Some (String a (String b EmptyString), Some (zip ++ plus4)).
Proof.
  intros Ha Hb Hws Hz Hlen Hp. unfold match_state_zip.
  rewrite Ha, Hb. cbn [andb]. rewrite (lstrip_blank_app _ _ Hws).
  destruct zip as [|c zip]; [discriminate Hlen|].
  cbn [Py.all_digits] in Hz. pose proof Hz as Hz'. apply andb_prop in Hz'.
  destruct Hz' as [Hc _].
  change (String c zip ++ plus4) with (String c (zip ++ plus4)).
  cbn [Py.lstrip]. rewrite (digit_not_space _ Hc), (digit_not_comma _ Hc).
  change (String c (zip ++ plus4)) with (String c zip ++ plus4).
  rewrite (match_zip_code (String c zip) plus4 Hz Hlen Hp). reflexivity.
Qed.

Lemma last_two_parts (before : list string) (city_part last_part : string) :
  let parts := map Py.strip (before ++ [city_part; last_part]) in
  (2 <=? length parts)%nat = true
  /\ last parts EmptyString = Py.strip last_part
  /\ nth (length parts - 2) parts EmptyString = Py.strip city_part.
Proof.
  cbv zeta. rewrite map_app. cbn [map].
  split; [apply Nat.leb_le; rewrite length_app; cbn [length]; lia|].
  split.
  - change [Py.strip city_part; Py.strip last_part]
      with ([Py.strip city_part] ++ [Py.strip last_part])%list.
    rewrite app_assoc. apply last_last.
  - rewrite length_app. cbn [length].
    replace (length (map Py.strip before) + 2 - 2)%nat
      with (length (map Py.strip before)) by lia.
    rewrite app_nth2 by lia. rewrite Nat.sub_diag. reflexivity.
Qed.

End address.

(** X19.  The address block.  Let the text of the location element, cut
    at its commas, end with the two parts [city_part] and [last_part].  Then
    the whole text is the address and [city_part], stripped, the city.  If
    [last_part] starts with two capital letters they are the state, and a
    postal code of five digits, with or without [-] and four more, that
    follows them after optional white space is the postal code.  If
    [last_part] does not start with two capital letters, state and postal
    code stay as they were: in "City, ST, 12345" the comma cuts the postal
    code off, so that "ST" is taken for the city and no state is found. *)
Theorem X19_address_parts (address_text : string) (before : list string)
    (city_part last_part : string) (data : gmap string Converter.value) :
  Py.split "," address_text = (before ++ [city_part; last_part])%list ->
  let data' := Profile.extract_address (Some address_text) data in
  data' !! "company_address" = Some (Converter.VStr address_text)
  /\ data' !! "company_city" = Some (Converter.VStr (Py.strip city_part))
  /\ (forall a b ws zip plus4,
        Py.strip last_part = String a (String b (ws ++ zip ++ plus4)) ->
        Py.is_upper a = true -> Py.is_upper b = true ->
        Py.lstrip ws = EmptyString ->
        Py.all_digits zip = true -> String.length zip = 5%nat ->
        plus4 = EmptyString
        \/ (exists d, plus4 = String "-" d /\ Py.all_digits d = true
                      /\ String.length d = 4%nat) ->
        data' !! "company_state"
        = Some (Converter.VStr (String a (String b EmptyString)))
        /\ data' !! "company_zip" = Some (Converter.VStr (zip ++ plus4)))
  /\ (Profile.match_state_zip (Py.strip last_part) = None ->
      data' !! "company_state" = data !! "company_state"
      /\ data' !! "company_zip" = data !! "company_zip").
Proof.
  intros Hsplit data'. subst data'. unfold Profile.extract_address.
  rewrite Hsplit.
  destruct (last_two_parts before city_part last_part) as (Hlen & Hlast & Hcity).
  cbv zeta in Hlen, Hlast, Hcity. rewrite Hlen, Hlast, Hcity, !strip_idem.
  split.
  { rewrite lookup_insert_ne by discriminate.
    destruct (Profile.match_state_zip (Py.strip last_part)) as [[state [zip|]]|];
      rewrite ?lookup_insert_ne by discriminate; apply lookup_insert_eq. }
  split; [apply lookup_insert_eq|].
  split.
  - intros a b ws zip plus4 E Ha Hb Hws Hz Hl Hp.
    rewrite E, (match_state_zip_code a b ws zip plus4 Ha Hb Hws Hz Hl Hp).
    split; rewrite ?lookup_insert_ne by discriminate; apply lookup_insert_eq.
  - intros ->. split; rewrite !lookup_insert_ne by discriminate; reflexivity.
Qed.

Lemma X19_address_parts_witness :
  let data' :=
    Profile.extract_address (Some "123 Main St, San Mateo, CA 94401-1234") ∅ in
  data' !! "company_city" = Some (Converter.VStr "San Mateo")
  /\ data' !! "company_state" = Some (Converter.VStr "CA")
  /\ data' !! "company_zip" = Some (Converter.VStr "94401-1234").
Proof.
  intros data'.
  destruct (X19_address_parts "123 Main St, San Mateo, CA 94401-1234"
              ["123 Main St"] " San Mateo" " CA 94401-1234" ∅ eq_refl)
    as (_ & Hcity & Hzip & _).
  split; [exact Hcity|].
  apply (Hzip "C"%char "A"%char " " "94401" "-1234");
    [reflexivity|reflexivity|reflexivity|reflexivity|reflexivity|reflexivity|].
  right. exists "1234". repeat split; reflexivity.
Defined.

(** What the block makes of "City, ST, 12345". *)
Example address_with_three_parts :
  Profile.address_fields (Profile.extract_address (Some "San Mateo, CA, 94401") ∅)
  = [Converter.VStr "CA"; Converter.VNone; Converter.VNone].
Proof. vm_compute. reflexivity. Qed.

(** ** The practice areas *)

Section practice_areas.

Import Converter Profile.

Lemma contains_no_char (c : ascii) (s : string) :
  Py.contains (String c EmptyString) s = false <-> Py.no_char c s.
Proof.
  induction s as [|a s IH]; [split; [intros _; exact I|reflexivity]|].
  cbn [Py.contains Py.no_char]. unfold Py.startswith. cbn [Py.strip_prefix].
  destruct (Ascii.eqb_spec c a) as [<-|Hn]; cbn [orb].
  - split; [discriminate|]. intros [H _]. contradiction.
  - rewrite IH. split; [intros H; split; [congruence|exact H]|intros [_ H]; exact H].
Qed.

Lemma no_char_lstrip (c : ascii) (s : string) :
  Py.no_char c s -> Py.no_char c (Py.lstrip s).
Proof.
  induction s as [|a s IH]; [trivial|]. cbn [Py.lstrip].
  destruct (Py.is_space a); [intros [_ H]; exact (IH H)|trivial].
Qed.

Lemma span_digits_app (s : string) :
  s = fst (Py.span_digits s) ++ snd (Py.span_digits s).
Proof.
  induction s as [|a s IH]; [reflexivity|]. cbn [Py.span_digits].
  destruct (Py.is_digit a); [|reflexivity].
  destruct (Py.span_digits s) as [d r]. cbn [fst snd] in *.
  change (String a d ++ r) with (String a (d ++ r)). rewrite <- IH. reflexivity.
Qed.

Lemma no_char_span (c : ascii) (s : string) :
  Py.no_char c s -> Py.no_char c (snd (Py.span_digits s)).
Proof.
  induction s as [|a s IH]; [trivial|]. cbn [Py.span_digits].
  destruct (Py.is_digit a); [|trivial].
  intros [_ H]. specialize (IH H). destruct (Py.span_digits s). exact IH.
Qed.

Lemma lstrip_suffix (s : string) : exists p, s = p ++ Py.lstrip s.
Proof.
  induction s as [|a s [p IH]]; [exists EmptyString; reflexivity|].
  cbn [Py.lstrip]. destruct (Py.is_space a); [|exists EmptyString; reflexivity].
  exists (String a p). change (String a p ++ Py.lstrip s) with (String a (p ++ Py.lstrip s)).
  rewrite <- IH. reflexivity.
Qed.

Lemma lstrip_idem (s : string) : Py.lstrip (Py.lstrip s) = Py.lstrip s.
Proof.
  induction s as [|a s IH]; [reflexivity|]. cbn [Py.lstrip].
  destruct (Py.is_space a) eqn:E; [exact IH|]. cbn [Py.lstrip]. rewrite E. reflexivity.
Qed.

(** A text without white space at its end has none at the end of its
    tails. *)
Lemma rstrip_tail (a : ascii) (s : string) :
  Py.rstrip (String a s) = String a s -> Py.rstrip s = s.
Proof.
  cbn [Py.rstrip]. destruct (Py.rstrip s) as [|b r] eqn:E.
  - destruct (Py.is_space a); [discriminate|]. intros [= <-]. reflexivity.
  - intros [= <-]. reflexivity.
Qed.

Lemma rstrip_lstrip (s : string) :
  Py.rstrip s = s -> Py.rstrip (Py.lstrip s) = Py.lstrip s.
Proof.
  induction s as [|a s IH]; [trivial|]. intros H. cbn [Py.lstrip].
  destruct (Py.is_space a); [|exact H]. apply IH, (rstrip_tail a), H.
Qed.

Lemma rstrip_span (s : string) :
  Py.rstrip s = s -> Py.rstrip (snd (Py.span_digits s)) = snd (Py.span_digits s).
Proof.
  induction s as [|a s IH]; [trivial|]. intros H. cbn [Py.span_digits].
  destruct (Py.is_digit a); [|exact H].
  specialize (IH (rstrip_tail a s H)). destruct (Py.span_digits s). exact IH.
Qed.

(** Without a [%] in the text the second substitution finds nothing. *)
Lemma drop_trailing_no_percent (s : string) :
  Py.no_char "%" s -> drop_trailing_percent s = s.
Proof.
  induction s as [|a s IH]; [reflexivity|]. intros H.
  pose proof (no_char_lstrip _ _ H) as Hl. cbn [drop_trailing_percent].
  destruct (Py.lstrip (String a s)) as [|c e].
  - destruct H as [_ H]. rewrite (IH H). reflexivity.
  - destruct Hl as [Hc _].
    destruct (Ascii.eqb_spec c "%") as [->|_]; [contradiction|].
    cbn [andb]. destruct H as [_ H]. rewrite (IH H). reflexivity.
Qed.

(** What the two substitutions leave of a stripped text without [%]: a
    tail of it, stripped and without [%]. *)
Lemma substitutions_tail (x : string) :
  Py.no_char "%" x -> Py.lstrip x = x -> Py.rstrip x = x ->
  let y := drop_trailing_percent (drop_leading_number x) in
  Py.no_char "%" y /\ Py.strip y = y /\ exists p, x = p ++ y.
Proof.
  intros Hp Hl Hr. cbv zeta.
  assert (Py.no_char "%" (drop_leading_number x)
          /\ Py.lstrip (drop_leading_number x) = drop_leading_number x
          /\ Py.rstrip (drop_leading_number x) = drop_leading_number x
          /\ exists p, x = p ++ drop_leading_number x) as (H1 & H2 & H3 & H4).
  { unfold drop_leading_number.
    pose proof (span_digits_app x) as Happ.
    pose proof (no_char_span _ _ Hp) as Hs.
    pose proof (rstrip_span _ Hr) as Hrs.
    destruct (Py.span_digits x) as [d r]. cbn [fst snd] in *.
    destruct d as [|d0 d].
    - repeat split; try assumption. exists EmptyString. reflexivity.
    - pose proof (no_char_lstrip _ _ Hs) as Hls.
      pose proof (lstrip_idem r) as Hli.
      pose proof (rstrip_lstrip _ Hrs) as Hrl.
      destruct (lstrip_suffix r) as [q Hq].
      destruct (Py.lstrip r) as [|c r'] eqn:E.
      + repeat split; try assumption.
        exists (String d0 d ++ q). rewrite Happ, Hq at 1.
        rewrite append_empty, append_empty. reflexivity.
      + destruct Hls as [Hc Hr'].
        destruct (Ascii.eqb_spec c "%") as [->|_]; [contradiction|].
        repeat split; try assumption.
        exists (String d0 d ++ q). rewrite Happ at 1. rewrite Hq at 1.
        clear. induction (String d0 d) as [|a s IH]; [reflexivity|].
        change (String a s ++ q ++ String c r' = String a ((s ++ q) ++ String c r')).
        change (String a s ++ q ++ String c r') with (String a (s ++ q ++ String c r')).
        rewrite IH. reflexivity. }
  rewrite (drop_trailing_no_percent _ H1).
  split; [exact H1|]. split; [|exact H4].
  unfold Py.strip. rewrite H2. exact H3.
Qed.

Lemma not_in_spec (s : string) (l : list string) : not_in s l = true <-> ~ In s l.
Proof.
  unfold not_in. rewrite negb_true_iff. split.
  - intros H Hin. assert (existsb (String.eqb s) l = true) as E; [|congruence].
    apply existsb_exists. exists s. split; [exact Hin|apply String.eqb_refl].
  - intros H. destruct (existsb (String.eqb s) l) eqn:E; [|reflexivity].
    apply existsb_exists in E. destruct E as (x & Hx & Ex).
    apply String.eqb_eq in Ex. subst x. contradiction.
Qed.

Lemma clean_practice_areas_inv (sources : list string) (practice_areas : list string)
    (cleaned : list string) :
  (forall pa, In pa practice_areas -> In pa sources) ->
  List.NoDup cleaned -> Forall (clean_name sources) cleaned ->
  List.NoDup (clean_practice_areas cleaned practice_areas)
  /\ Forall (clean_name sources) (clean_practice_areas cleaned practice_areas).
Proof.
  revert cleaned. induction practice_areas as [|pa rest IH]; intros cleaned Hs Hn Hf;
    cbn [clean_practice_areas]; [split; assumption|].
  assert (forall pa', In pa' rest -> In pa' sources) as Hs'
      by (intros pa' H; apply Hs; right; exact H).
  destruct (Py.truthy (Py.strip pa) && negb (Py.isdigit (Py.strip pa))
            && negb (Py.contains "%" (Py.strip pa))
            && (2 <? String.length (Py.strip pa))%nat) eqn:Eg; [|apply IH; assumption].
  destruct (Py.truthy _ && not_in _ cleaned) eqn:Ea; [|apply IH; assumption].
  apply andb_prop in Ea. destruct Ea as [Et Ei]. apply not_in_spec in Ei.
  apply andb_prop in Eg. destruct Eg as [Eg _].
  apply andb_prop in Eg. destruct Eg as [_ Ep]. apply negb_true_iff in Ep.
  destruct (substitutions_tail (Py.strip pa)) as (Y1 & Y2 & p & Y3).
  { apply contains_no_char. exact Ep. }
  { unfold Py.strip. apply lstrip_rstrip_started. }
  { unfold Py.strip. apply rstrip_idem. }
  cbv zeta in Y1, Y2, Y3. apply IH; [exact Hs'| |].
  - apply NoDup_app; [exact Hn|repeat constructor; intros []|].
    intros y Hy [<-|[]]. contradiction.
  - apply Forall_app. split; [exact Hf|]. constructor; [|constructor].
    split; [intros E; rewrite E in Et; discriminate Et|].
    split; [apply contains_no_char; exact Y1|]. split; [exact Y2|].
    exists pa, p. split; [apply Hs; left; reflexivity|exact Y3].
Qed.

Lemma clean_practice_areas_grows (practice_areas cleaned : list string) (y : string) :
  In y cleaned -> In y (clean_practice_areas cleaned practice_areas).
Proof.
  revert cleaned. induction practice_areas as [|pa rest IH]; intros cleaned H;
    cbn [clean_practice_areas]; [exact H|].
  apply IH. destruct (_ && _ && _ && _); [|exact H].
  destruct (_ && _); [apply in_or_app; left; exact H|exact H].
Qed.

(** A name that does not start with a digit is kept as it is. *)
Lemma clean_practice_areas_keeps (practice_areas cleaned : list string)
    (pa : string) (c : ascii) (r : string) :
  In pa practice_areas -> Py.strip pa = String c r -> Py.is_digit c = false ->
  Py.contains "%" (Py.strip pa) = false -> (2 < String.length (Py.strip pa))%nat ->
  In (Py.strip pa) (clean_practice_areas cleaned practice_areas).
Proof.
  intros Hin Hx Hc Hp Hlen. revert cleaned.
  induction practice_areas as [|pa' rest IH]; intros cleaned; [destruct Hin|].
  cbn [clean_practice_areas]. destruct Hin as [->|Hin]; [|apply IH; exact Hin].
  apply clean_practice_areas_grows.
  assert (drop_trailing_percent (drop_leading_number (Py.strip pa)) = Py.strip pa)
    as Hy.
  { rewrite drop_trailing_no_percent.
    - unfold drop_leading_number. rewrite Hx. cbn [Py.span_digits]. rewrite Hc.
      reflexivity.
    - unfold drop_leading_number. rewrite Hx. cbn [Py.span_digits]. rewrite Hc.
      rewrite <- Hx. apply contains_no_char. exact Hp. }
  rewrite Hy, Hp. apply Nat.ltb_lt in Hlen. rewrite Hlen.
  rewrite Hx. cbn [Py.truthy Py.isdigit Py.all_digits]. rewrite Hc. cbn [andb negb].
  rewrite <- Hx.
  destruct (not_in (Py.strip pa) cleaned) eqn:E.
  - apply in_or_app. right. left. reflexivity.
  - unfold not_in in E. apply negb_false_iff, existsb_exists in E.
    destruct E as (x & Hin & Ex). apply String.eqb_eq in Ex. subst x. exact Hin.
Qed.

End practice_areas.

(** X20.  The cleaning of the practice areas.  The cleaned list has no
    repetition.  Each of its names is not empty, holds no [%], has no white
    space at either end and is the end of one of the gathered names,
    stripped (what is cut off in front is a leading number).  A gathered
    name that, stripped, is longer than two characters, holds no [%] and
    does not start with a digit is in the list as it is.  The record gets
    the names joined by a comma and a space, and the first of them as
    primary practice area; when no name is left the record stays as it
    was. *)
Theorem X20_practice_areas_cleaned (practice_areas : list string) :
  let cleaned := Profile.clean_practice_areas [] practice_areas in
  List.NoDup cleaned
  /\ Forall (Profile.clean_name practice_areas) cleaned
  /\ (forall pa c r,
        In pa practice_areas -> Py.strip pa = String c r ->
        Py.is_digit c = false -> Py.contains "%" (Py.strip pa) = false ->
        (2 < String.length (Py.strip pa))%nat -> In (Py.strip pa) cleaned)
  /\ (forall data,
        match cleaned with
        | [] => Profile.set_practice_areas practice_areas data = data
        | first :: _ =>
            Profile.set_practice_areas practice_areas data !! "practice_areas"
            = Some (Converter.VStr (Py.join ", " cleaned))
            /\ Profile.set_practice_areas practice_areas data
                !! "primary_practice_area"
               = Some (Converter.VStr first)
        end).
Proof.
  intros cleaned.
  destruct (clean_practice_areas_inv practice_areas practice_areas []) as [Hn Hf];
    [trivial|constructor|constructor|].
  split; [exact Hn|]. split; [exact Hf|].
  split; [intros pa c r; apply clean_practice_areas_keeps|].
  intros data. unfold Profile.set_practice_areas. fold cleaned.
  destruct cleaned as [|first others]; [reflexivity|].
  split; [rewrite lookup_insert_ne by discriminate|]; apply lookup_insert_eq.
Qed.

Lemma X20_practice_areas_cleaned_witness :
  List.NoDup (Profile.clean_practice_areas [] [" Family "; "12 Family"; "50%"])
  /\ In "Family" (Profile.clean_practice_areas [] [" Family "; "12 Family"; "50%"]).
Proof.
  destruct (X20_practice_areas_cleaned [" Family "; "12 Family"; "50%"])
    as (Hn & _ & Hk & _).
  split; [exact Hn|].
  apply (Hk " Family " "F"%char "amily");
    [left; reflexivity|reflexivity|reflexivity|reflexivity|].
  change (2 < 6)%nat. lia.
Defined.

Example practice_areas_cleaned :
  Profile.clean_practice_areas []
    [ "Immigration"; " Family "; "12"; "50%"; "12 Family"; "3Criminal Defense";
      "ab"; "12 34"; "Immigration" ]
  = [ "Immigration"; "Family"; "Criminal Defense"; "34" ].
Proof. vm_compute. reflexivity. Qed.

(** ** Texts the date parser accepts *)

Section accepted_dates.

Import DateTime Scraper Calendar.

Ltac range_cases k lo hi :=
  let H := fresh in
  assert (lo <= k <= hi) as H by lia;
  let rec go n :=
    (let E := fresh in
     destruct (Z.eq_dec k n) as [E|E];
     [ subst k
     | tryif (assert (n + 1 > hi) by lia) then exfalso; lia
       else (let n' := eval cbv in (n + 1) in go n') ])
  in go lo.

(** The first way to match an item, when what follows matches. *)
Lemma re_match_first_alternative (it : item) (fmt : list item) (s r : string)
    (f : fields) (v : Z) (rest : list (Z * string)) (res : fields * string) :
  alternatives it s = (v, r) :: rest ->
  re_match fmt r (set_field it v f) = Some res ->
  re_match (it :: fmt) s f = Some res.
Proof. intros H1 H2. cbn [re_match]. rewrite H1, H2. reflexivity. Qed.

(** A full month name is read as its month. *)
Lemma month_name_read (m : Z) (t : string) :
  1 <= m <= 12 ->
  alternatives (Dir dB) (month_name m ++ " " ++ t) = [(m, " " ++ t)].
Proof. intros Hm. range_cases m 1 12; reflexivity. Qed.

(** The number of a day is read as that day, before a comma. *)
Lemma day_number_read (d' : Z) (t : string) :
  1 <= d' <= 31 ->
  exists rest,
    alternatives Ws (" " ++ str d' ++ ", " ++ t) = [(0, str d' ++ ", " ++ t)]
    /\ alternatives (Dir dd) (str d' ++ ", " ++ t) = (d', ", " ++ t) :: rest.
Proof.
  intros Hd. range_cases d' 1 31; eexists; split; reflexivity.
Qed.

(** The four digits of a year, at the end of the text. *)
Lemma year_read (y : Z) (f : fields) :
  1 <= y <= 9999 ->
  re_match [Lit ","; Ws; Dir dY] (", " ++ Py.pad4 y) f
  = Some (mk_fields y (f_month f) (f_day f), EmptyString).
Proof.
  intros Hy.
  set (a := y / 1000 mod 10). set (b := y / 100 mod 10).
  set (c := y / 10 mod 10). set (e := y mod 10).
  assert (0 <= a < 10) as Ha by (apply Z.mod_pos_bound; lia).
  assert (0 <= b < 10) as Hb by (apply Z.mod_pos_bound; lia).
  assert (0 <= c < 10) as Hc by (apply Z.mod_pos_bound; lia).
  assert (0 <= e < 10) as He by (apply Z.mod_pos_bound; lia).
  assert (1000 * a + 100 * b + 10 * c + e = y) as Ey
    by (subst a b c e; Z.to_euclidean_division_equations; lia).
  change (Py.pad4 y)
    with (String (Py.digit_char a) (String (Py.digit_char b)
            (String (Py.digit_char c) (String (Py.digit_char e) EmptyString)))).
  set (digits := String (Py.digit_char a) _).
  apply (re_match_first_alternative (Lit ",") _ _ (" " ++ digits) _ 0 []);
    [reflexivity|].
  apply (re_match_first_alternative Ws _ _ digits _ 0 []).
  { change (alternatives Ws (" " ++ digits)) with (ws_alts digits ++ [(0, digits)])%list.
    subst digits. cbn [ws_alts].
    destruct (digit_char_facts a Ha) as (_ & -> & _). reflexivity. }
  rewrite (re_match_one_alternative _ _ _ _ _ _ (year_digits a b c e EmptyString Ha Hb Hc He)).
  rewrite Ey. reflexivity.
Qed.

Lemma rstrip_app_no_space (p t : string) :
  Py.no_space t -> t <> EmptyString -> Py.rstrip (p ++ t) = p ++ t.
Proof.
  intros Ht Hne. induction p as [|c p IH].
  - apply rstrip_no_space. exact Ht.
  - change (String c p ++ t) with (String c (p ++ t)). cbn [Py.rstrip].
    rewrite IH. destruct (p ++ t) eqn:E; [|reflexivity].
    destruct p; [|discriminate E]. contradiction.
Qed.

Lemma pad4_no_space (y : Z) : Py.no_space (Py.pad4 y).
Proof.
  unfold Py.pad4, Py.pad2. cbn [Py.no_space].
  repeat (split; [apply digit_char_facts, Z.mod_pos_bound; lia|]). exact I.
Qed.

Lemma append_assoc (a b c : string) : (a ++ b) ++ c = a ++ b ++ c.
Proof.
  induction a as [|x a IH]; [reflexivity|].
  change (String x ((a ++ b) ++ c) = String x (a ++ b ++ c)). rewrite IH.
  reflexivity.
Qed.

Lemma long_form_stripped (y m d' : Z) :
  1 <= m <= 12 -> Py.strip (long_form y m d') = long_form y m d'.
Proof.
  intros Hm. unfold Py.strip, long_form.
  assert (Py.lstrip (month_name m ++ " " ++ str d' ++ ", " ++ Py.pad4 y)
          = month_name m ++ " " ++ str d' ++ ", " ++ Py.pad4 y) as ->
      by (range_cases m 1 12; reflexivity).
  assert (month_name m ++ " " ++ str d' ++ ", " ++ Py.pad4 y
          = (month_name m ++ " " ++ str d' ++ ", ") ++ Py.pad4 y) as ->.
  { rewrite !append_assoc. reflexivity. }
  apply rstrip_app_no_space; [apply pad4_no_space|discriminate].
Qed.

End accepted_dates.

(** X21.  White space around a date text does not matter to
    [parse_review_date], and a text that is empty or all white space gives
    [None]. *)
Theorem X21_date_text_stripped (s : string) :
  Scraper.parse_review_date (Some s) = Scraper.parse_review_date (Some (Py.strip s))
  /\ (Py.strip s = EmptyString -> Scraper.parse_review_date (Some s) = None).
Proof.
  rewrite !parse_review_date_strip, strip_idem. split; [reflexivity|].
  intros ->. apply first_format_empty. repeat constructor; discriminate.
Qed.

Lemma X21_date_text_stripped_witness :
  Scraper.parse_review_date (Some "   ") = None.
Proof. exact (proj2 (X21_date_text_stripped "   ") eq_refl). Defined.

(** X22.  Every day of the calendar, written as the site writes it (the
    English name of the month, the number of the day, a comma and the year
    in four digits, as in "February 1, 2018"), is read by
    [parse_review_date] as that day, at midnight. *)
Theorem X22_long_form_read (y m d : Z) :
  DateTime.valid_date y m d = true ->
  Scraper.parse_review_date (Some (Calendar.long_form y m d))
  = Some (DateTime.mk_datetime y m d 0 0 0 0).
Proof.
  intros Hv. pose proof Hv as Hb. unfold DateTime.valid_date in Hb.
  repeat (apply andb_prop in Hb; destruct Hb as [Hb ?]).
  pose proof (days_in_month_le y m).
  assert (1 <= y <= 9999 /\ 1 <= m <= 12 /\ 1 <= d <= 31) as (Hy & Hm & Hd) by lia.
  rewrite parse_review_date_strip, (long_form_stripped y m d Hm).
  unfold Scraper.date_formats. cbn [DateTime.first_format].
  assert (DateTime.strptime (Calendar.long_form y m d)
            [DateTime.Dir DateTime.dB; DateTime.Ws; DateTime.Dir DateTime.dd;
             DateTime.Lit ","; DateTime.Ws; DateTime.Dir DateTime.dY]
          = Some (DateTime.mk_datetime y m d 0 0 0 0)) as ->; [|reflexivity].
  unfold DateTime.strptime, Calendar.long_form.
  destruct (day_number_read d (Py.pad4 y) Hd) as (rest & Hws & Hday).
  rewrite (re_match_one_alternative _ _ _ _ _ _ (month_name_read m _ Hm)).
  rewrite (re_match_one_alternative _ _ _ _ _ _ Hws).
  rewrite (re_match_first_alternative _ _ _ _ _ _ _ _ Hday (year_read y _ Hy)).
  cbn [DateTime.set_field DateTime.no_fields DateTime.f_year DateTime.f_month
       DateTime.f_day].
  rewrite Hv. reflexivity.
Qed.

Lemma X22_long_form_read_witness :
  Scraper.parse_review_date (Some "February 29, 2024")
  = Some (DateTime.mk_datetime 2024 2 29 0 0 0 0).
Proof. exact (X22_long_form_read 2024 2 29 eq_refl). Defined.
